(** * snax.system: bandwidth delegation, RAM market and refunds

    A shallow embedding of [contracts/snax.system/delegate_bandwidth.cpp]:
    the actions [buyram], [sellram], [changebw], [delegatebw],
    [undelegatebw], [escrowbw] and [refund], over an explicit ledger state,
    in an error monad whose failure is the abort of the whole action. *)

From stdpp Require Import base decidable option list sorting gmap strings.
From Stdlib Require Import ZArith Lia.
From Stdlib.Floats Require Import SpecFloat.

Open Scope Z_scope.

(** ** Machine integers *)

(** The value of a two's-complement [w]-bit pattern, and of an unsigned one. *)
Definition wrap_signed (w x : Z) : Z := (x + 2 ^ (w - 1)) mod 2 ^ w - 2 ^ (w - 1).
Definition wrap_unsigned (w x : Z) : Z := x mod 2 ^ w.

Definition int64 (x : Z) : Z := wrap_signed 64 x.
Definition uint64 (x : Z) : Z := wrap_unsigned 64 x.
Definition uint32 (x : Z) : Z := wrap_unsigned 32 x.

Definition int64_min : Z := - 2 ^ 63.
Definition int64_max : Z := 2 ^ 63 - 1.
Definition in_int64 (x : Z) : Prop := int64_min <= x <= int64_max.

(** [std::abs] on [int64_t]. *)
Definition abs64 (x : Z) : Z := int64 (Z.abs x).

(** ** Aborting computations *)

Inductive result (A : Type) : Type :=
| Ok (a : A)
| Abort (msg : string).
Arguments Ok {A} a.
Arguments Abort {A} msg.

#[global] Instance result_ret : MRet result := fun A a => Ok a.
#[global] Instance result_bind : MBind result :=
  fun A B f m => match m with Ok a => f a | Abort msg => Abort msg end.

Definition snax_assert (cond : bool) (msg : string) : result unit :=
  if cond then Ok tt else Abort msg.

Definition aborts {A} (r : result A) : Prop := exists msg, r = Abort msg.
Definition succeeds {A} (r : result A) : Prop := exists a, r = Ok a.

(** Signed 64-bit division truncates; a zero divisor traps. *)
Definition div64 (a b : Z) : result Z :=
  if b =? 0 then Abort "integer divide by zero" else Ok (int64 (Z.quot a b)).

(** ** Names and symbols *)

(** An [account_name] is the 64-bit encoding of a short string; [N(x)] is
    represented by the string it encodes. *)
Definition account_name : Type := string.

(** The name 0, which stands for no account. *)
Definition no_account : account_name := EmptyString.

(** A symbol [S(p, X)] is a precision with a code. *)
Definition symbol_type : Type := (Z * string)%type.

(** Modelled from the spec: [CORE_SYMBOL] is declared in a header that is not
    among the sources; it is the unit of the core currency, "a currency-unit
    tag and fixed decimal precision". *)
Definition CORE_SYMBOL : symbol_type := (4, "SNAX"%string).
Definition RAM_SYMBOL : symbol_type := (0, "RAM"%string).
Definition RAMCORE_SYMBOL : symbol_type := (4, "RAMCORE"%string).

(** ** Assets *)

Record asset : Type := Asset { amount : Z; symbol : symbol_type }.

#[global] Instance asset_eq_dec : EqDecision asset.
Proof. solve_decision. Defined.

(** Modelled from the spec: the [asset] type lives in snaxlib, which is not
    among the sources.  The spec describes it as "a signed 64-bit integer
    magnitude paired with a currency-unit tag" whose arithmetic "must check
    for overflow and refuse cross-unit operations", a value type "with checked
    add/subtract/compare".  The magnitude bound is the library's
    [max_amount]. *)
Definition max_amount : Z := 2 ^ 62 - 1.

Definition is_amount_within_range (a : Z) : bool :=
  (- max_amount <=? a) && (a <=? max_amount).

(** [asset(a, s)]: the constructor checks the magnitude. *)
Definition mk_asset (a : Z) (s : symbol_type) : result asset :=
  snax_assert (is_amount_within_range a)
    "magnitude of asset amount must be less than 2^62";;
  Ok (Asset a s).

(** [asset(0)] and [asset()]. *)
Definition asset0 : asset := Asset 0 CORE_SYMBOL.

Definition asset_add (a b : asset) : result asset :=
  snax_assert (bool_decide (symbol b = symbol a))
    "attempt to add asset with different symbol";;
  let r := int64 (amount a + amount b) in
  snax_assert (- max_amount <=? r) "addition underflow";;
  snax_assert (r <=? max_amount) "addition overflow";;
  Ok (Asset r (symbol a)).

Definition asset_sub (a b : asset) : result asset :=
  snax_assert (bool_decide (symbol b = symbol a))
    "attempt to subtract asset with different symbol";;
  let r := int64 (amount a - amount b) in
  snax_assert (- max_amount <=? r) "subtraction underflow";;
  snax_assert (r <=? max_amount) "subtraction overflow";;
  Ok (Asset r (symbol a)).

(** Unary minus does not check anything. *)
Definition asset_neg (a : asset) : asset :=
  Asset (int64 (- amount a)) (symbol a).

Definition asset_cmp (op : Z -> Z -> bool) (a b : asset) : result bool :=
  snax_assert (bool_decide (symbol a = symbol b))
    "comparison of assets with different symbols is not allowed";;
  Ok (op (amount a) (amount b)).

Definition asset_eq : asset -> asset -> result bool := asset_cmp Z.eqb.
Definition asset_lt : asset -> asset -> result bool := asset_cmp Z.ltb.
Definition asset_le : asset -> asset -> result bool := asset_cmp Z.leb.
Definition asset_ne : asset -> asset -> result bool :=
  asset_cmp (fun x y => negb (x =? y)).
Definition asset_gt : asset -> asset -> result bool := asset_cmp Z.gtb.
Definition asset_ge : asset -> asset -> result bool := asset_cmp Z.geb.

(** ** Table rows *)

Module user_resources.
Record t : Type := mk
  { owner : account_name;
    net_weight : asset;
    cpu_weight : asset;
    ram_bytes : Z }.
Definition primary_key (r : t) : account_name := owner r.
End user_resources.

(** Every user [from] has a scope that uses every recipient [to] as the
    primary key. *)
Module delegated_bandwidth.
Record t : Type := mk
  { from : account_name;
    to : account_name;
    net_weight : asset;
    cpu_weight : asset }.
Definition primary_key (r : t) : account_name := to r.
End delegated_bandwidth.

Module refund_request.
Record t : Type := mk
  { owner : account_name;
    request_time : Z;
    net_amount : asset;
    cpu_amount : asset }.
Definition primary_key (r : t) : account_name := owner r.
End refund_request.

(** Modelled from the spec: the escrow row is declared in the contract's
    header, which is not among the sources.  "EscrowRecord: {owner,
    initialAmount: Asset, amount: Asset (remaining-locked), created:
    timestamp, periodCount: uint8}".  [created] holds the clock, in
    seconds, at which the row was written; the contract keeps the
    [block_timestamp] built from it, so whatever reads [created] goes
    through [block_timestamp]. *)
Module escrow_bandwidth.
Record t : Type := mk
  { owner : account_name;
    initial_amount : asset;
    amount : asset;
    created : Z;
    period_count : Z }.
End escrow_bandwidth.

(** Modelled from the spec: "VoterStakeRecord: {owner, stakedAmount: int64,
    delegationList, proxy}", declared in the contract's header. *)
Module voter_info.
Record t : Type := mk
  { owner : account_name;
    proxy : account_name;
    producers : list account_name;
    staked : Z }.
Definition primary_key (r : t) : account_name := owner r.
End voter_info.

(** The fields of the global state that this file reads or writes. *)
Module global_state.
Record t : Type := mk
  { resources_market_open : bool;
    total_ram_bytes_reserved : Z;
    total_ram_stake : Z;
    total_activated_stake : Z }.
End global_state.

(** ** The chain's side of an action *)

(** An inline [snax.token::transfer], queued by the action. *)
Record token_transfer : Type := Transfer
  { tr_auth : account_name;
    tr_from : account_name;
    tr_to : account_name;
    tr_quantity : asset;
    tr_memo : string }.

(** The deferred transaction that [changebw] sends: one [refund] action. *)
Record deferred_refund : Type := Deferred
  { dr_actor : account_name;
    dr_owner : account_name;
    dr_delay_sec : Z;
    dr_payer : account_name }.

(** What an action reads from the chain: the clock, the authorisations of
    the transaction and the privileged accounts. *)
Record context : Type := Context
  { now : Z;
    has_auth : account_name -> bool;
    is_privileged : account_name -> bool }.

Definition require_auth (ctx : context) (a : account_name) : result unit :=
  snax_assert (has_auth ctx a) "missing required authority".

Definition refund_delay : Z := 3 * 24 * 3600.
Definition seconds_per_year : Z := 52 * 7 * 24 * 3600.

(** ** The vesting check of the genesis account *)

Definition double_of_Z (z : Z) : spec_float := binary_normalize 53 1024 z 0 false.
Definition double_mul : spec_float -> spec_float -> spec_float := SFmul 53 1024.
Definition double_div : spec_float -> spec_float -> spec_float := SFdiv 53 1024.

(** [int64_t(d)] truncates towards zero; it is not defined on infinities
    and NaN. *)
Definition int64_of_double (d : spec_float) : result Z :=
  match d with
  | S754_zero _ => Ok 0
  | S754_finite s m e =>
      let v := if 0 <=? e then Z.pos m * 2 ^ e else Z.quot (Z.pos m) (2 ^ (- e)) in
      Ok (int64 (if s then - v else v))
  | _ => Abort "invalid conversion to integer"
  end.

Definition base_time : Z := 1527811200.
Definition max_claimable : Z := 1000000000000.

Definition b1_claimable (ctx : context) : result Z :=
  int64_of_double
    (double_div
       (double_mul (double_of_Z max_claimable) (double_of_Z (int64 (now ctx - base_time))))
       (double_of_Z (uint64 (10 * seconds_per_year)))).

Definition validate_b1_vesting (ctx : context) (stake : Z) : result unit :=
  claimable ← b1_claimable ctx;
  snax_assert (int64 (max_claimable - claimable) <=? stake)
    "b1 can only claim their tokens over 10 years".


(** ** The ledger *)

Section Contract.

(** The market maker of [exchange_state.cpp] and the vote propagation of
    [voting.cpp] are not among the sources: [convert] and [update_votes]
    are taken as they are declared, over their own pieces of state. *)
Context {exchange_state producers_state : Type}.

Variable convert :
  exchange_state -> asset -> symbol_type -> result (exchange_state * asset).

Variable update_votes :
  account_name -> account_name -> list account_name -> bool ->
  gmap account_name voter_info.t * global_state.t * producers_state ->
  result (gmap account_name voter_info.t * global_state.t * producers_state).

(** [convert] returns an asset that it has constructed, so within range. *)
Definition convert_within_range : Prop :=
  forall m a s es,
    convert m a s = Ok es -> is_amount_within_range (amount es.2) = true.

Variable min_activated_stake : Z.

(** The primary key of an escrow row, declared with the row. *)
Variable escrow_primary_key : escrow_bandwidth.t -> N.

(** Tables are keyed by scope and primary key. *)
Record state : Type := State
  { _gstate : global_state.t;
    _rammarket : option exchange_state;
    userres : gmap (account_name * account_name) user_resources.t;
    delband : gmap (account_name * account_name) delegated_bandwidth.t;
    refunds : gmap (account_name * account_name) refund_request.t;
    escrow : gmap (account_name * N) escrow_bandwidth.t;
    _voters : gmap account_name voter_info.t;
    _producers : producers_state;
    resource_limits : gmap account_name (Z * Z * Z);
    inline_actions : list token_transfer;
    deferred : gmap account_name deferred_refund }.

Definition set_gstate (g : global_state.t) (st : state) : state :=
  State g (_rammarket st) (userres st) (delband st) (refunds st) (escrow st)
    (_voters st) (_producers st) (resource_limits st) (inline_actions st) (deferred st).
Definition set_rammarket (m : option exchange_state) (st : state) : state :=
  State (_gstate st) m (userres st) (delband st) (refunds st) (escrow st)
    (_voters st) (_producers st) (resource_limits st) (inline_actions st) (deferred st).
Definition set_userres (t : gmap (account_name * account_name) user_resources.t)
    (st : state) : state :=
  State (_gstate st) (_rammarket st) t (delband st) (refunds st) (escrow st)
    (_voters st) (_producers st) (resource_limits st) (inline_actions st) (deferred st).
Definition set_delband (t : gmap (account_name * account_name) delegated_bandwidth.t)
    (st : state) : state :=
  State (_gstate st) (_rammarket st) (userres st) t (refunds st) (escrow st)
    (_voters st) (_producers st) (resource_limits st) (inline_actions st) (deferred st).
Definition set_refunds (t : gmap (account_name * account_name) refund_request.t)
    (st : state) : state :=
  State (_gstate st) (_rammarket st) (userres st) (delband st) t (escrow st)
    (_voters st) (_producers st) (resource_limits st) (inline_actions st) (deferred st).
Definition set_escrow (t : gmap (account_name * N) escrow_bandwidth.t)
    (st : state) : state :=
  State (_gstate st) (_rammarket st) (userres st) (delband st) (refunds st) t
    (_voters st) (_producers st) (resource_limits st) (inline_actions st) (deferred st).
Definition set_voting
    (v : gmap account_name voter_info.t * global_state.t * producers_state)
    (st : state) : state :=
  State (v.1.2) (_rammarket st) (userres st) (delband st) (refunds st) (escrow st)
    (v.1.1) (v.2) (resource_limits st) (inline_actions st) (deferred st).
Definition set_voters (t : gmap account_name voter_info.t) (st : state) : state :=
  State (_gstate st) (_rammarket st) (userres st) (delband st) (refunds st) (escrow st)
    t (_producers st) (resource_limits st) (inline_actions st) (deferred st).

(** [set_resource_limits( account, ram, net, cpu )]. *)
Definition set_resource_limits (a : account_name) (ram net cpu : Z) (st : state) : state :=
  State (_gstate st) (_rammarket st) (userres st) (delband st) (refunds st) (escrow st)
    (_voters st) (_producers st) (<[a := (ram, net, cpu)]> (resource_limits st))
    (inline_actions st) (deferred st).

(** [INLINE_ACTION_SENDER(snax::token, transfer)]: the transfer is queued
    and runs after the action. *)
Definition send_transfer (t : token_transfer) (st : state) : state :=
  State (_gstate st) (_rammarket st) (userres st) (delband st) (refunds st) (escrow st)
    (_voters st) (_producers st) (resource_limits st) (inline_actions st ++ [t])
    (deferred st).

Definition set_deferred (d : gmap account_name deferred_refund) (st : state) : state :=
  State (_gstate st) (_rammarket st) (userres st) (delband st) (refunds st) (escrow st)
    (_voters st) (_producers st) (resource_limits st) (inline_actions st) d.

(** [cancel_deferred( sender_id )] and [out.send( sender_id, payer, true )]. *)
Definition cancel_deferred (id : account_name) (st : state) : state :=
  set_deferred (delete id (deferred st)) st.
Definition send_deferred (id : account_name) (d : deferred_refund) (st : state) : state :=
  set_deferred (<[id := d]> (deferred st)) st.

(** [emplace] stores a row under its primary key, which must be free. *)
Definition emplace {K R : Type} `{Countable K} (k : K) (r : R) (t : gmap K R) :
    result (gmap K R) :=
  match t !! k with
  | None => Ok (<[k := r]> t)
  | Some _ => Abort "primary key already in use"
  end.

(** [a && b] and [a || b] evaluate [b] only when they need it. *)
Definition and_then (a b : result bool) : result bool :=
  x ← a; if x : bool then b else Ok false.
Definition or_else (a b : result bool) : result bool :=
  x ← a; if x : bool then Ok true else b.

(** ** RAM market actions *)

(** The 0.5% fee, rounded up: [( amount + 199 ) / 200]. *)
Definition ram_fee (a : Z) : Z := Z.quot (int64 (a + 199)) 200.

(** [fee] and [quant_after_fee] of [buyram]. *)
Definition buyram_fee (quant : asset) : asset :=
  Asset (ram_fee (amount quant)) (symbol quant).
Definition buyram_quant_after_fee (quant : asset) : asset :=
  Asset (int64 (amount quant - amount (buyram_fee quant))) (symbol quant).

Definition buyram (ctx : context) (payer receiver : account_name) (quant : asset)
    (st : state) : result state :=
  require_auth ctx payer;;
  snax_assert (0 <? amount quant) "must purchase a positive amount";;
  snax_assert (global_state.resources_market_open (_gstate st) || is_privileged ctx payer)
    "ram market must be open or user must be privileged to buy ram";;
  let fee := buyram_fee quant in
  let quant_after_fee := buyram_quant_after_fee quant in
  let st := send_transfer
              (Transfer payer payer "snax.ram" quant_after_fee "buy ram") st in
  let st := if 0 <? amount fee
            then send_transfer (Transfer payer payer "snax.ramfee" fee "ram fee") st
            else st in
  market ← match _rammarket st with
           | Some m => Ok m
           | None => Abort "ram market does not exist"
           end;
  es ← convert market quant_after_fee RAM_SYMBOL;
  let bytes_out := amount es.2 in
  let st := set_rammarket (Some es.1) st in
  snax_assert (0 <? bytes_out) "must reserve a positive amount";;
  let g := _gstate st in
  let st := set_gstate
              (global_state.mk (global_state.resources_market_open g)
                 (uint64 (global_state.total_ram_bytes_reserved g + uint64 bytes_out))
                 (int64 (global_state.total_ram_stake g + amount quant_after_fee))
                 (global_state.total_activated_stake g)) st in
  res ← match userres st !! (receiver, receiver) with
        | None =>
            let res := user_resources.mk receiver asset0 asset0 bytes_out in
            t ← emplace (receiver, user_resources.primary_key res) res (userres st);
            Ok (res, t)
        | Some res =>
            let res := user_resources.mk (user_resources.owner res)
                         (user_resources.net_weight res) (user_resources.cpu_weight res)
                         (int64 (user_resources.ram_bytes res + bytes_out)) in
            Ok (res, <[(receiver, receiver) := res]> (userres st))
        end;
  let st := set_userres res.2 st in
  Ok (set_resource_limits (user_resources.owner res.1) (user_resources.ram_bytes res.1)
        (amount (user_resources.net_weight res.1))
        (amount (user_resources.cpu_weight res.1)) st).

(** [buyrambytes] prices the bytes on a copy of the market row, which it
    reads without checking that it exists. *)
Definition buyrambytes (ctx : context) (payer receiver : account_name) (bytes : Z)
    (st : state) : result state :=
  tmp ← match _rammarket st with
        | Some m => Ok m
        | None => Abort "ram market row is missing"
        end;
  b ← mk_asset bytes RAM_SYMBOL;
  snaxout ← convert tmp b CORE_SYMBOL;
  buyram ctx payer receiver snaxout.2 st.

Definition sellram (ctx : context) (account : account_name) (bytes : Z)
    (st : state) : result state :=
  require_auth ctx account;;
  snax_assert (0 <? bytes) "cannot sell negative byte";;
  res ← match userres st !! (account, account) with
        | Some res => Ok res
        | None => Abort "no resource row"
        end;
  snax_assert (bytes <=? user_resources.ram_bytes res) "insufficient quota";;
  market ← match _rammarket st with
           | Some m => Ok m
           | None => Abort "cannot pass end iterator to modify"
           end;
  b ← mk_asset bytes RAM_SYMBOL;
  es ← convert market b CORE_SYMBOL;
  let tokens_out := es.2 in
  let st := set_rammarket (Some es.1) st in
  snax_assert (1 <? amount tokens_out)
    "token amount received from selling ram is too low";;
  let g := _gstate st in
  let g := global_state.mk (global_state.resources_market_open g)
             (uint64 (global_state.total_ram_bytes_reserved g - uint64 bytes))
             (int64 (global_state.total_ram_stake g - amount tokens_out))
             (global_state.total_activated_stake g) in
  let st := set_gstate g st in
  snax_assert (0 <=? global_state.total_ram_stake g)
    "error, attempt to unstake more tokens than previously staked";;
  let res := user_resources.mk (user_resources.owner res)
               (user_resources.net_weight res) (user_resources.cpu_weight res)
               (int64 (user_resources.ram_bytes res - bytes)) in
  let st := set_userres (<[(account, account) := res]> (userres st)) st in
  let st := set_resource_limits (user_resources.owner res) (user_resources.ram_bytes res)
              (amount (user_resources.net_weight res))
              (amount (user_resources.cpu_weight res)) st in
  let st := send_transfer
              (Transfer "snax.ram" "snax.ram" account tokens_out "sell ram") st in
  let fee := ram_fee (amount tokens_out) in
  if 0 <? fee then
    f ← mk_asset fee CORE_SYMBOL;
    Ok (send_transfer (Transfer account account "snax.ramfee" f "sell ram fee") st)
  else Ok st.

(** ** The stake transaction *)

Definition changebw_swap (stake_net_delta stake_cpu_delta : asset) : result bool :=
  and_then (asset_lt stake_net_delta asset0) (asset_lt stake_cpu_delta asset0).

(** The three assertions that precede every write. *)
Definition changebw_guards (ctx : context) (from : account_name)
    (stake_net_delta stake_cpu_delta : asset) (st : state) : result unit :=
  snax_assert (global_state.resources_market_open (_gstate st) || is_privileged ctx from)
    "net and cpu market must be open or user must be privileged to change bandwidth";;
  nonzero ← or_else (asset_ne stake_net_delta asset0) (asset_ne stake_cpu_delta asset0);
  snax_assert nonzero "should stake non-zero amount";;
  sum ← asset_add stake_net_delta stake_cpu_delta;
  snax_assert
    (Z.max (abs64 (amount stake_net_delta)) (abs64 (amount stake_cpu_delta))
       <=? abs64 (amount sum))
    "net and cpu deltas cannot be opposite signs".

(** update stake delegated from "from" to "receiver" *)
Definition changebw_delband (swap : bool) (from receiver : account_name)
    (stake_net_delta stake_cpu_delta : asset) (st : state) : result state :=
  let scope := if swap then receiver else from in
  let key := if swap then from else receiver in
  itr ← match delband st !! (scope, key) with
        | None =>
            let dbo := delegated_bandwidth.mk from receiver
                         stake_net_delta stake_cpu_delta in
            let pk := (scope, delegated_bandwidth.primary_key dbo) in
            t ← emplace pk dbo (delband st);
            Ok (pk, dbo, t)
        | Some dbo =>
            n ← asset_add (delegated_bandwidth.net_weight dbo) stake_net_delta;
            c ← asset_add (delegated_bandwidth.cpu_weight dbo) stake_cpu_delta;
            let dbo := delegated_bandwidth.mk (delegated_bandwidth.from dbo)
                         (delegated_bandwidth.to dbo) n c in
            Ok ((scope, key), dbo, <[(scope, key) := dbo]> (delband st))
        end;
  let '(pk, dbo, t) := itr in
  net_ok ← asset_le asset0 (delegated_bandwidth.net_weight dbo);
  snax_assert net_ok "insufficient staked net bandwidth";;
  cpu_ok ← asset_le asset0 (delegated_bandwidth.cpu_weight dbo);
  snax_assert cpu_ok "insufficient staked cpu bandwidth";;
  zero ← and_then (asset_eq (delegated_bandwidth.net_weight dbo) asset0)
                  (asset_eq (delegated_bandwidth.cpu_weight dbo) asset0);
  Ok (set_delband (if zero : bool then delete pk t else t) st).

(** update totals of "receiver" *)
Definition changebw_totals (swap : bool) (from receiver : account_name)
    (stake_net_delta stake_cpu_delta : asset) (st : state) : result state :=
  let scope := if swap then from else receiver in
  tot_itr ← match userres st !! (scope, scope) with
            | None =>
                let tot := user_resources.mk receiver stake_net_delta stake_cpu_delta 0 in
                let pk := (scope, user_resources.primary_key tot) in
                t ← emplace pk tot (userres st);
                Ok (pk, tot, t)
            | Some tot =>
                n ← asset_add (user_resources.net_weight tot) stake_net_delta;
                c ← asset_add (user_resources.cpu_weight tot) stake_cpu_delta;
                let tot := user_resources.mk (user_resources.owner tot) n c
                             (user_resources.ram_bytes tot) in
                Ok ((scope, scope), tot, <[(scope, scope) := tot]> (userres st))
            end;
  let '(pk, tot, t) := tot_itr in
  net_ok ← asset_le asset0 (user_resources.net_weight tot);
  snax_assert net_ok "insufficient staked total net bandwidth";;
  cpu_ok ← asset_le asset0 (user_resources.cpu_weight tot);
  snax_assert cpu_ok "insufficient staked total cpu bandwidth";;
  let st := set_resource_limits receiver (user_resources.ram_bytes tot)
              (amount (user_resources.net_weight tot))
              (amount (user_resources.cpu_weight tot)) st in
  zero ← and_then (asset_eq (user_resources.net_weight tot) asset0)
           (and_then (asset_eq (user_resources.cpu_weight tot) asset0)
                     (Ok (user_resources.ram_bytes tot =? 0)));
  Ok (set_userres (if zero : bool then delete pk t else t) st).

(** The update of an existing refund: the lambda of [refunds_tbl.modify].
    It returns the row with the balances left to transfer. *)
Definition refund_update (ctx : context) (r : refund_request.t)
    (net_balance cpu_balance : asset) : result (refund_request.t * asset * asset) :=
  decreases ← or_else (asset_lt net_balance asset0) (asset_lt cpu_balance asset0);
  let request_time := if decreases : bool then now ctx else refund_request.request_time r in
  net_amount ← asset_sub (refund_request.net_amount r) net_balance;
  net_neg ← asset_lt net_amount asset0;
  let net_balance := if net_neg : bool then asset_neg net_amount else asset0 in
  let net_amount := if net_neg : bool then asset0 else net_amount in
  cpu_amount ← asset_sub (refund_request.cpu_amount r) cpu_balance;
  cpu_neg ← asset_lt cpu_amount asset0;
  let cpu_balance := if cpu_neg : bool then asset_neg cpu_amount else asset0 in
  let cpu_amount := if cpu_neg : bool then asset0 else cpu_amount in
  Ok (refund_request.mk (refund_request.owner r) request_time net_amount cpu_amount,
      net_balance, cpu_balance).

(** The creation of a refund: the lambda of [refunds_tbl.emplace]. *)
Definition refund_create (ctx : context) (from : account_name)
    (net_balance cpu_balance : asset) : result (refund_request.t * asset * asset) :=
  net_neg ← asset_lt net_balance asset0;
  let net_amount := if net_neg : bool then asset_neg net_balance else asset0 in
  let net_balance := if net_neg : bool then asset0 else net_balance in
  cpu_neg ← asset_lt cpu_balance asset0;
  let cpu_amount := if cpu_neg : bool then asset_neg cpu_balance else asset0 in
  let cpu_balance := if cpu_neg : bool then asset0 else cpu_balance in
  Ok (refund_request.mk from (now ctx) net_amount cpu_amount, net_balance, cpu_balance).

(** create/update/delete refund: the table, the balances that remain and
    [need_deferred_trx]. *)
Definition changebw_refund_row (ctx : context) (from receiver : account_name)
    (stake_net_delta stake_cpu_delta : asset) (transfer : bool) (st : state) :
    result (state * asset * asset * bool) :=
  let req := refunds st !! (from, from) in
  let net_balance := stake_net_delta in
  let cpu_balance := stake_cpu_delta in
  let is_undelegating := int64 (amount net_balance + amount cpu_balance) <? 0 in
  let is_delegating_to_self := negb transfer && bool_decide (from = receiver) in
  if is_delegating_to_self || is_undelegating then
    match req with
    | Some r =>
        upd ← refund_update ctx r net_balance cpu_balance;
        let '(r, net_balance, cpu_balance) := upd in
        let t := <[(from, from) := r]> (refunds st) in
        net_ok ← asset_le asset0 (refund_request.net_amount r);
        snax_assert net_ok "negative net refund amount";;
        cpu_ok ← asset_le asset0 (refund_request.cpu_amount r);
        snax_assert cpu_ok "negative cpu refund amount";;
        zero ← and_then (asset_eq (refund_request.net_amount r) asset0)
                        (asset_eq (refund_request.cpu_amount r) asset0);
        if zero : bool
        then Ok (set_refunds (delete (from, from) t) st, net_balance, cpu_balance, false)
        else Ok (set_refunds t st, net_balance, cpu_balance, true)
    | None =>
        decreases ← or_else (asset_lt net_balance asset0) (asset_lt cpu_balance asset0);
        if decreases : bool then
          new ← refund_create ctx from net_balance cpu_balance;
          let '(r, net_balance, cpu_balance) := new in
          t ← emplace (from, refund_request.primary_key r) r (refunds st);
          Ok (set_refunds t st, net_balance, cpu_balance, true)
        else Ok (st, net_balance, cpu_balance, false)
    end
  else Ok (st, net_balance, cpu_balance, false).

(** create refund or update from existing refund *)
Definition changebw_refund (ctx : context) (source_stake_from from receiver : account_name)
    (stake_net_delta stake_cpu_delta : asset) (transfer : bool) (st : state) :
    result state :=
  if bool_decide (source_stake_from = "snax.stake") then Ok st
  else
    row ← changebw_refund_row ctx from receiver stake_net_delta stake_cpu_delta transfer st;
    let '(st, net_balance, cpu_balance, need_deferred_trx) := row in
    let st := if need_deferred_trx : bool
              then send_deferred from (Deferred from from refund_delay from)
                     (cancel_deferred from st)
              else cancel_deferred from st in
    transfer_amount ← asset_add net_balance cpu_balance;
    positive ← asset_lt asset0 transfer_amount;
    Ok (if positive : bool
        then send_transfer (Transfer source_stake_from source_stake_from "snax.stake"
                              transfer_amount "stake bandwidth") st
        else st).

(** update voting power *)
Definition changebw_voting (ctx : context) (swap : bool) (from receiver : account_name)
    (stake_net_delta stake_cpu_delta : asset) (st : state) : result state :=
  total_update ← asset_add stake_net_delta stake_cpu_delta;
  let key := if swap then receiver else from in
  from_voter ← match _voters st !! key with
               | None =>
                   let v := voter_info.mk from no_account [] (amount total_update) in
                   t ← emplace (voter_info.primary_key v) v (_voters st);
                   Ok (v, t)
               | Some v =>
                   let v := voter_info.mk (voter_info.owner v) (voter_info.proxy v)
                              (voter_info.producers v)
                              (int64 (voter_info.staked v + amount total_update)) in
                   Ok (v, <[key := v]> (_voters st))
               end;
  let '(v, t) := from_voter in
  let st := set_voters t st in
  snax_assert (0 <=? voter_info.staked v) "stake for voting cannot be negative";;
  (if bool_decide (from = "b1") then validate_b1_vesting ctx (voter_info.staked v)
   else Ok tt);;
  if negb (bool_decide (voter_info.producers v = [])) ||
     negb (bool_decide (voter_info.proxy v = no_account))
  then
    voting ← update_votes from (voter_info.proxy v) (voter_info.producers v) false
               (_voters st, _gstate st, _producers st);
    Ok (set_voting voting st)
  else Ok st.

(** What [changebw] checks before it writes anything; it returns [swap]. *)
Definition changebw_checks (ctx : context) (from receiver : account_name)
    (stake_net_delta stake_cpu_delta : asset) (st : state) : result bool :=
  swap ← changebw_swap stake_net_delta stake_cpu_delta;
  require_auth ctx (if swap : bool then receiver else from);;
  changebw_guards ctx from stake_net_delta stake_cpu_delta st;;
  Ok swap.

Definition changebw (ctx : context) (from receiver : account_name)
    (stake_net_delta stake_cpu_delta : asset) (transfer : bool) (st : state) :
    result state :=
  swap ← changebw_checks ctx from receiver stake_net_delta stake_cpu_delta st;
  let source_stake_from := from in
  let from := if transfer then receiver else from in
  st ← changebw_delband swap from receiver stake_net_delta stake_cpu_delta st;
  st ← changebw_totals swap from receiver stake_net_delta stake_cpu_delta st;
  st ← changebw_refund ctx source_stake_from from receiver
         stake_net_delta stake_cpu_delta transfer st;
  changebw_voting ctx swap from receiver stake_net_delta stake_cpu_delta st.

Definition delegatebw (ctx : context) (from receiver : account_name)
    (stake_net_quantity stake_cpu_quantity : asset) (transfer : bool) (st : state) :
    result state :=
  cpu_ok ← asset_ge stake_cpu_quantity asset0;
  snax_assert cpu_ok "must stake a positive amount";;
  net_ok ← asset_ge stake_net_quantity asset0;
  snax_assert net_ok "must stake a positive amount";;
  sum ← asset_add stake_net_quantity stake_cpu_quantity;
  sum_ok ← asset_gt sum asset0;
  snax_assert sum_ok "must stake a positive amount";;
  snax_assert (negb transfer || negb (bool_decide (from = receiver)))
    "cannot use transfer flag if delegating to self";;
  changebw ctx from receiver stake_net_quantity stake_cpu_quantity transfer st.

(** ** Escrow and the undelegation gate *)

Definition key_le (a b : N * escrow_bandwidth.t) : Prop := (a.1 <= b.1)%N.

#[global] Instance key_le_dec (a b : N * escrow_bandwidth.t) : Decision (key_le a b).
Proof. unfold key_le. apply _. Defined.

(** The rows of a scope from [lower_bound(1)] to [end()], in key order. *)
Definition escrow_rows (t : gmap (account_name * N) escrow_bandwidth.t)
    (scope : account_name) : list (N * escrow_bandwidth.t) :=
  merge_sort key_le
    (omap (fun kv : (account_name * N) * escrow_bandwidth.t =>
             if bool_decide (kv.1.1 = scope) && (1 <=? kv.1.2)%N
             then Some (kv.1.2, kv.2) else None)
          (map_to_list t)).

Definition escrow_period : Z := 15768000.

(** Modelled from the spec: "created: timestamp".  The timestamp is a
    [block_timestamp], declared in the library's time header, which is not
    among the sources: a 32-bit count of slots of 500 ms since the year
    2000.  [block_timestamp sec] is the slot that its constructor computes
    from a [time_point_sec], in unsigned 64-bit arithmetic, and
    [to_seconds slot] is [to_time_point().time_since_epoch().to_seconds()]. *)
Definition block_interval_ms : Z := 500.
Definition block_timestamp_epoch : Z := 946684800000.

Definition block_timestamp (sec : Z) : Z :=
  uint32 (uint64 (uint32 sec * 1000 - block_timestamp_epoch) / block_interval_ms).

Definition to_seconds (slot : Z) : Z :=
  Z.quot (int64 ((slot * block_interval_ms + block_timestamp_epoch) * 1000)) 1000000.

(** The periods elapsed since the row was created: both the clock and
    [created] are read as block timestamps. *)
Definition elapsed_periods (ctx : context) (r : escrow_bandwidth.t) : Z :=
  int64 (Z.quot (int64 (to_seconds (block_timestamp (now ctx))
                        - to_seconds (block_timestamp (escrow_bandwidth.created r))))
           escrow_period).

(** One turn of the loop on a row owned by [from]: the new
    [available_to_unstake], the amount taken from the bucket and [enough]. *)
Definition escrow_step (ctx : context) (unstake_net_quantity unstake_cpu_quantity : asset)
    (escrow_record : escrow_bandwidth.t) (available_to_unstake : asset) :
    result (asset * asset * bool) :=
  let period_count := elapsed_periods ctx escrow_record in
  unstaked ← asset_sub (escrow_bandwidth.initial_amount escrow_record)
               (escrow_bandwidth.amount escrow_record);
  per_period ← div64 (amount (escrow_bandwidth.initial_amount escrow_record))
                 (escrow_bandwidth.period_count escrow_record);
  unlocked ← mk_asset (int64 (per_period * int64 (period_count + 1))) CORE_SYMBOL;
  from_bucket ← asset_sub unlocked unstaked;
  available ← asset_sub available_to_unstake (escrow_bandwidth.amount escrow_record);
  available ← asset_add available from_bucket;
  requested ← asset_add unstake_net_quantity unstake_cpu_quantity;
  over ← asset_gt available requested;
  if over : bool then
    excess ← asset_sub available unstake_net_quantity;
    excess ← asset_sub excess unstake_cpu_quantity;
    from_bucket ← asset_sub from_bucket excess;
    available ← asset_add unstake_net_quantity unstake_cpu_quantity;
    Ok (available, from_bucket, true)
  else Ok (available, from_bucket, false).

(** The loop over the rows: it stops at the end of the table or as soon as
    [enough] is set, and writes back every row of [from] that it visits. *)
Fixpoint escrow_scan (ctx : context) (scope from : account_name)
    (unstake_net_quantity unstake_cpu_quantity : asset)
    (rows : list (N * escrow_bandwidth.t)) (available_to_unstake : asset)
    (t : gmap (account_name * N) escrow_bandwidth.t) :
    result (asset * gmap (account_name * N) escrow_bandwidth.t) :=
  match rows with
  | [] => Ok (available_to_unstake, t)
  | (k, escrow_record) :: rows =>
      if bool_decide (escrow_bandwidth.owner escrow_record = from) then
        step ← escrow_step ctx unstake_net_quantity unstake_cpu_quantity
                 escrow_record available_to_unstake;
        let '(available, from_bucket, enough) := step in
        remaining ← asset_sub (escrow_bandwidth.amount escrow_record) from_bucket;
        let t := <[(scope, k) :=
                     escrow_bandwidth.mk (escrow_bandwidth.owner escrow_record)
                       (escrow_bandwidth.initial_amount escrow_record) remaining
                       (escrow_bandwidth.created escrow_record)
                       (escrow_bandwidth.period_count escrow_record)]> t in
        if enough : bool then Ok (available, t)
        else escrow_scan ctx scope from unstake_net_quantity unstake_cpu_quantity
               rows available t
      else escrow_scan ctx scope from unstake_net_quantity unstake_cpu_quantity
             rows available_to_unstake t
  end.

Definition undelegatebw (ctx : context) (from receiver : account_name)
    (unstake_net_quantity unstake_cpu_quantity : asset) (st : state) : result state :=
  cpu_ok ← asset_le asset0 unstake_cpu_quantity;
  snax_assert cpu_ok "must unstake a positive amount";;
  net_ok ← asset_le asset0 unstake_net_quantity;
  snax_assert net_ok "must unstake a positive amount";;
  sum ← asset_add unstake_cpu_quantity unstake_net_quantity;
  sum_ok ← asset_lt asset0 sum;
  snax_assert sum_ok "must unstake a positive amount";;
  let rows := escrow_rows (escrow st) receiver in
  itr ← match delband st !! (receiver, from) with
        | Some dbo => Ok dbo
        | None => Abort "no such user to undelegate from"
        end;
  available_to_unstake ← asset_add (delegated_bandwidth.net_weight itr)
                           (delegated_bandwidth.cpu_weight itr);
  scanned ← escrow_scan ctx receiver from unstake_net_quantity unstake_cpu_quantity
              rows available_to_unstake (escrow st);
  let st := set_escrow scanned.2 st in
  requested ← asset_add unstake_net_quantity unstake_cpu_quantity;
  available_ok ← asset_le requested scanned.1;
  snax_assert available_ok "cant unstake this amount for account at the moment";;
  snax_assert (min_activated_stake <=? global_state.total_activated_stake (_gstate st))
    "cannot undelegate bandwidth until the chain is activated (at least 10% of all tokens participate in voting)";;
  changebw ctx from receiver (asset_neg unstake_net_quantity)
    (asset_neg unstake_cpu_quantity) false st.

Definition escrowbw (ctx : context) (from receiver : account_name)
    (stake_net_quantity stake_cpu_quantity : asset) (transfer : bool) (period_count : Z)
    (st : state) : result state :=
  st ← delegatebw ctx from receiver stake_net_quantity stake_cpu_quantity transfer st;
  let scope := if transfer then receiver else from in
  initial_amount ← asset_add stake_net_quantity stake_cpu_quantity;
  amount ← asset_add stake_net_quantity stake_cpu_quantity;
  let record := escrow_bandwidth.mk receiver initial_amount amount (now ctx) period_count in
  t ← emplace (scope, escrow_primary_key record) record (escrow st);
  Ok (set_escrow t st).

(** ** Claiming a refund *)

Definition refund (ctx : context) (owner : account_name) (st : state) : result state :=
  require_auth ctx owner;;
  req ← match refunds st !! (owner, owner) with
        | Some req => Ok req
        | None => Abort "refund request not found"
        end;
  snax_assert (uint32 (refund_request.request_time req + refund_delay) <=? now ctx)
    "refund is not available yet";;
  quantity ← asset_add (refund_request.net_amount req) (refund_request.cpu_amount req);
  let st := send_transfer
              (Transfer "snax.stake" "snax.stake" (refund_request.owner req) quantity
                 "unstake") st in
  Ok (set_refunds (delete (owner, owner) (refunds st)) st).

(** ** Notions used to state the properties *)

(** The staked balance that [changebw] leaves in the voter row it reads. *)
Definition staked_after (swap : bool) (from receiver : account_name)
    (net cpu : asset) (st : state) : Z :=
  let total_update := int64 (amount net + amount cpu) in
  match _voters st !! (if swap then receiver else from) with
  | Some v => int64 (voter_info.staked v + total_update)
  | None => total_update
  end.

(** A delegation row is in order when its weights are not negative and
    not both zero; a totals row, when its weights are not negative and it
    is not zero in weights and RAM at once. *)
Definition delband_row_ok (r : delegated_bandwidth.t) : Prop :=
  0 <= amount (delegated_bandwidth.net_weight r) /\
  0 <= amount (delegated_bandwidth.cpu_weight r) /\
  ~ (amount (delegated_bandwidth.net_weight r) = 0 /\
     amount (delegated_bandwidth.cpu_weight r) = 0).

Definition userres_row_ok (r : user_resources.t) : Prop :=
  0 <= amount (user_resources.net_weight r) /\
  0 <= amount (user_resources.cpu_weight r) /\
  ~ (amount (user_resources.net_weight r) = 0 /\
     amount (user_resources.cpu_weight r) = 0 /\
     user_resources.ram_bytes r = 0).

Definition no_zero_rows (st : state) : Prop :=
  (forall k r, delband st !! k = Some r -> delband_row_ok r) /\
  (forall k r, userres st !! k = Some r -> userres_row_ok r).

(** The states that sequences of delegation operations reach from a ledger
    without delegations and totals. *)
Inductive delegation_reachable : state -> Prop :=
| reach_empty st :
    delband st = ∅ -> userres st = ∅ -> delegation_reachable st
| reach_changebw st st' ctx from receiver net cpu transfer :
    delegation_reachable st ->
    changebw ctx from receiver net cpu transfer st = Ok st' ->
    delegation_reachable st'
| reach_delegatebw st st' ctx from receiver net cpu transfer :
    delegation_reachable st ->
    delegatebw ctx from receiver net cpu transfer st = Ok st' ->
    delegation_reachable st'
| reach_undelegatebw st st' ctx from receiver net cpu :
    delegation_reachable st ->
    undelegatebw ctx from receiver net cpu st = Ok st' ->
    delegation_reachable st'
| reach_escrowbw st st' ctx from receiver net cpu transfer period_count :
    delegation_reachable st ->
    escrowbw ctx from receiver net cpu transfer period_count st = Ok st' ->
    delegation_reachable st'
| reach_refund st st' ctx owner :
    delegation_reachable st ->
    refund ctx owner st = Ok st' ->
    delegation_reachable st'.

(** A refund row is in order when its amounts are asset amounts that are
    not negative and not both zero; the weights of a delegation row are
    64-bit integers that are not negative. *)
Definition refund_row_ok (r : refund_request.t) : Prop :=
  0 <= amount (refund_request.net_amount r) <= max_amount /\
  0 <= amount (refund_request.cpu_amount r) <= max_amount /\
  ~ (amount (refund_request.net_amount r) = 0 /\
     amount (refund_request.cpu_amount r) = 0).

Definition delband_row_bounded (r : delegated_bandwidth.t) : Prop :=
  0 <= amount (delegated_bandwidth.net_weight r) <= int64_max /\
  0 <= amount (delegated_bandwidth.cpu_weight r) <= int64_max.

Definition ledger_ok (st : state) : Prop :=
  (forall k r, delband st !! k = Some r -> delband_row_bounded r) /\
  (forall k r, refunds st !! k = Some r -> refund_row_ok r).

(** The states that the actions reach from a ledger without delegations and
    refunds; the amounts that enter are 64-bit integers. *)
Inductive reachable : state -> Prop :=
| reachable_empty st :
    delband st = ∅ -> refunds st = ∅ -> reachable st
| reachable_buyram st st' ctx payer receiver quant :
    reachable st ->
    buyram ctx payer receiver quant st = Ok st' ->
    reachable st'
| reachable_buyrambytes st st' ctx payer receiver bytes :
    reachable st ->
    buyrambytes ctx payer receiver bytes st = Ok st' ->
    reachable st'
| reachable_sellram st st' ctx account bytes :
    reachable st ->
    sellram ctx account bytes st = Ok st' ->
    reachable st'
| reachable_changebw st st' ctx from receiver net cpu transfer :
    reachable st ->
    in_int64 (amount net) -> in_int64 (amount cpu) ->
    changebw ctx from receiver net cpu transfer st = Ok st' ->
    reachable st'
| reachable_delegatebw st st' ctx from receiver net cpu transfer :
    reachable st ->
    in_int64 (amount net) -> in_int64 (amount cpu) ->
    delegatebw ctx from receiver net cpu transfer st = Ok st' ->
    reachable st'
| reachable_undelegatebw st st' ctx from receiver net cpu :
    reachable st ->
    in_int64 (amount net) -> in_int64 (amount cpu) ->
    undelegatebw ctx from receiver net cpu st = Ok st' ->
    reachable st'
| reachable_escrowbw st st' ctx from receiver net cpu transfer period_count :
    reachable st ->
    in_int64 (amount net) -> in_int64 (amount cpu) ->
    escrowbw ctx from receiver net cpu transfer period_count st = Ok st' ->
    reachable st'
| reachable_refund st st' ctx owner :
    reachable st ->
    refund ctx owner st = Ok st' ->
    reachable st'.






(** The refund that [owner] has pending, net and cpu together. *)
Definition refund_pending (st : state) (owner : account_name) : Z :=
  match refunds st !! (owner, owner) with
  | Some r => amount (refund_request.net_amount r) + amount (refund_request.cpu_amount r)
  | None => 0
  end.

End Contract.

(** ** A small instance *)

(** A market that converts one to one, a vote propagation that does
    nothing, and ledgers to run the actions on. *)
Module Sample.

Definition convert (m : unit) (a : asset) (s : symbol_type) : result (unit * asset) :=
  r ← mk_asset (amount a) s; Ok (m, r).

Definition update_votes (voter proxy : account_name) (producers : list account_name)
    (voting : bool) (v : gmap account_name voter_info.t * global_state.t * unit) :
    result (gmap account_name voter_info.t * global_state.t * unit) :=
  Ok v.

Definition min_activated_stake : Z := 1500000000000.

Definition escrow_primary_key (r : escrow_bandwidth.t) : N :=
  Z.to_N (escrow_bandwidth.created r).

Definition core (a : Z) : asset := Asset a CORE_SYMBOL.

(** Everybody signs, nobody is privileged. *)
Definition at_time (t : Z) : context := Context t (fun _ => true) (fun _ => false).

(** Nobody signs. *)
Definition unsigned_at (t : Z) : context := Context t (fun _ => false) (fun _ => false).

Definition genesis : @state unit unit :=
  State (global_state.mk true 0 0 1500000000000) (Some tt) ∅ ∅ ∅ ∅ ∅ tt ∅ [] ∅.

(** [bob] owns 1000 bytes of RAM. *)
Definition with_ram : @state unit unit :=
  State (global_state.mk true 1000 1000 1500000000000) (Some tt)
    {[ ("bob", "bob") := user_resources.mk "bob" asset0 asset0 1000 ]}
    ∅ ∅ ∅ ∅ tt ∅ [] ∅.

(** [alice] has a refund of 50 + 50 pending since time 1000. *)
Definition with_refund : @state unit unit :=
  State (global_state.mk true 0 0 1500000000000) (Some tt) ∅ ∅
    {[ ("alice", "alice") := refund_request.mk "alice" 1000 (core 50) (core 50) ]}
    ∅ ∅ tt ∅ [] ∅.

Definition bucket (created : Z) : escrow_bandwidth.t :=
  escrow_bandwidth.mk "alice" (core 100) (core 100) created 4.

(** [alice] has staked 100 on herself under escrow, over 4 periods. *)
Definition with_escrow : @state unit unit :=
  State (global_state.mk true 0 0 1500000000000) (Some tt)
    {[ ("alice", "alice") := user_resources.mk "alice" (core 100) (core 0) 0 ]}
    {[ ("alice", "alice") := delegated_bandwidth.mk "alice" "alice" (core 100) (core 0) ]}
    ∅
    {[ ("alice", 1600000000%N) := bucket 1600000000 ]}
    {[ "alice" := voter_info.mk "alice" no_account [] 100 ]} tt ∅ [] ∅.


(** The ledger that an action leaves; the ledger it ran on when it aborts. *)
Definition after (r : result (@state unit unit)) (st : @state unit unit) :
    @state unit unit :=
  match r with
  | Ok st' => st'
  | Abort _ => st
  end.

(** [alice] has staked 100 + 100 on herself. *)
Definition alice_staked : @state unit unit :=
  after (changebw update_votes (at_time 1600000000) "alice" "alice"
           (core 100) (core 100) false genesis) genesis.

(** [alice] has then taken 30 + 20 back: the refund is pending and its
    payout is scheduled. *)
Definition alice_unstaking : @state unit unit :=
  after (changebw update_votes (at_time 1600000100) "alice" "alice"
           (core (-30)) (core (-20)) false alice_staked) alice_staked.

(** [b1] has staked 500 000 000 000 + 500 000 000 000 on [alice]. *)
Definition b1_delegated : @state unit unit :=
  after (delegatebw update_votes (at_time 1600000000) "b1" "alice"
           (core 500000000000) (core 500000000000) false genesis) genesis.

(** [alice] has staked 100 on herself under an escrow of zero periods. *)
Definition with_zero_period_escrow : @state unit unit :=
  State (global_state.mk true 0 0 1500000000000) (Some tt)
    {[ ("alice", "alice") := user_resources.mk "alice" (core 100) (core 0) 0 ]}
    {[ ("alice", "alice") := delegated_bandwidth.mk "alice" "alice" (core 100) (core 0) ]}
    ∅
    {[ ("alice", 1600000000%N) :=
         escrow_bandwidth.mk "alice" (core 100) (core 100) 1600000000 0 ]}
    {[ "alice" := voter_info.mk "alice" no_account [] 100 ]} tt ∅ [] ∅.

End Sample.


(** * Properties *)

(** ** Aborting computations *)

Lemma bind_Ok {A B : Type} (m : result A) (f : A -> result B) (b : B) :
  m ≫= f = Ok b <-> exists a, m = Ok a /\ f a = Ok b.
Proof.
  destruct m as [a|msg]; simpl; split.
  - intros H. exists a. split; [reflexivity | exact H].
  - intros (a' & Ha & Hf). injection Ha as ->. exact Hf.
  - discriminate.
  - intros (a' & Ha & _). discriminate.
Qed.

Lemma snax_assert_Ok (cond : bool) (msg : string) (u : unit) :
  snax_assert cond msg = Ok u <-> cond = true.
Proof.
  destruct cond, u; simpl; split; intros; (reflexivity || discriminate).
Qed.

Lemma not_aborts_Ok {A : Type} (a : A) : ~ aborts (Ok a).
Proof. intros (msg & H). discriminate. Qed.

Lemma aborts_Abort {A : Type} (msg : string) : aborts (@Abort A msg).
Proof. exists msg. reflexivity. Qed.

Lemma aborts_not_succeeds {A : Type} (r : result A) : aborts r <-> ~ succeeds r.
Proof.
  destruct r as [a|msg]; split.
  - intros (m & H). discriminate.
  - intros H. exfalso. apply H. exists a. reflexivity.
  - intros _ (a & H). discriminate.
  - intros _. apply aborts_Abort.
Qed.

Lemma aborts_bind {A B : Type} (m : result A) (f : A -> result B) :
  aborts (m ≫= f) <-> aborts m \/ exists a, m = Ok a /\ aborts (f a).
Proof.
  destruct m as [a|msg]; simpl; split.
  - intros H. right. exists a. split; [reflexivity | exact H].
  - intros [(m & H) | (a' & Ha & H)]; [discriminate |]. injection Ha as ->. exact H.
  - intros _. left. apply aborts_Abort.
  - intros _. apply aborts_Abort.
Qed.

(** Peels the binds, assertions and branches of a successful run. *)
Ltac ok_step :=
  match goal with
  | H : Ok _ = Ok _ |- _ => injection H as H
  | H : Abort _ = Ok _ |- _ => discriminate H
  | H : snax_assert _ _ = Ok _ |- _ => apply snax_assert_Ok in H
  | H : (_ ≫= _) = Ok _ |- _ =>
      let x := fresh "x" in
      let E := fresh "E" in
      apply bind_Ok in H as (x & E & H)
  | H : (if ?b then _ else _) = Ok _ |- _ =>
      let E := fresh "E" in destruct b eqn:E
  | H : (let '(_, _) := ?p in _) = Ok _ |- _ => destruct p
  | H : match ?x with Some _ => _ | None => _ end = Ok _ |- _ =>
      let E := fresh "E" in destruct x eqn:E
  end.
Ltac ok_inv := repeat ok_step.

(** ** Machine integers *)

Lemma int64_spec (x : Z) :
  exists k, int64 x = x + k * 2 ^ 64 /\ int64_min <= int64 x <= int64_max.
Proof.
  unfold int64, wrap_signed, int64_min, int64_max.
  exists (- ((x + 2 ^ (64 - 1)) / 2 ^ 64)).
  pose proof (Z.div_mod (x + 2 ^ (64 - 1)) (2 ^ 64) ltac:(lia)) as Hdm.
  pose proof (Z.mod_pos_bound (x + 2 ^ (64 - 1)) (2 ^ 64) ltac:(lia)) as Hb.
  change (2 ^ (64 - 1)) with 9223372036854775808 in *.
  change (2 ^ 64) with 18446744073709551616 in *.
  change (2 ^ 63) with 9223372036854775808.
  lia.
Qed.

Lemma int64_id (x : Z) : in_int64 x -> int64 x = x.
Proof.
  unfold in_int64, int64_min, int64_max. intros Hx.
  destruct (int64_spec x) as (k & Hk & Hr).
  unfold int64_min, int64_max in Hr.
  change (2 ^ 64) with 18446744073709551616 in *.
  change (2 ^ 63) with 9223372036854775808 in *.
  lia.
Qed.

Lemma int64_in_int64 (x : Z) : in_int64 (int64 x).
Proof. destruct (int64_spec x) as (k & _ & Hr). exact Hr. Qed.

Ltac consts :=
  unfold in_int64, int64_min, int64_max, max_amount in *;
  change (2 ^ 64) with 18446744073709551616 in *;
  change (2 ^ 63) with 9223372036854775808 in *;
  change (2 ^ 62) with 4611686018427387904 in *;
  change (2 ^ 32) with 4294967296 in *.

(** ** The RAM fee *)

Lemma ram_fee_exact (a : Z) :
  0 <= a -> a + 199 <= int64_max -> ram_fee a = (a + 199) / 200.
Proof.
  intros H0 H1. unfold ram_fee.
  rewrite int64_id by (consts; lia).
  apply Z.quot_div_nonneg; lia.
Qed.

Lemma ram_fee_ceiling (a : Z) :
  0 <= a -> a + 199 <= int64_max ->
  200 * (ram_fee a - 1) < a <= 200 * ram_fee a.
Proof.
  intros H0 H1. rewrite ram_fee_exact by assumption.
  pose proof (Z.div_mod (a + 199) 200 ltac:(lia)).
  pose proof (Z.mod_pos_bound (a + 199) 200 ltac:(lia)).
  lia.
Qed.

(** C10. For every [buyram] input amount [quant >= 1] (whose fee computation
    [quant + 199] is representable in 64 bits), the fee
    [(quant + 199) / 200] satisfies [1 <= fee <= quant], with [fee = quant]
    exactly when [quant = 1]; when [quant = 1] the amount left to convert
    is 0 and the whole input is the fee. *)
Theorem buyram_fee_bounds (quant : asset) :
  1 <= amount quant ->
  amount quant + 199 <= int64_max ->
  amount (buyram_fee quant) = (amount quant + 199) / 200 /\
  1 <= amount (buyram_fee quant) <= amount quant /\
  (amount (buyram_fee quant) = amount quant <-> amount quant = 1) /\
  (amount quant = 1 ->
   amount (buyram_quant_after_fee quant) = 0 /\
   amount (buyram_fee quant) = amount quant).
Proof.
  intros H1 Hmax.
  pose proof (ram_fee_ceiling (amount quant) ltac:(lia) Hmax) as Hc.
  pose proof (ram_fee_exact (amount quant) ltac:(lia) Hmax) as He.
  unfold buyram_quant_after_fee, buyram_fee in *. simpl.
  split; [exact He |].
  split; [lia |].
  split; [split; lia |].
  intros Hq.
  assert (ram_fee (amount quant) = 1) as -> by lia.
  rewrite Hq. split; reflexivity.
Qed.

Section Properties.

Context {exchange_state producers_state : Type}.

Variable convert :
  exchange_state -> asset -> symbol_type -> result (exchange_state * asset).

Variable update_votes :
  account_name -> account_name -> list account_name -> bool ->
  gmap account_name voter_info.t * global_state.t * producers_state ->
  result (gmap account_name voter_info.t * global_state.t * producers_state).

Variable min_activated_stake : Z.

Variable escrow_primary_key : escrow_bandwidth.t -> N.

Implicit Types st : @state exchange_state producers_state.

(** ** Buying and selling RAM *)

(** C4. A successful [buyram] of [quant > 0] charges
    [fee = (quant + 199) / 200], the 0.5% of [quant] rounded up, converts
    [quant - fee] to RAM bytes and has obtained [bytes_out > 0]; without a
    positive [bytes_out] it aborts.  (The sum [quant + 199] is taken to be
    representable in 64 bits.) *)
Theorem buyram_fee_and_conversion ctx payer receiver quant st st' :
  amount quant + 199 <= int64_max ->
  buyram convert ctx payer receiver quant st = Ok st' ->
  let fee := (amount quant + 199) / 200 in
  let quant_after_fee := Asset (amount quant - fee) (symbol quant) in
  0 < amount quant /\
  200 * (fee - 1) < amount quant <= 200 * fee /\
  inline_actions st' =
    inline_actions st ++
      [Transfer payer payer "snax.ram" quant_after_fee "buy ram";
       Transfer payer payer "snax.ramfee" (Asset fee (symbol quant)) "ram fee"] /\
  exists market es,
    _rammarket st = Some market /\
    convert market quant_after_fee RAM_SYMBOL = Ok es /\
    0 < amount es.2 /\
    _rammarket st' = Some es.1.
Proof.
  intros Hmax Hrun fee qaf. unfold buyram in Hrun.
  apply bind_Ok in Hrun as (u1 & Hauth & Hrun).
  apply bind_Ok in Hrun as (u2 & Hpos & Hrun).
  apply snax_assert_Ok, Z.ltb_lt in Hpos.
  apply bind_Ok in Hrun as (u3 & Hopen & Hrun).
  pose proof (ram_fee_exact (amount quant) ltac:(lia) Hmax) as Hfee.
  pose proof (ram_fee_ceiling (amount quant) ltac:(lia) Hmax) as Hb.
  rewrite Hfee in Hb. fold fee in Hfee, Hb.
  assert (buyram_fee quant = Asset fee (symbol quant)) as Efee.
  { unfold buyram_fee. rewrite Hfee. reflexivity. }
  assert (buyram_quant_after_fee quant = qaf) as Eqaf.
  { unfold buyram_quant_after_fee. rewrite Efee. simpl. unfold qaf.
    rewrite int64_id; [reflexivity |]. consts. lia. }
  rewrite Efee, Eqaf in Hrun. simpl in Hrun.
  assert ((0 <? fee) = true) as Hfpos.
  { apply Z.ltb_lt. lia. }
  rewrite Hfpos in Hrun.
  unfold send_transfer, set_rammarket, set_gstate in Hrun. simpl in Hrun.
  destruct (_rammarket st) as [market|] eqn:Emarket; simpl in Hrun;
    [| discriminate Hrun].
  apply bind_Ok in Hrun as (es & Hconv & Hrun).
  apply bind_Ok in Hrun as (u4 & Hbytes & Hrun).
  apply snax_assert_Ok, Z.ltb_lt in Hbytes.
  apply bind_Ok in Hrun as (res & Hres & Hrun).
  injection Hrun as <-.
  split; [exact Hpos |].
  split; [exact Hb |].
  split.
  { simpl. rewrite <- app_assoc. reflexivity. }
  exists market, es. repeat split; assumption || reflexivity.
Qed.

(** C5. [sellram] aborts unless [bytes > 0], the account has a resource row
    with [ram_bytes >= bytes], and the core amount obtained for the bytes is
    strictly greater than 1; on success the fee [ceil(tokens_out / 200)] is
    charged on the amount paid out. *)
Theorem sellram_requirements ctx account bytes st st' :
  convert_within_range convert ->
  sellram convert ctx account bytes st = Ok st' ->
  0 < bytes /\
  exists res market es,
    userres st !! (account, account) = Some res /\
    bytes <= user_resources.ram_bytes res /\
    _rammarket st = Some market /\
    convert market (Asset bytes RAM_SYMBOL) CORE_SYMBOL = Ok es /\
    1 < amount es.2 /\
    let fee := (amount es.2 + 199) / 200 in
    200 * (fee - 1) < amount es.2 <= 200 * fee /\
    inline_actions st' =
      inline_actions st ++
        [Transfer "snax.ram" "snax.ram" account es.2 "sell ram";
         Transfer account account "snax.ramfee" (Asset fee CORE_SYMBOL) "sell ram fee"].
Proof.
  intros Hrange Hrun. unfold sellram in Hrun.
  apply bind_Ok in Hrun as (u1 & Hauth & Hrun).
  apply bind_Ok in Hrun as (u2 & Hpos & Hrun).
  apply snax_assert_Ok, Z.ltb_lt in Hpos.
  destruct (userres st !! (account, account)) as [res|] eqn:Eres;
    simpl in Hrun; [| discriminate Hrun].
  apply bind_Ok in Hrun as (u3 & Hquota & Hrun).
  apply snax_assert_Ok, Z.leb_le in Hquota.
  destruct (_rammarket st) as [market|] eqn:Emarket;
    simpl in Hrun; [| discriminate Hrun].
  apply bind_Ok in Hrun as (b & Hb & Hrun).
  unfold mk_asset in Hb.
  apply bind_Ok in Hb as (u4 & _ & Hb). injection Hb as <-.
  apply bind_Ok in Hrun as (es & Hconv & Hrun).
  apply bind_Ok in Hrun as (u5 & Hlow & Hrun).
  apply snax_assert_Ok, Z.ltb_lt in Hlow.
  apply bind_Ok in Hrun as (u6 & Hstake & Hrun).
  pose proof (Hrange _ _ _ _ Hconv) as Hin.
  unfold is_amount_within_range in Hin.
  apply andb_true_iff in Hin as (Hlo%Z.leb_le & Hhi%Z.leb_le).
  assert (amount es.2 + 199 <= int64_max) as Hmax by (consts; lia).
  pose proof (ram_fee_ceiling (amount es.2) ltac:(lia) Hmax) as Hceil.
  pose proof (ram_fee_exact (amount es.2) ltac:(lia) Hmax) as Hexact.
  rewrite Hexact in *.
  set (fee := (amount es.2 + 199) / 200) in *.
  assert ((0 <? fee) = true) as Hfee by (apply Z.ltb_lt; lia).
  rewrite Hfee in Hrun.
  apply bind_Ok in Hrun as (f & Hf & Hrun).
  unfold mk_asset in Hf.
  apply bind_Ok in Hf as (u7 & _ & Hf). injection Hf as <-.
  injection Hrun as <-.
  split; [exact Hpos |].
  exists res, market, es.
  split; [reflexivity |]. split; [exact Hquota |]. split; [reflexivity |].
  split; [exact Hconv |]. split; [exact Hlow |]. split; [exact Hceil |].
  simpl. rewrite <- app_assoc. reflexivity.
Qed.

(** ** Claiming a refund *)

Lemma asset_add_Ok a b r :
  asset_add a b = Ok r <->
  symbol b = symbol a /\
  - max_amount <= int64 (amount a + amount b) <= max_amount /\
  r = Asset (int64 (amount a + amount b)) (symbol a).
Proof.
  unfold asset_add. split.
  - intros H. ok_inv.
    apply bool_decide_eq_true in E. apply Z.leb_le in E0, E1.
    split; [exact E |]. split; [lia | symmetry; exact H].
  - intros (Hs & (Hlo & Hhi) & ->).
    rewrite (bool_decide_eq_true_2 _ Hs). simpl.
    apply Z.leb_le in Hlo, Hhi. rewrite Hlo, Hhi. reflexivity.
Qed.

Lemma asset_add_aborts a b :
  aborts (asset_add a b) <->
  symbol b <> symbol a \/
  ~ (- max_amount <= int64 (amount a + amount b) <= max_amount).
Proof.
  rewrite aborts_not_succeeds. unfold succeeds. split.
  - intros H.
    destruct (decide (symbol b = symbol a)) as [Hs|Hs]; [| left; exact Hs].
    right. intros Hr. apply H.
    eexists. apply asset_add_Ok. split; [exact Hs |]. split; [exact Hr | reflexivity].
  - intros H (r & Hr). apply asset_add_Ok in Hr as (Hs & Hr & _).
    destruct H as [H|H]; [apply H, Hs | apply H, Hr].
Qed.

(** C6, as the code has it.  [refund(owner)] aborts iff the authorisation of
    [owner] is missing, or no refund row exists for [owner], or
    [request_time + refund_delay], taken in 32 bits, is after [now()], or the
    two amounts of the row cannot be added as assets (different symbols, a sum
    outside the asset range).  On success it queues one transfer of
    [net_amount + cpu_amount] from [snax.stake] to the owner of the row and
    erases the row, so that no refund row remains for [owner]. *)
Theorem refund_outcome ctx owner st :
  (aborts (refund ctx owner st) <->
   has_auth ctx owner = false \/
   refunds st !! (owner, owner) = None \/
   exists req,
     refunds st !! (owner, owner) = Some req /\
     (now ctx < uint32 (refund_request.request_time req + refund_delay) \/
      symbol (refund_request.cpu_amount req) <> symbol (refund_request.net_amount req) \/
      ~ (- max_amount
         <= int64 (amount (refund_request.net_amount req)
                   + amount (refund_request.cpu_amount req))
         <= max_amount))) /\
  (forall st',
     refund ctx owner st = Ok st' ->
     exists req,
       refunds st !! (owner, owner) = Some req /\
       inline_actions st' =
         inline_actions st ++
           [Transfer "snax.stake" "snax.stake" (refund_request.owner req)
              (Asset (int64 (amount (refund_request.net_amount req)
                             + amount (refund_request.cpu_amount req)))
                 (symbol (refund_request.net_amount req)))
              "unstake"] /\
       (is_amount_within_range (amount (refund_request.net_amount req)) = true ->
        is_amount_within_range (amount (refund_request.cpu_amount req)) = true ->
        int64 (amount (refund_request.net_amount req)
               + amount (refund_request.cpu_amount req))
        = amount (refund_request.net_amount req)
          + amount (refund_request.cpu_amount req)) /\
       refunds st' = delete (owner, owner) (refunds st) /\
       refunds st' !! (owner, owner) = None).
Proof.
  unfold refund, require_auth. split.
  - destruct (has_auth ctx owner); simpl;
      [| split; [intros _; left; reflexivity | intros _; apply aborts_Abort]].
    destruct (refunds st !! (owner, owner)) as [req|]; simpl;
      [| split; [intros _; right; left; reflexivity | intros _; apply aborts_Abort]].
    destruct (Z.leb_spec (uint32 (refund_request.request_time req + refund_delay))
                (now ctx)) as [Hdue|Hdue]; simpl.
    + rewrite aborts_bind. split.
      * intros [Hadd | (q & _ & Hq)]; [| exfalso; exact (not_aborts_Ok _ Hq)].
        apply asset_add_aborts in Hadd.
        right. right. exists req. split; [reflexivity |]. right. exact Hadd.
      * intros [H | [H | (req' & Hreq & H)]]; [discriminate H | discriminate H |].
        injection Hreq as <-. left. apply asset_add_aborts.
        destruct H as [H | H]; [lia | exact H].
    + split; [| intros _; apply aborts_Abort].
      intros _. right. right. exists req. split; [reflexivity |]. left. exact Hdue.
  - intros st' Hrun. ok_inv.
    apply asset_add_Ok in E2 as (Hs & Hr & ->).
    subst x0. exists t. split; [reflexivity |]. subst st'. simpl.
    split; [reflexivity |].
    split.
    { unfold is_amount_within_range. intros (Ha & Hb)%andb_true_iff (Hc & Hd)%andb_true_iff.
      apply Z.leb_le in Ha, Hb, Hc, Hd.
      apply int64_id. consts. lia. }
    split; [reflexivity |]. apply lookup_delete_eq.
Qed.

(** ** The checks of the stake transaction *)

Lemma asset_cmp_Ok op a b r :
  asset_cmp op a b = Ok r <-> symbol a = symbol b /\ r = op (amount a) (amount b).
Proof.
  unfold asset_cmp. split.
  - intros H. ok_inv. apply bool_decide_eq_true in E. split; [exact E | symmetry; exact H].
  - intros (Hs & ->). rewrite (bool_decide_eq_true_2 _ Hs). reflexivity.
Qed.

Lemma and_then_Ok a b r :
  and_then a b = Ok r <->
  (a = Ok false /\ r = false) \/ (a = Ok true /\ b = Ok r).
Proof.
  unfold and_then. destruct a as [[|]|msg]; simpl; split; intros H.
  - right. split; [reflexivity | exact H].
  - destruct H as [(H & _) | (_ & H)]; [discriminate H | exact H].
  - left. injection H as <-. split; reflexivity.
  - destruct H as [(_ & ->) | (H & _)]; [reflexivity | discriminate H].
  - discriminate H.
  - destruct H as [(H & _) | (H & _)]; discriminate H.
Qed.

Lemma or_else_Ok a b r :
  or_else a b = Ok r <->
  (a = Ok true /\ r = true) \/ (a = Ok false /\ b = Ok r).
Proof.
  unfold or_else. destruct a as [[|]|msg]; simpl; split; intros H.
  - left. injection H as <-. split; reflexivity.
  - destruct H as [(_ & ->) | (H & _)]; [reflexivity | discriminate H].
  - right. split; [reflexivity | exact H].
  - destruct H as [(H & _) | (_ & H)]; [discriminate H | exact H].
  - discriminate H.
  - destruct H as [(H & _) | (H & _)]; discriminate H.
Qed.

(** What the three assertions leave: deltas of one unit, not both zero, of
    the same sign and with a sum in the asset range; or both the least
    64-bit integer, whose sum wraps to zero. *)
Lemma changebw_guards_Ok ctx from net cpu st u :
  in_int64 (amount net) -> in_int64 (amount cpu) ->
  changebw_guards ctx from net cpu st = Ok u ->
  symbol cpu = symbol net /\
  (amount net <> 0 \/ amount cpu <> 0) /\
  ((0 <= amount net /\ 0 <= amount cpu /\ amount net + amount cpu <= max_amount) \/
   (amount net <= 0 /\ amount cpu <= 0 /\ - max_amount <= amount net + amount cpu) \/
   (amount net = int64_min /\ amount cpu = int64_min)).
Proof.
  intros Hn Hc H. unfold changebw_guards in H.
  apply bind_Ok in H as (u1 & _ & H).
  apply bind_Ok in H as (nz & Hnz & H).
  apply bind_Ok in H as (u2 & Hnz' & H).
  apply snax_assert_Ok in Hnz'. subst nz.
  apply bind_Ok in H as (sum & Hsum & H).
  apply snax_assert_Ok, Z.leb_le in H.
  apply asset_add_Ok in Hsum as (Hs & Hr & ->). simpl in H.
  split; [exact Hs |].
  split.
  { apply or_else_Ok in Hnz as [(Ha & _) | (_ & Hb)].
    - apply asset_cmp_Ok in Ha as (_ & Ha). simpl in Ha.
      left. intros E. rewrite E in Ha. discriminate Ha.
    - apply asset_cmp_Ok in Hb as (_ & Hb). simpl in Hb.
      right. intros E. rewrite E in Hb. discriminate Hb. }
  unfold abs64 in H.
  destruct (int64_spec (amount net + amount cpu)) as (k & Hk & Hkr).
  destruct (int64_spec (Z.abs (amount net))) as (k1 & Hk1 & Hkr1).
  destruct (int64_spec (Z.abs (amount cpu))) as (k2 & Hk2 & Hkr2).
  destruct (int64_spec (Z.abs (int64 (amount net + amount cpu)))) as (k3 & Hk3 & Hkr3).
  rewrite Hk1, Hk2, Hk3 in *. rewrite Hk in *.
  consts. lia.
Qed.

Lemma changebw_checks_Ok ctx from receiver net cpu st swap :
  changebw_checks ctx from receiver net cpu st = Ok swap ->
  changebw_swap net cpu = Ok swap /\
  has_auth ctx (if swap then receiver else from) = true /\
  changebw_guards ctx from net cpu st = Ok tt.
Proof.
  unfold changebw_checks, require_auth. intros H.
  apply bind_Ok in H as (sw & Hsw & H).
  apply bind_Ok in H as (u1 & Hauth%snax_assert_Ok & H).
  apply bind_Ok in H as ([] & Hg & H).
  injection H as <-. repeat split; assumption.
Qed.

Lemma changebw_Ok_checks ctx from receiver net cpu transfer st st' :
  changebw update_votes ctx from receiver net cpu transfer st = Ok st' ->
  exists swap, changebw_checks ctx from receiver net cpu st = Ok swap.
Proof.
  unfold changebw. intros H.
  apply bind_Ok in H as (swap & Hsw & _). exists swap. exact Hsw.
Qed.

(** C2. [changebw] aborts unless at least one of the deltas is non-zero and
    [|net + cpu| >= max(|net|, |cpu|)]; for deltas of strictly opposite signs
    it fails in its checks, before any write. *)
Theorem changebw_rejects_mixed_deltas ctx from receiver net cpu transfer st :
  in_int64 (amount net) ->
  in_int64 (amount cpu) ->
  (succeeds (changebw update_votes ctx from receiver net cpu transfer st) ->
   (amount net <> 0 \/ amount cpu <> 0) /\
   Z.max (Z.abs (amount net)) (Z.abs (amount cpu)) <= Z.abs (amount net + amount cpu)) /\
  (amount net < 0 < amount cpu \/ amount cpu < 0 < amount net ->
   aborts (changebw_checks ctx from receiver net cpu st) /\
   aborts (changebw update_votes ctx from receiver net cpu transfer st)).
Proof.
  intros Hn Hc. split.
  - intros (st' & Hrun).
    apply changebw_Ok_checks in Hrun as (swap & Hchk).
    apply changebw_checks_Ok in Hchk as (_ & _ & Hg).
    apply (changebw_guards_Ok _ _ _ _ _ _ Hn Hc) in Hg as (_ & Hnz & Hsign).
    split; [exact Hnz |]. consts. lia.
  - intros Hopp.
    assert (aborts (changebw_checks ctx from receiver net cpu st)) as Hab.
    { apply aborts_not_succeeds. intros (swap & Hchk).
      apply changebw_checks_Ok in Hchk as (_ & _ & Hg).
      apply (changebw_guards_Ok _ _ _ _ _ _ Hn Hc) in Hg as (_ & _ & Hsign).
      consts. lia. }
    split; [exact Hab |].
    unfold changebw. apply aborts_bind. left. exact Hab.
Qed.

(** ** The four writes of the stake transaction *)

Lemma changebw_Ok ctx from receiver net cpu transfer st st' :
  changebw update_votes ctx from receiver net cpu transfer st = Ok st' <->
  exists swap st1 st2 st3,
    changebw_checks ctx from receiver net cpu st = Ok swap /\
    changebw_delband swap (if transfer then receiver else from) receiver net cpu st
      = Ok st1 /\
    changebw_totals swap (if transfer then receiver else from) receiver net cpu st1
      = Ok st2 /\
    changebw_refund ctx from (if transfer then receiver else from) receiver
      net cpu transfer st2 = Ok st3 /\
    changebw_voting update_votes ctx swap (if transfer then receiver else from)
      receiver net cpu st3 = Ok st'.
Proof.
  unfold changebw. split.
  - intros H.
    apply bind_Ok in H as (swap & Hsw & H).
    apply bind_Ok in H as (st1 & H1 & H).
    apply bind_Ok in H as (st2 & H2 & H).
    apply bind_Ok in H as (st3 & H3 & H).
    exists swap, st1, st2, st3. repeat split; assumption.
  - intros (swap & st1 & st2 & st3 & Hsw & H1 & H2 & H3 & H4).
    rewrite Hsw. simpl. rewrite H1. simpl. rewrite H2. simpl. rewrite H3. simpl.
    exact H4.
Qed.

Lemma emplace_Ok {K R : Type} `{Countable K} (k : K) (r : R) (t t' : gmap K R) :
  emplace k r t = Ok t' <-> t !! k = None /\ t' = <[k := r]> t.
Proof.
  unfold emplace. destruct (t !! k); split.
  - discriminate.
  - intros (Hn & _). discriminate Hn.
  - intros Ht. injection Ht as <-. split; reflexivity.
  - intros (_ & ->). reflexivity.
Qed.

(** The first write touches the delegation table only, at one key. *)
Lemma changebw_delband_Ok swap from receiver net cpu st st' :
  changebw_delband swap from receiver net cpu st = Ok st' ->
  let scope := if swap then receiver else from in
  let key := if swap then from else receiver in
  exists pk dbo,
    (match delband st !! (scope, key) with
     | None =>
         pk = (scope, receiver) /\ delband st !! pk = None /\
         dbo = delegated_bandwidth.mk from receiver net cpu
     | Some old =>
         pk = (scope, key) /\
         exists n c,
           asset_add (delegated_bandwidth.net_weight old) net = Ok n /\
           asset_add (delegated_bandwidth.cpu_weight old) cpu = Ok c /\
           dbo = delegated_bandwidth.mk (delegated_bandwidth.from old)
                   (delegated_bandwidth.to old) n c
     end) /\
    symbol (delegated_bandwidth.net_weight dbo) = CORE_SYMBOL /\
    symbol (delegated_bandwidth.cpu_weight dbo) = CORE_SYMBOL /\
    0 <= amount (delegated_bandwidth.net_weight dbo) /\
    0 <= amount (delegated_bandwidth.cpu_weight dbo) /\
    st' = set_delband
            (if (amount (delegated_bandwidth.net_weight dbo) =? 0)
                && (amount (delegated_bandwidth.cpu_weight dbo) =? 0)
             then delete pk (delband st)
             else <[pk := dbo]> (delband st)) st.
Proof.
  intros H scope key. unfold changebw_delband in H. fold scope key in H.
  apply bind_Ok in H as ([[pk dbo] t] & Hitr & H).
  apply bind_Ok in H as (net_ok & Hnet & H).
  apply bind_Ok in H as (u1 & Hnet'%snax_assert_Ok & H). subst net_ok.
  apply bind_Ok in H as (cpu_ok & Hcpu & H).
  apply bind_Ok in H as (u2 & Hcpu'%snax_assert_Ok & H). subst cpu_ok.
  apply bind_Ok in H as (zero & Hzero & H).
  injection H as <-.
  apply asset_cmp_Ok in Hnet as (Hsn & Hnet). symmetry in Hnet. apply Z.leb_le in Hnet.
  apply asset_cmp_Ok in Hcpu as (Hsc & Hcpu). symmetry in Hcpu. apply Z.leb_le in Hcpu.
  simpl in Hsn, Hsc, Hnet, Hcpu.
  assert (zero = (amount (delegated_bandwidth.net_weight dbo) =? 0)
                 && (amount (delegated_bandwidth.cpu_weight dbo) =? 0)) as ->.
  { apply and_then_Ok in Hzero as [(Ha & ->) | (Ha & Hb)].
    - apply asset_cmp_Ok in Ha as (_ & Ha). simpl in Ha. rewrite <- Ha. reflexivity.
    - apply asset_cmp_Ok in Ha as (_ & Ha). apply asset_cmp_Ok in Hb as (_ & Hb).
      simpl in Ha, Hb. rewrite <- Ha, Hb. reflexivity. }
  exists pk, dbo.
  assert (t = <[pk := dbo]> (delband st) /\
          match delband st !! (scope, key) with
          | None =>
              pk = (scope, receiver) /\ delband st !! pk = None /\
              dbo = delegated_bandwidth.mk from receiver net cpu
          | Some old =>
              pk = (scope, key) /\
              exists n c,
                asset_add (delegated_bandwidth.net_weight old) net = Ok n /\
                asset_add (delegated_bandwidth.cpu_weight old) cpu = Ok c /\
                dbo = delegated_bandwidth.mk (delegated_bandwidth.from old)
                        (delegated_bandwidth.to old) n c
          end) as (-> & Hrow).
  { destruct (delband st !! (scope, key)) as [old|] eqn:Eold.
    - apply bind_Ok in Hitr as (n & Hn & Hitr).
      apply bind_Ok in Hitr as (c & Hc & Hitr).
      injection Hitr as <- <- <-.
      split; [reflexivity |]. split; [reflexivity |].
      exists n, c. repeat split; assumption.
    - apply bind_Ok in Hitr as (t0 & Ht0 & Hitr).
      injection Hitr as <- <- <-.
      apply emplace_Ok in Ht0 as (Hfree & ->).
      split; [reflexivity |]. repeat split; assumption. }
  split; [exact Hrow |].
  repeat (split; [congruence || assumption |]).
  f_equal.
  destruct ((amount (delegated_bandwidth.net_weight dbo) =? 0)
            && (amount (delegated_bandwidth.cpu_weight dbo) =? 0));
    [apply delete_insert_eq | reflexivity].
Qed.

(** The second write touches the totals, at one key, and the limits. *)
Lemma changebw_totals_Ok swap from receiver net cpu st st' :
  changebw_totals swap from receiver net cpu st = Ok st' ->
  let scope := if swap then from else receiver in
  exists pk tot,
    (match userres st !! (scope, scope) with
     | None =>
         pk = (scope, receiver) /\ userres st !! pk = None /\
         tot = user_resources.mk receiver net cpu 0
     | Some old =>
         pk = (scope, scope) /\
         exists n c,
           asset_add (user_resources.net_weight old) net = Ok n /\
           asset_add (user_resources.cpu_weight old) cpu = Ok c /\
           tot = user_resources.mk (user_resources.owner old) n c
                   (user_resources.ram_bytes old)
     end) /\
    symbol (user_resources.net_weight tot) = CORE_SYMBOL /\
    symbol (user_resources.cpu_weight tot) = CORE_SYMBOL /\
    0 <= amount (user_resources.net_weight tot) /\
    0 <= amount (user_resources.cpu_weight tot) /\
    st' = set_userres
            (if (amount (user_resources.net_weight tot) =? 0)
                && ((amount (user_resources.cpu_weight tot) =? 0)
                    && (user_resources.ram_bytes tot =? 0))
             then delete pk (userres st)
             else <[pk := tot]> (userres st))
            (set_resource_limits receiver (user_resources.ram_bytes tot)
               (amount (user_resources.net_weight tot))
               (amount (user_resources.cpu_weight tot)) st).
Proof.
  intros H scope. unfold changebw_totals in H. fold scope in H.
  apply bind_Ok in H as ([[pk tot] t] & Hitr & H).
  apply bind_Ok in H as (net_ok & Hnet & H).
  apply bind_Ok in H as (u1 & Hnet'%snax_assert_Ok & H). subst net_ok.
  apply bind_Ok in H as (cpu_ok & Hcpu & H).
  apply bind_Ok in H as (u2 & Hcpu'%snax_assert_Ok & H). subst cpu_ok.
  apply bind_Ok in H as (zero & Hzero & H).
  injection H as <-.
  apply asset_cmp_Ok in Hnet as (Hsn & Hnet). symmetry in Hnet. apply Z.leb_le in Hnet.
  apply asset_cmp_Ok in Hcpu as (Hsc & Hcpu). symmetry in Hcpu. apply Z.leb_le in Hcpu.
  simpl in Hsn, Hsc, Hnet, Hcpu.
  assert (zero = (amount (user_resources.net_weight tot) =? 0)
                 && ((amount (user_resources.cpu_weight tot) =? 0)
                     && (user_resources.ram_bytes tot =? 0))) as ->.
  { apply and_then_Ok in Hzero as [(Ha & ->) | (Ha & Hb)].
    - apply asset_cmp_Ok in Ha as (_ & Ha). simpl in Ha. rewrite <- Ha. reflexivity.
    - apply asset_cmp_Ok in Ha as (_ & Ha). simpl in Ha. rewrite <- Ha. simpl.
      apply and_then_Ok in Hb as [(Hb & ->) | (Hb & Hc)].
      + apply asset_cmp_Ok in Hb as (_ & Hb). simpl in Hb. rewrite <- Hb. reflexivity.
      + apply asset_cmp_Ok in Hb as (_ & Hb). simpl in Hb. rewrite <- Hb.
        injection Hc as <-. reflexivity. }
  exists pk, tot.
  assert (t = <[pk := tot]> (userres st) /\
          match userres st !! (scope, scope) with
          | None =>
              pk = (scope, receiver) /\ userres st !! pk = None /\
              tot = user_resources.mk receiver net cpu 0
          | Some old =>
              pk = (scope, scope) /\
              exists n c,
                asset_add (user_resources.net_weight old) net = Ok n /\
                asset_add (user_resources.cpu_weight old) cpu = Ok c /\
                tot = user_resources.mk (user_resources.owner old) n c
                        (user_resources.ram_bytes old)
          end) as (-> & Hrow).
  { destruct (userres st !! (scope, scope)) as [old|] eqn:Eold.
    - apply bind_Ok in Hitr as (n & Hn & Hitr).
      apply bind_Ok in Hitr as (c & Hc & Hitr).
      injection Hitr as <- <- <-.
      split; [reflexivity |]. split; [reflexivity |].
      exists n, c. repeat split; assumption.
    - apply bind_Ok in Hitr as (t0 & Ht0 & Hitr).
      injection Hitr as <- <- <-.
      apply emplace_Ok in Ht0 as (Hfree & ->).
      split; [reflexivity |]. repeat split; assumption. }
  split; [exact Hrow |].
  repeat (split; [congruence || assumption |]).
  unfold set_userres, set_resource_limits. simpl. f_equal.
  destruct ((amount (user_resources.net_weight tot) =? 0)
            && ((amount (user_resources.cpu_weight tot) =? 0)
                && (user_resources.ram_bytes tot =? 0)));
    [apply delete_insert_eq | reflexivity].
Qed.

(** The third write leaves the delegation table, the totals, the escrow
    rows and the voters as they are. *)
Lemma changebw_refund_frame ctx source from receiver net cpu transfer st st' :
  changebw_refund ctx source from receiver net cpu transfer st = Ok st' ->
  delband st' = delband st /\ userres st' = userres st /\
  escrow st' = escrow st /\ _voters st' = _voters st /\
  _gstate st' = _gstate st /\ _producers st' = _producers st.
Proof.
  unfold changebw_refund, changebw_refund_row. intros H.
  repeat ok_step; simplify_eq;
    repeat match goal with |- context [if ?b then _ else _] => destruct b end;
    simpl; repeat split; reflexivity.
Qed.

(** The last write leaves every table of the ledger but the voters. *)
Lemma changebw_voting_frame ctx swap from receiver net cpu st st' :
  changebw_voting update_votes ctx swap from receiver net cpu st = Ok st' ->
  delband st' = delband st /\ userres st' = userres st /\
  escrow st' = escrow st /\ refunds st' = refunds st /\
  deferred st' = deferred st /\ inline_actions st' = inline_actions st /\
  resource_limits st' = resource_limits st /\ _rammarket st' = _rammarket st.
Proof.
  unfold changebw_voting. intros H.
  repeat ok_step; simplify_eq;
    repeat match goal with |- context [if ?b then _ else _] => destruct b end;
    simpl; repeat split; reflexivity.
Qed.

(** ** Which delegation row is read and written *)

Lemma delegatebw_Ok ctx from receiver net cpu transfer st st' :
  delegatebw update_votes ctx from receiver net cpu transfer st = Ok st' ->
  symbol net = CORE_SYMBOL /\ symbol cpu = CORE_SYMBOL /\
  0 <= amount net /\ 0 <= amount cpu /\
  changebw update_votes ctx from receiver net cpu transfer st = Ok st'.
Proof.
  unfold delegatebw. intros H.
  apply bind_Ok in H as (cpu_ok & Hcpu & H).
  apply bind_Ok in H as (u1 & Hcpu'%snax_assert_Ok & H). subst cpu_ok.
  apply bind_Ok in H as (net_ok & Hnet & H).
  apply bind_Ok in H as (u2 & Hnet'%snax_assert_Ok & H). subst net_ok.
  apply bind_Ok in H as (sum & Hsum & H).
  apply bind_Ok in H as (sum_ok & Hpos & H).
  apply bind_Ok in H as (u3 & Hpos'%snax_assert_Ok & H).
  apply bind_Ok in H as (u4 & _ & H).
  apply asset_cmp_Ok in Hcpu as (Hsc & Hcpu). symmetry in Hcpu. apply Z.geb_le in Hcpu.
  apply asset_cmp_Ok in Hnet as (Hsn & Hnet). symmetry in Hnet. apply Z.geb_le in Hnet.
  simpl in *. repeat split; assumption.
Qed.

Lemma changebw_swap_nonneg net cpu swap :
  0 <= amount net -> changebw_swap net cpu = Ok swap -> swap = false.
Proof.
  unfold changebw_swap. intros Hn H.
  apply and_then_Ok in H as [(_ & ->) | (Ha & _)]; [reflexivity |].
  apply asset_cmp_Ok in Ha as (_ & Ha). simpl in Ha.
  symmetry in Ha. apply Z.ltb_lt in Ha. lia.
Qed.

Lemma changebw_delband_other swap from receiver net cpu st st' k :
  changebw_delband swap from receiver net cpu st = Ok st' ->
  k <> (if swap then receiver else from, if swap then from else receiver) ->
  k <> (if swap then receiver else from, receiver) ->
  delband st' !! k = delband st !! k.
Proof.
  intros H Hk1 Hk2.
  apply changebw_delband_Ok in H as (pk & dbo & Hrow & _ & _ & _ & _ & ->).
  assert (k <> pk) as Hk.
  { destruct (delband st !! (if swap then receiver else from,
                             if swap then from else receiver)).
    - destruct Hrow as (-> & _). exact Hk1.
    - destruct Hrow as (-> & _). exact Hk2. }
  simpl.
  destruct ((amount (delegated_bandwidth.net_weight dbo) =? 0)
            && (amount (delegated_bandwidth.cpu_weight dbo) =? 0)).
  - apply lookup_delete_ne. congruence.
  - apply lookup_insert_ne. congruence.
Qed.

Lemma changebw_delband_changes from receiver net cpu st st' :
  0 <= amount net <= int64_max -> 0 <= amount cpu <= int64_max ->
  amount net <> 0 \/ amount cpu <> 0 ->
  changebw_delband false from receiver net cpu st = Ok st' ->
  delband st' !! (from, receiver) <> delband st !! (from, receiver).
Proof.
  intros Hn Hc Hnz H.
  apply changebw_delband_Ok in H as (pk & dbo & Hrow & _ & _ & _ & _ & ->).
  simpl in *.
  destruct (delband st !! (from, receiver)) as [old|] eqn:Eold.
  - destruct Hrow as (-> & n & c & Hadd1 & Hadd2 & ->). simpl.
    apply asset_add_Ok in Hadd1 as (_ & _ & ->).
    apply asset_add_Ok in Hadd2 as (_ & _ & ->). simpl.
    destruct (_ && _).
    + rewrite lookup_delete_eq. discriminate.
    + rewrite lookup_insert_eq. intros E. injection E as E.
      destruct old as [f t [na ns] [ca cs]]. simpl in *.
      injection E as E1 E2.
      destruct (int64_spec (na + amount net)) as (k1 & Hk1 & _).
      destruct (int64_spec (ca + amount cpu)) as (k2 & Hk2 & _).
      consts. lia.
  - destruct Hrow as (-> & _ & ->). simpl.
    destruct (Z.eqb_spec (amount net) 0) as [E1|E1];
      destruct (Z.eqb_spec (amount cpu) 0) as [E2|E2]; simpl;
      try (rewrite lookup_insert_eq; discriminate).
    exfalso. destruct Hnz as [Hnz|Hnz]; [exact (Hnz E1) | exact (Hnz E2)].
Qed.

(** C9. [undelegatebw(from, receiver, ...)] reads the delegation row at
    scope [receiver] and primary key [from], and aborts (so without any
    change of state) when there is no such row; [delegatebw] writes the row
    at scope [from] ([receiver] under the transfer flag) and key [receiver],
    and no other. *)
Theorem undelegatebw_reads_reverse_row ctx from receiver net cpu st :
  (delband st !! (receiver, from) = None ->
   aborts (undelegatebw update_votes min_activated_stake ctx from receiver net cpu st)) /\
  (forall st',
     undelegatebw update_votes min_activated_stake ctx from receiver net cpu st = Ok st' ->
     exists dbo available,
       delband st !! (receiver, from) = Some dbo /\
       asset_add (delegated_bandwidth.net_weight dbo)
         (delegated_bandwidth.cpu_weight dbo) = Ok available) /\
  (forall transfer st',
     in_int64 (amount net) -> in_int64 (amount cpu) ->
     delegatebw update_votes ctx from receiver net cpu transfer st = Ok st' ->
     let written := (if transfer then receiver else from, receiver) in
     delband st' !! written <> delband st !! written /\
     forall k, k <> written -> delband st' !! k = delband st !! k).
Proof.
  assert (forall st',
     undelegatebw update_votes min_activated_stake ctx from receiver net cpu st = Ok st' ->
     exists dbo available,
       delband st !! (receiver, from) = Some dbo /\
       asset_add (delegated_bandwidth.net_weight dbo)
         (delegated_bandwidth.cpu_weight dbo) = Ok available) as Hread.
  { intros st' H. unfold undelegatebw in H.
    apply bind_Ok in H as (cpu_ok & _ & H).
    apply bind_Ok in H as (u1 & _ & H).
    apply bind_Ok in H as (net_ok & _ & H).
    apply bind_Ok in H as (u2 & _ & H).
    apply bind_Ok in H as (sum & _ & H).
    apply bind_Ok in H as (sum_ok & _ & H).
    apply bind_Ok in H as (u3 & _ & H).
    apply bind_Ok in H as (itr & Hitr & H).
    apply bind_Ok in H as (available & Hav & _).
    destruct (delband st !! (receiver, from)) as [dbo|]; [| discriminate Hitr].
    injection Hitr as <-. exists dbo, available. split; [reflexivity | exact Hav]. }
  split; [| split; [exact Hread |]].
  - intros Hnone. apply aborts_not_succeeds. intros (st' & H).
    apply Hread in H as (dbo & _ & Hsome & _). congruence.
  - intros transfer st' Tn Tc H written.
    apply delegatebw_Ok in H as (_ & _ & Hn & Hc & H).
    apply changebw_Ok in H as (swap & st1 & st2 & st3 & Hchk & H1 & H2 & H3 & H4).
    apply changebw_checks_Ok in Hchk as (Hsw & _ & Hg).
    apply (changebw_guards_Ok _ _ _ _ _ _ Tn Tc) in Hg as (_ & Hnz & _).
    apply (changebw_swap_nonneg _ _ _ Hn) in Hsw. subst swap.
    apply changebw_voting_frame in H4 as (-> & _).
    apply changebw_refund_frame in H3 as (-> & _).
    apply changebw_totals_Ok in H2 as (pk & tot & _ & _ & _ & _ & _ & ->).
    simpl. split.
    + apply (changebw_delband_changes _ _ net cpu); try assumption.
      * destruct Tn. split; assumption.
      * destruct Tc. split; assumption.
    + intros k Hk.
      apply (changebw_delband_other _ _ _ _ _ _ _ k) in H1; simpl; assumption.
Qed.

(** ** Voting power and the genesis account *)

Lemma changebw_voting_Ok ctx swap from receiver net cpu st st' :
  changebw_voting update_votes ctx swap from receiver net cpu st = Ok st' ->
  0 <= staked_after swap from receiver net cpu st /\
  (from = "b1" ->
   validate_b1_vesting ctx (staked_after swap from receiver net cpu st) = Ok tt).
Proof.
  unfold changebw_voting, staked_after. intros H.
  apply bind_Ok in H as (total & Htotal & H).
  apply asset_add_Ok in Htotal as (_ & _ & ->). simpl in H.
  apply bind_Ok in H as ([v t] & Hv & H).
  apply bind_Ok in H as (u1 & Hst%snax_assert_Ok & H).
  apply bind_Ok in H as ([] & Hb1 & _).
  apply Z.leb_le in Hst.
  assert (voter_info.staked v =
          match _voters st !! (if swap then receiver else from) with
          | Some v0 => int64 (voter_info.staked v0 + int64 (amount net + amount cpu))
          | None => int64 (amount net + amount cpu)
          end) as <-.
  { destruct (_voters st !! (if swap then receiver else from)) as [v0|].
    - injection Hv as <- _. reflexivity.
    - apply bind_Ok in Hv as (t0 & _ & Hv). injection Hv as <- _. reflexivity. }
  split; [exact Hst |].
  intros ->. rewrite bool_decide_eq_true_2 in Hb1 by reflexivity. exact Hb1.
Qed.

(** Nothing is claimable at the base time, everything ten years of 52 weeks
    later, and the share grows with the clock in between. *)
Example b1_claimable_at_base_time :
  b1_claimable (Context 1527811200 (fun _ => true) (fun _ => false)) = Ok 0.
Proof. vm_compute. reflexivity. Qed.

Example b1_claimable_after_ten_years :
  b1_claimable (Context (1527811200 + 314496000) (fun _ => true) (fun _ => false))
  = Ok 1000000000000.
Proof. vm_compute. reflexivity. Qed.

Example b1_claimable_in_2020 :
  b1_claimable (Context 1600000000 (fun _ => true) (fun _ => false)) = Ok 229538054538.
Proof. vm_compute. reflexivity. Qed.

(** X18. The vesting check that [changebw] does make: when the staker
    ([from], or [receiver] under [transfer]) is [b1], the action aborts
    unless [max_claimable - claimable <= staked], where [claimable] is
    [max_claimable * (now() - 1527811200) / (10 * seconds_per_year)],
    computed in double precision and truncated, and [staked] is the balance
    left in the voter row that the action updates: that of [b1], or that of
    [receiver] when both deltas are negative. *)
Theorem changebw_b1_vesting ctx from receiver net cpu transfer st st' :
  changebw update_votes ctx from receiver net cpu transfer st = Ok st' ->
  (if transfer then receiver else from) = "b1" ->
  exists swap claimable,
    changebw_swap net cpu = Ok swap /\
    b1_claimable ctx = Ok claimable /\
    claimable =
      match double_div
              (double_mul (double_of_Z 1000000000000)
                 (double_of_Z (int64 (now ctx - 1527811200))))
              (double_of_Z (10 * seconds_per_year)) with
      | S754_finite s m e =>
          int64 ((if s then Z.opp else id)
                   (if 0 <=? e then Z.pos m * 2 ^ e else Z.quot (Z.pos m) (2 ^ (- e))))
      | _ => 0
      end /\
    int64 (max_claimable - claimable) <= staked_after swap "b1" receiver net cpu st.
Proof.
  intros H Hb1.
  apply changebw_Ok in H as (swap & st1 & st2 & st3 & Hchk & H1 & H2 & H3 & H4).
  apply changebw_checks_Ok in Hchk as (Hsw & _ & _).
  rewrite Hb1 in *.
  apply changebw_voting_Ok in H4 as (_ & Hv). specialize (Hv eq_refl).
  apply changebw_refund_frame in H3 as (_ & _ & _ & Hv3 & _).
  apply changebw_totals_Ok in H2 as (pk & tot & _ & _ & _ & _ & _ & ->).
  apply changebw_delband_Ok in H1 as (pk1 & dbo & _ & _ & _ & _ & _ & ->).
  assert (staked_after swap "b1" receiver net cpu st3
          = staked_after swap "b1" receiver net cpu st) as Hsame.
  { unfold staked_after. rewrite Hv3. reflexivity. }
  rewrite Hsame in Hv. clear Hsame.
  unfold validate_b1_vesting in Hv.
  apply bind_Ok in Hv as (claimable & Hcl & Hv).
  apply snax_assert_Ok, Z.leb_le in Hv.
  exists swap, claimable.
  split; [exact Hsw |]. split; [exact Hcl |]. split; [| exact Hv].
  unfold b1_claimable, int64_of_double, base_time, max_claimable in Hcl.
  change (uint64 (10 * seconds_per_year)) with (10 * seconds_per_year) in Hcl.
  destruct (double_div _ _) as [s|s| |s m e]; try discriminate Hcl.
  - injection Hcl as <-. reflexivity.
  - injection Hcl as <-. destruct s; reflexivity.
Qed.

(** ** No zero-valued rows *)

Lemma changebw_delband_rows swap from receiver net cpu st st' :
  changebw_delband swap from receiver net cpu st = Ok st' ->
  (forall k r, delband st !! k = Some r -> delband_row_ok r) ->
  (forall k r, delband st' !! k = Some r -> delband_row_ok r) /\
  userres st' = userres st.
Proof.
  intros H Hinv.
  apply changebw_delband_Ok in H as (pk & dbo & _ & _ & _ & Hn & Hc & ->).
  simpl. split; [| reflexivity].
  intros k r.
  destruct ((amount (delegated_bandwidth.net_weight dbo) =? 0)
            && (amount (delegated_bandwidth.cpu_weight dbo) =? 0)) eqn:Ez.
  - intros Hk. apply lookup_delete_Some in Hk as (_ & Hk). exact (Hinv _ _ Hk).
  - intros Hk. apply lookup_insert_Some in Hk as [(_ & <-) | (_ & Hk)];
      [| exact (Hinv _ _ Hk)].
    split; [exact Hn |]. split; [exact Hc |].
    intros (E1 & E2). rewrite E1, E2 in Ez. discriminate Ez.
Qed.

Lemma changebw_totals_rows swap from receiver net cpu st st' :
  changebw_totals swap from receiver net cpu st = Ok st' ->
  (forall k r, userres st !! k = Some r -> userres_row_ok r) ->
  (forall k r, userres st' !! k = Some r -> userres_row_ok r) /\
  delband st' = delband st.
Proof.
  intros H Hinv.
  apply changebw_totals_Ok in H as (pk & tot & _ & _ & _ & Hn & Hc & ->).
  simpl. split; [| reflexivity].
  intros k r.
  destruct ((amount (user_resources.net_weight tot) =? 0)
            && ((amount (user_resources.cpu_weight tot) =? 0)
                && (user_resources.ram_bytes tot =? 0))) eqn:Ez.
  - intros Hk. apply lookup_delete_Some in Hk as (_ & Hk). exact (Hinv _ _ Hk).
  - intros Hk. apply lookup_insert_Some in Hk as [(_ & <-) | (_ & Hk)];
      [| exact (Hinv _ _ Hk)].
    split; [exact Hn |]. split; [exact Hc |].
    intros (E1 & E2 & E3). rewrite E1, E2, E3 in Ez. discriminate Ez.
Qed.

Lemma changebw_no_zero_rows ctx from receiver net cpu transfer st st' :
  no_zero_rows st ->
  changebw update_votes ctx from receiver net cpu transfer st = Ok st' ->
  no_zero_rows st'.
Proof.
  intros (Hd & Hu) H.
  apply changebw_Ok in H as (swap & st1 & st2 & st3 & _ & H1 & H2 & H3 & H4).
  apply changebw_voting_frame in H4 as (Ed4 & Eu4 & _).
  apply changebw_refund_frame in H3 as (Ed3 & Eu3 & _).
  apply changebw_delband_rows in H1 as (Hd1 & Eu1); [| exact Hd].
  rewrite <- Eu1 in Hu.
  apply changebw_totals_rows in H2 as (Hu2 & Ed2); [| exact Hu].
  unfold no_zero_rows.
  rewrite Ed4, Ed3, Ed2, Eu4, Eu3. split; assumption.
Qed.

Lemma undelegatebw_Ok ctx from receiver net cpu st st' :
  undelegatebw update_votes min_activated_stake ctx from receiver net cpu st = Ok st' ->
  exists t,
    changebw update_votes ctx from receiver (asset_neg net) (asset_neg cpu) false
      (set_escrow t st) = Ok st'.
Proof.
  unfold undelegatebw. intros H.
  apply bind_Ok in H as (cpu_ok & _ & H).
  apply bind_Ok in H as (u1 & _ & H).
  apply bind_Ok in H as (net_ok & _ & H).
  apply bind_Ok in H as (u2 & _ & H).
  apply bind_Ok in H as (sum & _ & H).
  apply bind_Ok in H as (sum_ok & _ & H).
  apply bind_Ok in H as (u3 & _ & H).
  apply bind_Ok in H as (itr & _ & H).
  apply bind_Ok in H as (available & _ & H).
  apply bind_Ok in H as (scanned & _ & H).
  apply bind_Ok in H as (requested & _ & H).
  apply bind_Ok in H as (available_ok & _ & H).
  apply bind_Ok in H as (u4 & _ & H).
  apply bind_Ok in H as (u5 & _ & H).
  exists scanned.2. exact H.
Qed.

Lemma delegation_reachable_no_zero_rows st :
  delegation_reachable update_votes min_activated_stake escrow_primary_key st ->
  no_zero_rows st.
Proof.
  induction 1 as [st Hd Hu | st st' ctx from receiver net cpu transfer _ IH H
                 | st st' ctx from receiver net cpu transfer _ IH H
                 | st st' ctx from receiver net cpu _ IH H
                 | st st' ctx from receiver net cpu transfer pc _ IH H
                 | st st' ctx owner _ IH H].
  - unfold no_zero_rows. rewrite Hd, Hu. split; intros k r Hk; discriminate Hk.
  - exact (changebw_no_zero_rows _ _ _ _ _ _ _ _ IH H).
  - apply delegatebw_Ok in H as (_ & _ & _ & _ & H).
    exact (changebw_no_zero_rows _ _ _ _ _ _ _ _ IH H).
  - apply undelegatebw_Ok in H as (t & H).
    exact (changebw_no_zero_rows _ _ _ _ _ _ (set_escrow t st) _ IH H).
  - unfold escrowbw in H.
    apply bind_Ok in H as (st1 & H1 & H).
    apply bind_Ok in H as (ia & _ & H).
    apply bind_Ok in H as (am & _ & H).
    apply bind_Ok in H as (t & _ & H).
    injection H as <-.
    apply delegatebw_Ok in H1 as (_ & _ & _ & _ & H1).
    exact (changebw_no_zero_rows _ _ _ _ _ _ _ _ IH H1).
  - unfold refund in H. ok_inv. subst st'. exact IH.
Qed.

(** C7. Along every sequence of delegation operations, after each successful
    [changebw] no delegation row with [net_weight = 0] and [cpu_weight = 0]
    remains, and no totals row with [net_weight = 0], [cpu_weight = 0] and
    [ram_bytes = 0] remains; the weights of every row are not negative. *)
Theorem changebw_leaves_no_zero_rows ctx from receiver net cpu transfer st st' :
  delegation_reachable update_votes min_activated_stake escrow_primary_key st ->
  changebw update_votes ctx from receiver net cpu transfer st = Ok st' ->
  (forall k r,
     delband st' !! k = Some r ->
     0 <= amount (delegated_bandwidth.net_weight r) /\
     0 <= amount (delegated_bandwidth.cpu_weight r) /\
     ~ (amount (delegated_bandwidth.net_weight r) = 0 /\
        amount (delegated_bandwidth.cpu_weight r) = 0)) /\
  (forall k r,
     userres st' !! k = Some r ->
     0 <= amount (user_resources.net_weight r) /\
     0 <= amount (user_resources.cpu_weight r) /\
     ~ (amount (user_resources.net_weight r) = 0 /\
        amount (user_resources.cpu_weight r) = 0 /\
        user_resources.ram_bytes r = 0)).
Proof.
  intros Hreach H.
  apply delegation_reachable_no_zero_rows in Hreach.
  exact (changebw_no_zero_rows _ _ _ _ _ _ _ _ Hreach H).
Qed.

(** ** Refund bookkeeping *)

Lemma asset_sub_Ok a b r :
  asset_sub a b = Ok r <->
  symbol b = symbol a /\
  - max_amount <= int64 (amount a - amount b) <= max_amount /\
  r = Asset (int64 (amount a - amount b)) (symbol a).
Proof.
  unfold asset_sub. split.
  - intros H. ok_inv.
    apply bool_decide_eq_true in E. apply Z.leb_le in E0, E1.
    split; [exact E |]. split; [lia | symmetry; exact H].
  - intros (Hs & (Hlo & Hhi) & ->).
    rewrite (bool_decide_eq_true_2 _ Hs). simpl.
    apply Z.leb_le in Hlo, Hhi. rewrite Hlo, Hhi. reflexivity.
Qed.

(** Between amounts of the asset range a checked difference is exact. *)
Lemma asset_sub_exact a b r :
  - max_amount <= amount a <= max_amount ->
  - max_amount <= amount b <= max_amount ->
  asset_sub a b = Ok r ->
  amount r = amount a - amount b /\
  - max_amount <= amount a - amount b <= max_amount /\
  symbol r = symbol a.
Proof.
  intros Ha Hb H. apply asset_sub_Ok in H as (_ & Hr & ->). simpl.
  rewrite int64_id in * by (consts; lia).
  repeat split; lia.
Qed.

Lemma asset_add_exact a b r :
  - max_amount <= amount a <= max_amount ->
  - max_amount <= amount b <= max_amount ->
  asset_add a b = Ok r ->
  amount r = amount a + amount b /\
  - max_amount <= amount a + amount b <= max_amount /\
  symbol r = symbol a.
Proof.
  intros Ha Hb H. apply asset_add_Ok in H as (_ & Hr & ->). simpl.
  rewrite int64_id in * by (consts; lia).
  repeat split; lia.
Qed.

Lemma asset_lt_zero a b :
  asset_lt a asset0 = Ok b -> symbol a = CORE_SYMBOL /\ b = (amount a <? 0).
Proof. intros H. apply asset_cmp_Ok in H as (Hs & ->). split; [exact Hs | reflexivity]. Qed.

Lemma decreases_Ok net cpu b :
  or_else (asset_lt net asset0) (asset_lt cpu asset0) = Ok b ->
  b = (amount net <? 0) || (amount cpu <? 0).
Proof.
  intros H. apply or_else_Ok in H as [(Ha & ->) | (Ha & Hb)].
  - apply asset_lt_zero in Ha as (_ & Ha). rewrite <- Ha. reflexivity.
  - apply asset_lt_zero in Ha as (_ & Ha). apply asset_lt_zero in Hb as (_ & Hb).
    rewrite <- Ha, Hb. reflexivity.
Qed.

Lemma refund_update_Ok ctx r net cpu r' nb cb :
  - max_amount <= amount net <= max_amount ->
  - max_amount <= amount cpu <= max_amount ->
  0 <= amount (refund_request.net_amount r) <= max_amount ->
  0 <= amount (refund_request.cpu_amount r) <= max_amount ->
  refund_update ctx r net cpu = Ok (r', nb, cb) ->
  refund_request.owner r' = refund_request.owner r /\
  refund_request.request_time r' =
    (if (amount net <? 0) || (amount cpu <? 0)
     then now ctx else refund_request.request_time r) /\
  amount (refund_request.net_amount r')
    = Z.max 0 (amount (refund_request.net_amount r) - amount net) /\
  amount (refund_request.cpu_amount r')
    = Z.max 0 (amount (refund_request.cpu_amount r) - amount cpu) /\
  amount (refund_request.net_amount r) - amount net <= max_amount /\
  amount (refund_request.cpu_amount r) - amount cpu <= max_amount.
Proof.
  intros Hn Hc Hrn Hrc H. unfold refund_update in H.
  apply bind_Ok in H as (dec & Hdec & H).
  apply decreases_Ok in Hdec. subst dec.
  apply bind_Ok in H as (na & Hna & H).
  apply bind_Ok in H as (nneg & Hnneg & H).
  apply bind_Ok in H as (ca & Hca & H).
  apply bind_Ok in H as (cneg & Hcneg & H).
  injection H as <- _ _. simpl.
  apply asset_sub_exact in Hna as (Ena & Hnar & _); [| lia | lia].
  apply asset_sub_exact in Hca as (Eca & Hcar & _); [| lia | lia].
  apply asset_lt_zero in Hnneg as (_ & ->). apply asset_lt_zero in Hcneg as (_ & ->).
  split; [reflexivity |]. split; [reflexivity |].
  split; [| split; [| split; lia]].
  - destruct (Z.ltb_spec (amount na) 0); simpl; lia.
  - destruct (Z.ltb_spec (amount ca) 0); simpl; lia.
Qed.

Lemma refund_create_Ok ctx from net cpu r nb cb :
  - max_amount <= amount net <= max_amount ->
  - max_amount <= amount cpu <= max_amount ->
  refund_create ctx from net cpu = Ok (r, nb, cb) ->
  refund_request.owner r = from /\
  refund_request.request_time r = now ctx /\
  amount (refund_request.net_amount r) = Z.max 0 (- amount net) /\
  amount (refund_request.cpu_amount r) = Z.max 0 (- amount cpu).
Proof.
  intros Hn Hc H. unfold refund_create in H.
  apply bind_Ok in H as (nneg & Hnneg & H).
  apply bind_Ok in H as (cneg & Hcneg & H).
  injection H as <- _ _. simpl.
  apply asset_lt_zero in Hnneg as (_ & ->). apply asset_lt_zero in Hcneg as (_ & ->).
  split; [reflexivity |]. split; [reflexivity |].
  unfold asset_neg.
  split.
  - destruct (Z.ltb_spec (amount net) 0); simpl; [| lia].
    rewrite int64_id by (consts; lia). lia.
  - destruct (Z.ltb_spec (amount cpu) 0); simpl; [| lia].
    rewrite int64_id by (consts; lia). lia.
Qed.

(** What create/update/delete does to the refund table: nothing outside the
    row of [from]; on that row, an update (erased when both amounts are
    zero), a creation, or nothing. *)
Lemma changebw_refund_row_Ok ctx from receiver net cpu transfer st st1 nb cb need :
  - max_amount <= amount net <= max_amount ->
  - max_amount <= amount cpu <= max_amount ->
  - max_amount <= amount net + amount cpu <= max_amount ->
  (forall r, refunds st !! (from, from) = Some r ->
     0 <= amount (refund_request.net_amount r) <= max_amount /\
     0 <= amount (refund_request.cpu_amount r) <= max_amount) ->
  changebw_refund_row ctx from receiver net cpu transfer st = Ok (st1, nb, cb, need) ->
  let touch := negb transfer && bool_decide (from = receiver)
               || (amount net + amount cpu <? 0) in
  exists t,
    st1 = set_refunds t st /\
    (forall k, k <> (from, from) -> t !! k = refunds st !! k) /\
    match refunds st !! (from, from) with
    | Some r =>
        if touch then
          exists r',
            refund_request.owner r' = refund_request.owner r /\
            refund_request.request_time r' =
              (if (amount net <? 0) || (amount cpu <? 0)
               then now ctx else refund_request.request_time r) /\
            amount (refund_request.net_amount r')
              = Z.max 0 (amount (refund_request.net_amount r) - amount net) /\
            amount (refund_request.cpu_amount r')
              = Z.max 0 (amount (refund_request.cpu_amount r) - amount cpu) /\
            amount (refund_request.net_amount r) - amount net <= max_amount /\
            amount (refund_request.cpu_amount r) - amount cpu <= max_amount /\
            if (amount (refund_request.net_amount r') =? 0)
               && (amount (refund_request.cpu_amount r') =? 0)
            then t !! (from, from) = None /\ need = false
            else t !! (from, from) = Some r' /\ need = true
        else t = refunds st /\ need = false
    | None =>
        if touch && ((amount net <? 0) || (amount cpu <? 0)) then
          exists r',
            refund_request.owner r' = from /\
            refund_request.request_time r' = now ctx /\
            amount (refund_request.net_amount r') = Z.max 0 (- amount net) /\
            amount (refund_request.cpu_amount r') = Z.max 0 (- amount cpu) /\
            t !! (from, from) = Some r' /\ need = true
        else t = refunds st /\ need = false
    end.
Proof.
  intros Hn Hc Hs Hinv H touch. unfold changebw_refund_row in H.
  rewrite (int64_id (amount net + amount cpu)) in H by (consts; lia).
  fold touch in H.
  destruct touch.
  - destruct (refunds st !! (from, from)) as [r|] eqn:Er.
    + apply bind_Ok in H as ([[r' nb'] cb'] & Hupd & H).
      apply bind_Ok in H as (net_ok & _ & H).
      apply bind_Ok in H as (u1 & _ & H).
      apply bind_Ok in H as (cpu_ok & _ & H).
      apply bind_Ok in H as (u2 & _ & H).
      apply bind_Ok in H as (zero & Hzero & H).
      destruct (Hinv r eq_refl) as (Hrn & Hrc).
      apply (refund_update_Ok _ _ _ _ _ _ _ Hn Hc Hrn Hrc) in Hupd
        as (Ho & Ht & En & Ec & Bn & Bc).
      assert (zero = (amount (refund_request.net_amount r') =? 0)
                     && (amount (refund_request.cpu_amount r') =? 0)) as ->.
      { apply and_then_Ok in Hzero as [(Ha & ->) | (Ha & Hb)].
        - apply asset_cmp_Ok in Ha as (_ & Ha). simpl in Ha. rewrite <- Ha. reflexivity.
        - apply asset_cmp_Ok in Ha as (_ & Ha). apply asset_cmp_Ok in Hb as (_ & Hb).
          simpl in Ha, Hb. rewrite <- Ha, Hb. reflexivity. }
      destruct ((amount (refund_request.net_amount r') =? 0)
                && (amount (refund_request.cpu_amount r') =? 0)) eqn:Ez.
      * injection H as <- _ _ <-.
        eexists. split; [reflexivity |]. split.
        { intros k Hk. rewrite lookup_delete_ne by congruence.
          apply lookup_insert_ne. congruence. }
        exists r'. rewrite Ez.
        repeat (split; [assumption |]).
        split; [apply lookup_delete_eq | reflexivity].
      * injection H as <- _ _ <-.
        eexists. split; [reflexivity |]. split.
        { intros k Hk. apply lookup_insert_ne. congruence. }
        exists r'. rewrite Ez.
        repeat (split; [assumption |]).
        split; [apply lookup_insert_eq | reflexivity].
    + apply bind_Ok in H as (dec & Hdec & H).
      apply decreases_Ok in Hdec. subst dec. simpl.
      destruct ((amount net <? 0) || (amount cpu <? 0)).
      * apply bind_Ok in H as ([[r' nb'] cb'] & Hnew & H).
        apply bind_Ok in H as (t & Ht & H).
        injection H as <- _ _ <-.
        apply (refund_create_Ok _ _ _ _ _ _ _ Hn Hc) in Hnew as (Ho & Hrt & En & Ec).
        apply emplace_Ok in Ht as (_ & ->).
        unfold refund_request.primary_key. rewrite Ho.
        eexists. split; [reflexivity |]. split.
        { intros k Hk. apply lookup_insert_ne. congruence. }
        exists r'. repeat (split; [assumption |]).
        split; [apply lookup_insert_eq | reflexivity].
      * injection H as <- _ _ <-.
        exists (refunds st). split; [destruct st; reflexivity |].
        split; [reflexivity |]. split; reflexivity.
  - injection H as <- _ _ <-.
    exists (refunds st). split; [destruct st; reflexivity |].
    split; [reflexivity |].
    destruct (refunds st !! (from, from)); simpl; split; reflexivity.
Qed.

Lemma changebw_refund_Ok ctx source from receiver net cpu transfer st st' :
  changebw_refund ctx source from receiver net cpu transfer st = Ok st' ->
  if bool_decide (source = "snax.stake") then st' = st
  else
    exists st1 nb cb need,
      changebw_refund_row ctx from receiver net cpu transfer st = Ok (st1, nb, cb, need) /\
      refunds st' = refunds st1 /\
      deferred st' =
        if need : bool
        then <[from := Deferred from from refund_delay from]> (delete from (deferred st1))
        else delete from (deferred st1).
Proof.
  unfold changebw_refund. intros H.
  destruct (bool_decide (source = "snax.stake")); [injection H as <-; reflexivity |].
  apply bind_Ok in H as ([[[st1 nb] cb] need] & Hrow & H).
  apply bind_Ok in H as (amt & _ & H).
  apply bind_Ok in H as (pos & _ & H).
  injection H as <-.
  exists st1, nb, cb, need. split; [exact Hrow |].
  destruct pos, need; simpl; split; reflexivity.
Qed.

(** With delegation rows that are not negative, a [changebw] that gets past
    its first write has deltas of the asset range and of one sign. *)
Lemma changebw_deltas_bounded ctx from from' receiver net cpu st swap st1 :
  (forall k r, delband st !! k = Some r -> delband_row_bounded r) ->
  in_int64 (amount net) -> in_int64 (amount cpu) ->
  changebw_checks ctx from receiver net cpu st = Ok swap ->
  changebw_delband swap from' receiver net cpu st = Ok st1 ->
  (- max_amount <= amount net <= max_amount /\
   - max_amount <= amount cpu <= max_amount /\
   - max_amount <= amount net + amount cpu <= max_amount /\
   (amount net <> 0 \/ amount cpu <> 0) /\
   (0 <= amount net /\ 0 <= amount cpu \/ amount net <= 0 /\ amount cpu <= 0)) /\
  (forall k r, delband st1 !! k = Some r -> delband_row_bounded r).
Proof.
  intros Hinv Hn Hc Hchk H1.
  apply changebw_checks_Ok in Hchk as (_ & _ & Hg).
  apply (changebw_guards_Ok _ _ _ _ _ _ Hn Hc) in Hg as (_ & Hnz & Hsign).
  apply changebw_delband_Ok in H1 as (pk & dbo & Hrow & _ & _ & Hdn & Hdc & ->).
  assert (delband_row_bounded dbo) as Hdbo.
  { destruct (delband st !! _) as [old|].
    - destruct Hrow as (_ & n & c & Hadd1 & Hadd2 & ->). simpl in *.
      apply asset_add_Ok in Hadd1 as (_ & _ & ->).
      apply asset_add_Ok in Hadd2 as (_ & _ & ->). simpl in *.
      pose proof (int64_in_int64 (amount (delegated_bandwidth.net_weight old) + amount net)).
      pose proof (int64_in_int64 (amount (delegated_bandwidth.cpu_weight old) + amount cpu)).
      unfold delband_row_bounded. simpl. consts. lia.
    - destruct Hrow as (_ & _ & ->). simpl in *.
      unfold delband_row_bounded. simpl. consts. lia. }
  split.
  - destruct Hsign as [Hs | [Hs | (En & Ec)]]; [consts; lia | consts; lia |].
    exfalso.
    destruct (delband st !! _) as [old|] eqn:Eold.
    + destruct Hrow as (_ & n & c & Hadd1 & _ & ->). simpl in *.
      apply asset_add_Ok in Hadd1 as (_ & _ & ->). simpl in *.
      destruct (Hinv _ _ Eold) as (Hb & _).
      rewrite int64_id in Hdn by (consts; lia).
      consts. lia.
    + destruct Hrow as (_ & _ & ->). simpl in *. consts. lia.
  - simpl. intros k r.
    destruct ((amount (delegated_bandwidth.net_weight dbo) =? 0)
              && (amount (delegated_bandwidth.cpu_weight dbo) =? 0)).
    + intros Hk. apply lookup_delete_Some in Hk as (_ & Hk). exact (Hinv _ _ Hk).
    + intros Hk. apply lookup_insert_Some in Hk as [(_ & <-) | (_ & Hk)];
        [exact Hdbo | exact (Hinv _ _ Hk)].
Qed.

(** The refund table and the deferred payout after a successful [changebw],
    on a ledger in order. *)
Lemma changebw_refunds_effect ctx from receiver net cpu transfer st st' :
  ledger_ok st ->
  in_int64 (amount net) -> in_int64 (amount cpu) ->
  changebw update_votes ctx from receiver net cpu transfer st = Ok st' ->
  let owner := if transfer then receiver else from in
  let touch := negb transfer && bool_decide (owner = receiver)
               || (amount net + amount cpu <? 0) in
  (forall k r, delband st' !! k = Some r -> delband_row_bounded r) /\
  (forall k, k <> (owner, owner) -> refunds st' !! k = refunds st !! k) /\
  if bool_decide (from = "snax.stake") then refunds st' = refunds st
  else
    match refunds st !! (owner, owner) with
    | Some r =>
        if touch then
          exists r',
            refund_request.request_time r' =
              (if (amount net <? 0) || (amount cpu <? 0)
               then now ctx else refund_request.request_time r) /\
            amount (refund_request.net_amount r')
              = Z.max 0 (amount (refund_request.net_amount r) - amount net) /\
            amount (refund_request.cpu_amount r')
              = Z.max 0 (amount (refund_request.cpu_amount r) - amount cpu) /\
            amount (refund_request.net_amount r) - amount net <= max_amount /\
            amount (refund_request.cpu_amount r) - amount cpu <= max_amount /\
            if (amount (refund_request.net_amount r') =? 0)
               && (amount (refund_request.cpu_amount r') =? 0)
            then refunds st' !! (owner, owner) = None /\ deferred st' !! owner = None
            else refunds st' !! (owner, owner) = Some r' /\
                 deferred st' !! owner = Some (Deferred owner owner refund_delay owner)
        else refunds st' = refunds st /\ deferred st' !! owner = None
    | None =>
        if touch && ((amount net <? 0) || (amount cpu <? 0)) then
          exists r',
            refund_request.request_time r' = now ctx /\
            amount (refund_request.net_amount r') = Z.max 0 (- amount net) /\
            amount (refund_request.cpu_amount r') = Z.max 0 (- amount cpu) /\
            refunds st' !! (owner, owner) = Some r' /\
            deferred st' !! owner = Some (Deferred owner owner refund_delay owner)
        else refunds st' = refunds st /\ deferred st' !! owner = None
    end.
Proof.
  intros (Hd & Hr) Hn Hc H owner touch.
  apply changebw_Ok in H as (swap & st1 & st2 & st3 & Hchk & H1 & H2 & H3 & H4).
  fold owner in H1, H2, H3, H4.
  destruct (changebw_deltas_bounded _ _ _ _ _ _ _ _ _ Hd Hn Hc Hchk H1)
    as ((Bn & Bc & Bs & _ & _) & Hd1).
  apply changebw_voting_frame in H4 as (Ed4 & _ & _ & Er4 & Ef4 & _).
  pose proof (changebw_refund_frame _ _ _ _ _ _ _ _ _ H3) as (Ed3 & _).
  apply changebw_totals_Ok in H2 as (pk & tot & _ & _ & _ & _ & _ & E2).
  assert (delband st2 = delband st1 /\ refunds st2 = refunds st1 /\
          deferred st2 = deferred st1) as (Ed2 & Er2 & Ef2)
    by (subst st2; repeat split; reflexivity).
  apply changebw_delband_Ok in H1 as (pk1 & dbo & _ & _ & _ & _ & _ & E1).
  assert (refunds st1 = refunds st /\ deferred st1 = deferred st) as (Er1 & Ef1)
    by (subst st1; split; reflexivity).
  clear E1 E2.
  rewrite Ed4, Ed3, Ed2. split; [exact Hd1 |].
  rewrite Er4, Ef4.
  apply changebw_refund_Ok in H3.
  destruct (bool_decide (from = "snax.stake")).
  { subst st3. rewrite Er2, Er1. split; reflexivity. }
  destruct H3 as (st1' & nb & cb & need & Hrow & Er3 & Ef3).
  rewrite Er3, Ef3.
  apply changebw_refund_row_Ok in Hrow as (t & -> & Hother & Hcase);
    [| assumption | assumption | assumption
     | intros r Hk; rewrite Er2, Er1 in Hk;
       destruct (Hr _ _ Hk) as (? & ? & _); split; assumption].
  fold touch in Hcase. simpl. rewrite Er2, Er1 in *. rewrite Ef2, Ef1.
  split; [exact Hother |].
  destruct (refunds st !! (owner, owner)) as [r|].
  - destruct touch.
    + destruct Hcase as (r' & _ & Ht & En & Ec & B1 & B2 & Hz).
      exists r'. repeat (split; [assumption |]).
      destruct ((amount (refund_request.net_amount r') =? 0)
                && (amount (refund_request.cpu_amount r') =? 0)).
      * destruct Hz as (Hz & ->). split; [exact Hz | apply lookup_delete_eq].
      * destruct Hz as (Hz & ->). split; [exact Hz | apply lookup_insert_eq].
    + destruct Hcase as (-> & ->). split; [reflexivity | apply lookup_delete_eq].
  - destruct (touch && ((amount net <? 0) || (amount cpu <? 0))).
    + destruct Hcase as (r' & _ & Ht & En & Ec & Hz & ->).
      exists r'. repeat (split; [assumption |]). apply lookup_insert_eq.
    + destruct Hcase as (-> & ->). split; [reflexivity | apply lookup_delete_eq].
Qed.

Lemma changebw_ledger_ok ctx from receiver net cpu transfer st st' :
  ledger_ok st ->
  in_int64 (amount net) -> in_int64 (amount cpu) ->
  changebw update_votes ctx from receiver net cpu transfer st = Ok st' ->
  ledger_ok st'.
Proof.
  intros Hok Hn Hc H.
  pose proof (changebw_refunds_effect _ _ _ _ _ _ _ _ Hok Hn Hc H) as (Hd & Hother & Hrow).
  destruct Hok as (Hd0 & Hr).
  split; [exact Hd |].
  set (owner := if transfer then receiver else from) in *.
  intros k r' Hk.
  destruct (decide (k = (owner, owner))) as [-> | Hne];
    [| rewrite (Hother k Hne) in Hk; exact (Hr _ _ Hk)].
  destruct (bool_decide (from = "snax.stake")).
  { rewrite Hrow in Hk. exact (Hr _ _ Hk). }
  destruct (refunds st !! (owner, owner)) as [r|] eqn:Er.
  - destruct (Hr _ _ Er) as (Rn & Rc & _).
    destruct (_ || _).
    + destruct Hrow as (r'' & _ & En & Ec & B1 & B2 & Hz).
      destruct ((amount (refund_request.net_amount r'') =? 0)
                && (amount (refund_request.cpu_amount r'') =? 0)) eqn:Ez.
      * destruct Hz as (Hz & _). congruence.
      * destruct Hz as (Hz & _). rewrite Hz in Hk. injection Hk as <-.
        unfold refund_row_ok. rewrite En, Ec.
        split; [lia |]. split; [lia |].
        intros (E1 & E2). rewrite <- En in E1. rewrite <- Ec in E2.
        rewrite E1, E2 in Ez. discriminate Ez.
    + destruct Hrow as (Hrow & _). rewrite Hrow in Hk. exact (Hr _ _ Hk).
  - destruct (_ && _) eqn:Et.
    + destruct Hrow as (r'' & _ & En & Ec & Hz & _).
      rewrite Hz in Hk. injection Hk as <-.
      apply andb_true_iff in Et as (_ & Et).
      apply changebw_Ok in H as (swap & st1 & _ & _ & Hchk & H1 & _).
      destruct (changebw_deltas_bounded _ _ _ _ _ _ _ _ _ Hd0 Hn Hc Hchk H1)
        as ((Bn & Bc & _) & _).
      unfold refund_row_ok. rewrite En, Ec.
      split; [lia |]. split; [lia |].
      apply orb_true_iff in Et as [Et%Z.ltb_lt | Et%Z.ltb_lt]; lia.
    + destruct Hrow as (Hrow & _). rewrite Hrow in Hk. exact (Hr _ _ Hk).
Qed.

Lemma buyram_frame ctx payer receiver quant st st' :
  buyram convert ctx payer receiver quant st = Ok st' ->
  delband st' = delband st /\ refunds st' = refunds st.
Proof.
  unfold buyram. intros H.
  destruct (0 <? amount (buyram_fee quant));
    repeat ok_step; simplify_eq; simpl; split; reflexivity.
Qed.

Lemma sellram_frame ctx account bytes st st' :
  sellram convert ctx account bytes st = Ok st' ->
  delband st' = delband st /\ refunds st' = refunds st.
Proof.
  unfold sellram. intros H.
  repeat ok_step; simplify_eq; simpl; split; reflexivity.
Qed.

Lemma asset_neg_in_int64 a : in_int64 (amount (asset_neg a)).
Proof. apply int64_in_int64. Qed.

Lemma reachable_ledger_ok st :
  reachable convert update_votes min_activated_stake escrow_primary_key st ->
  ledger_ok st.
Proof.
  induction 1 as [st Hd Hr
                 | st st' ctx payer receiver quant _ IH H
                 | st st' ctx payer receiver bytes _ IH H
                 | st st' ctx account bytes _ IH H
                 | st st' ctx from receiver net cpu transfer _ IH Hn Hc H
                 | st st' ctx from receiver net cpu transfer _ IH Hn Hc H
                 | st st' ctx from receiver net cpu _ IH Hn Hc H
                 | st st' ctx from receiver net cpu transfer pc _ IH Hn Hc H
                 | st st' ctx owner _ IH H].
  - unfold ledger_ok. rewrite Hd, Hr. split; intros k r Hk; discriminate Hk.
  - apply buyram_frame in H as (Ed & Er). unfold ledger_ok. rewrite Ed, Er. exact IH.
  - unfold buyrambytes in H.
    apply bind_Ok in H as (tmp & _ & H).
    apply bind_Ok in H as (b & _ & H).
    apply bind_Ok in H as (out & _ & H).
    apply buyram_frame in H as (Ed & Er). unfold ledger_ok. rewrite Ed, Er. exact IH.
  - apply sellram_frame in H as (Ed & Er). unfold ledger_ok. rewrite Ed, Er. exact IH.
  - exact (changebw_ledger_ok _ _ _ _ _ _ _ _ IH Hn Hc H).
  - apply delegatebw_Ok in H as (_ & _ & _ & _ & H).
    exact (changebw_ledger_ok _ _ _ _ _ _ _ _ IH Hn Hc H).
  - apply undelegatebw_Ok in H as (t & H).
    exact (changebw_ledger_ok _ _ _ _ _ _ (set_escrow t st) _ IH
             (asset_neg_in_int64 net) (asset_neg_in_int64 cpu) H).
  - unfold escrowbw in H.
    apply bind_Ok in H as (st1 & H1 & H).
    apply bind_Ok in H as (ia & _ & H).
    apply bind_Ok in H as (am & _ & H).
    apply bind_Ok in H as (t & _ & H).
    injection H as <-.
    apply delegatebw_Ok in H1 as (_ & _ & _ & _ & H1).
    exact (changebw_ledger_ok _ _ _ _ _ _ _ _ IH Hn Hc H1).
  - unfold refund in H. ok_inv. subst st'.
    destruct IH as (Hd & Hr). split; [exact Hd |]. simpl.
    intros k r Hk. apply lookup_delete_Some in Hk as (_ & Hk). exact (Hr _ _ Hk).
Qed.

Lemma changebw_stake_pool_frame ctx receiver net cpu transfer st st' :
  changebw update_votes ctx "snax.stake" receiver net cpu transfer st = Ok st' ->
  refunds st' = refunds st /\ deferred st' = deferred st.
Proof.
  intros H.
  apply changebw_Ok in H as (swap & st1 & st2 & st3 & _ & H1 & H2 & H3 & H4).
  apply changebw_voting_frame in H4 as (_ & _ & _ & -> & -> & _).
  apply changebw_refund_Ok in H3.
  rewrite bool_decide_eq_true_2 in H3 by reflexivity. subst st3.
  apply changebw_totals_Ok in H2 as (pk & tot & _ & _ & _ & _ & _ & ->).
  apply changebw_delband_Ok in H1 as (pk1 & dbo & _ & _ & _ & _ & _ & ->).
  split; reflexivity.
Qed.

(** C3, as the code has it.  In every reachable state, after every
    successful [changebw]: the amounts of every refund row are not negative
    (and not both zero), and no refund row but that of the stake owner
    changes.  The refund of the stake owner is updated when the staker is not
    [snax.stake] and the call undelegates or delegates to self: a missing
    row is then created from the negative parts of the deltas, an existing
    row is erased exactly when both amounts reach zero, and a row that stays
    has its [request_time] reset to [now()] iff the net or the cpu delta is
    negative.  The deferred payout is cancelled by every [changebw] of a
    staker other than [snax.stake], and sent again only when the refund was
    created or updated and is left in the table; so it is cancelled also
    when the refund is left untouched and non-zero. *)
Theorem changebw_refund_invariant ctx from receiver net cpu transfer st st' :
  reachable convert update_votes min_activated_stake escrow_primary_key st ->
  in_int64 (amount net) -> in_int64 (amount cpu) ->
  changebw update_votes ctx from receiver net cpu transfer st = Ok st' ->
  let owner := if transfer then receiver else from in
  let updates := from <> "snax.stake" /\
                 ((transfer = false /\ from = receiver) \/
                  amount net + amount cpu < 0) in
  (forall k r,
     refunds st' !! k = Some r ->
     0 <= amount (refund_request.net_amount r) /\
     0 <= amount (refund_request.cpu_amount r) /\
     ~ (amount (refund_request.net_amount r) = 0 /\
        amount (refund_request.cpu_amount r) = 0)) /\
  (forall k, k <> (owner, owner) -> refunds st' !! k = refunds st !! k) /\
  (refunds st !! (owner, owner) = None ->
   (is_Some (refunds st' !! (owner, owner)) <->
    updates /\ (amount net < 0 \/ amount cpu < 0)) /\
   (forall new,
      refunds st' !! (owner, owner) = Some new ->
      refund_request.request_time new = now ctx /\
      amount (refund_request.net_amount new) = Z.max 0 (- amount net) /\
      amount (refund_request.cpu_amount new) = Z.max 0 (- amount cpu))) /\
  (forall old,
     refunds st !! (owner, owner) = Some old ->
     (refunds st' !! (owner, owner) = None <->
      updates /\
      amount (refund_request.net_amount old) - amount net <= 0 /\
      amount (refund_request.cpu_amount old) - amount cpu <= 0) /\
     (forall new,
        refunds st' !! (owner, owner) = Some new ->
        if decide updates then
          refund_request.request_time new =
            (if decide (amount net < 0 \/ amount cpu < 0)
             then now ctx else refund_request.request_time old) /\
          amount (refund_request.net_amount new)
            = Z.max 0 (amount (refund_request.net_amount old) - amount net) /\
          amount (refund_request.cpu_amount new)
            = Z.max 0 (amount (refund_request.cpu_amount old) - amount cpu)
        else new = old)) /\
  (from <> "snax.stake" ->
   deferred st' !! owner =
     if decide (updates /\ is_Some (refunds st' !! (owner, owner)))
     then Some (Deferred owner owner refund_delay owner)
     else None) /\
  (from = "snax.stake" -> refunds st' = refunds st /\ deferred st' = deferred st).
Proof.
  intros Hreach Hn Hc H owner updates.
  apply reachable_ledger_ok in Hreach as Hok.
  pose proof (changebw_ledger_ok _ _ _ _ _ _ _ _ Hok Hn Hc H) as (_ & Hr').
  pose proof (changebw_refunds_effect _ _ _ _ _ _ _ _ Hok Hn Hc H) as (_ & Hother & Hrow).
  fold owner in Hother, Hrow.
  assert (negb transfer && bool_decide (owner = receiver) = true
          <-> transfer = false /\ from = receiver) as Hself.
  { unfold owner. destruct transfer; simpl.
    - split; [discriminate | intros (E & _); discriminate E].
    - rewrite bool_decide_eq_true. tauto. }
  assert (negb transfer && bool_decide (owner = receiver)
          || (amount net + amount cpu <? 0) = true
          <-> (transfer = false /\ from = receiver) \/ amount net + amount cpu < 0)
    as Htouch.
  { rewrite orb_true_iff, Hself, Z.ltb_lt. reflexivity. }
  assert ((amount net <? 0) || (amount cpu <? 0) = true
          <-> amount net < 0 \/ amount cpu < 0) as Hdecr.
  { rewrite orb_true_iff, !Z.ltb_lt. reflexivity. }
  split.
  { intros k r Hk. destruct (Hr' _ _ Hk) as (A & B & C). repeat split; lia || exact C. }
  split; [exact Hother |].
  destruct (bool_decide (from = "snax.stake")) eqn:Estake.
  { apply bool_decide_eq_true in Estake.
    assert (~ updates) as Hnu by (intros (Hne & _); exact (Hne Estake)).
    split.
    { intros Hnone. rewrite Hrow, Hnone.
      split; [| intros new Hnew; discriminate Hnew].
      split; [intros (x & Hx); discriminate Hx | intros (Hu & _); exfalso; exact (Hnu Hu)]. }
    split.
    { intros old Hold. rewrite Hrow, Hold.
      split; [split; [discriminate | intros (Hu & _); exfalso; exact (Hnu Hu)] |].
      intros new Hnew. injection Hnew as <-.
      destruct (decide updates) as [Hu|_]; [exfalso; exact (Hnu Hu) | reflexivity]. }
    split; [intros Hne; exfalso; exact (Hne Estake) |].
    intros _. subst from. exact (changebw_stake_pool_frame _ _ _ _ _ _ _ H). }
  apply bool_decide_eq_false in Estake.
  assert (forall P : Prop, from = "snax.stake" -> P) as Hstake
    by (intros P E; exfalso; exact (Estake E)).
  destruct (refunds st !! (owner, owner)) as [old|] eqn:Eold.
  - destruct (negb transfer && bool_decide (owner = receiver)
              || (amount net + amount cpu <? 0)) eqn:Et.
    + assert (updates) as Hu by (split; [exact Estake | apply Htouch; reflexivity]).
      destruct Hrow as (r' & Ht & En & Ec & B1 & B2 & Hz).
      destruct ((amount (refund_request.net_amount r') =? 0)
                && (amount (refund_request.cpu_amount r') =? 0)) eqn:Ez.
      * destruct Hz as (Hz & Hdef). rewrite Hz, Hdef.
        apply andb_true_iff in Ez as (Ez1%Z.eqb_eq & Ez2%Z.eqb_eq).
        split; [intros Habs; discriminate Habs |].
        split.
        { intros old' Hold. injection Hold as <-.
          split; [split; [intros _; split; [exact Hu | lia] | reflexivity] |].
          intros new Hnew. discriminate Hnew. }
        split; [| exact (Hstake _)].
        intros _.
        destruct (decide (updates /\ is_Some None)) as [(_ & x & Hx)|_];
          [discriminate Hx | reflexivity].
      * destruct Hz as (Hz & Hdef). rewrite Hz, Hdef.
        apply andb_false_iff in Ez.
        split; [intros Habs; discriminate Habs |].
        split.
        { intros old' Hold. injection Hold as <-.
          assert (~ (amount (refund_request.net_amount old) - amount net <= 0 /\
                     amount (refund_request.cpu_amount old) - amount cpu <= 0)) as Hnz.
          { intros (Z1 & Z2). destruct Ez as [Ez%Z.eqb_neq | Ez%Z.eqb_neq]; lia. }
          split.
          { split; [discriminate |]. intros (_ & Z). exfalso. exact (Hnz Z). }
          intros new Hnew. injection Hnew as <-.
          destruct (decide updates) as [_|Hnu]; [| exfalso; exact (Hnu Hu)].
          split; [| split; lia].
          rewrite Ht.
          destruct (decide (amount net < 0 \/ amount cpu < 0)) as [Hd|Hd].
          - assert ((amount net <? 0) || (amount cpu <? 0) = true) as ->; [| reflexivity].
            apply Hdecr. exact Hd.
          - assert ((amount net <? 0) || (amount cpu <? 0) = false) as ->; [| reflexivity].
            apply orb_false_iff. rewrite !Z.ltb_ge. lia. }
        split; [| exact (Hstake _)].
        intros _.
        destruct (decide (updates /\ is_Some (Some r'))) as [_|Hno]; [reflexivity |].
        exfalso. apply Hno. split; [exact Hu | eexists; reflexivity].
    + assert (~ updates) as Hnu.
      { intros (_ & Hu). apply Htouch in Hu. congruence. }
      destruct Hrow as (Hrow & Hdef). rewrite Hrow, Eold, Hdef.
      split; [intros Habs; discriminate Habs |].
      split.
      { intros old' Hold. injection Hold as <-.
        split; [split; [discriminate | intros (Hu & _); exfalso; exact (Hnu Hu)] |].
        intros new Hnew. injection Hnew as <-.
        destruct (decide updates) as [Hu|_]; [exfalso; exact (Hnu Hu) | reflexivity]. }
      split; [| exact (Hstake _)].
      intros _.
      destruct (decide (updates /\ is_Some (Some old))) as [(Hu & _)|_];
        [exfalso; exact (Hnu Hu) | reflexivity].
  - destruct (negb transfer && bool_decide (owner = receiver)
              || (amount net + amount cpu <? 0)) eqn:Et;
      [destruct ((amount net <? 0) || (amount cpu <? 0)) eqn:Ed |]; simpl in Hrow.
    + assert (updates) as Hu by (split; [exact Estake | apply Htouch; reflexivity]).
      destruct Hrow as (r' & Ht & En & Ec & Hs & Hdef). rewrite Hs, Hdef.
      split.
      { intros _. split.
        - split; [intros _ | intros _; eexists; reflexivity].
          split; [exact Hu | apply Hdecr; reflexivity].
        - intros new Hnew. injection Hnew as <-. repeat split; assumption. }
      split; [intros old Habs; discriminate Habs |].
      split; [| exact (Hstake _)].
      intros _.
      destruct (decide (updates /\ is_Some (Some r'))) as [_|Hno]; [reflexivity |].
      exfalso. apply Hno. split; [exact Hu | eexists; reflexivity].
    + destruct Hrow as (Hrow & Hdef). rewrite Hrow, Eold, Hdef.
      split.
      { intros _. split; [| intros new Hnew; discriminate Hnew].
        split; [intros (x & Hx); discriminate Hx |].
        intros (_ & Hd). apply Hdecr in Hd. congruence. }
      split; [intros old Habs; discriminate Habs |].
      split; [| exact (Hstake _)].
      intros _.
      destruct (decide (updates /\ is_Some None)) as [(_ & x & Hx)|_];
        [discriminate Hx | reflexivity].
    + assert (~ updates) as Hnu.
      { intros (_ & Hu). apply Htouch in Hu. congruence. }
      destruct Hrow as (Hrow & Hdef). rewrite Hrow, Eold, Hdef.
      split.
      { intros _. split; [| intros new Hnew; discriminate Hnew].
        split; [intros (x & Hx); discriminate Hx |].
        intros (Hu & _). exfalso. exact (Hnu Hu). }
      split; [intros old Habs; discriminate Habs |].
      split; [| exact (Hstake _)].
      intros _.
      destruct (decide (updates /\ is_Some None)) as [(_ & x & Hx)|_];
        [discriminate Hx | reflexivity].
Qed.

(** ** The undelegation gate *)

Lemma escrow_rows_lookup (t : gmap (account_name * N) escrow_bandwidth.t) scope k r :
  (k, r) ∈ escrow_rows t scope -> t !! (scope, k) = Some r.
Proof.
  unfold escrow_rows. rewrite merge_sort_Permutation.
  intros ([[s k'] r'] & Hin & Hf)%list_elem_of_omap. simpl in Hf.
  apply elem_of_map_to_list in Hin.
  destruct (bool_decide (s = scope)) eqn:Es; simpl in Hf; [| discriminate Hf].
  destruct (1 <=? k')%N; [| discriminate Hf].
  injection Hf as <- <-. apply bool_decide_eq_true in Es. subst s. exact Hin.
Qed.






(** * Further properties of the actions *)

(** ** Where the deltas of a stake transaction go *)

Lemma refund_update_balances ctx r net cpu r' nb cb :
  - max_amount <= amount net <= max_amount ->
  - max_amount <= amount cpu <= max_amount ->
  0 <= amount (refund_request.net_amount r) <= max_amount ->
  0 <= amount (refund_request.cpu_amount r) <= max_amount ->
  refund_update ctx r net cpu = Ok (r', nb, cb) ->
  amount nb = Z.max 0 (amount net - amount (refund_request.net_amount r)) /\
  amount cb = Z.max 0 (amount cpu - amount (refund_request.cpu_amount r)) /\
  symbol nb = (if amount (refund_request.net_amount r) - amount net <? 0
               then symbol (refund_request.net_amount r) else CORE_SYMBOL) /\
  symbol cb = (if amount (refund_request.cpu_amount r) - amount cpu <? 0
               then symbol (refund_request.cpu_amount r) else CORE_SYMBOL) /\
  symbol net = symbol (refund_request.net_amount r) /\
  symbol cpu = symbol (refund_request.cpu_amount r).
Proof.
  intros Hn Hc Hrn Hrc H. unfold refund_update in H.
  apply bind_Ok in H as (dec & _ & H).
  apply bind_Ok in H as (na & Hna & H).
  apply bind_Ok in H as (nneg & Hnneg & H).
  apply bind_Ok in H as (ca & Hca & H).
  apply bind_Ok in H as (cneg & Hcneg & H).
  injection H as _ <- <-.
  pose proof Hna as Hna'. pose proof Hca as Hca'.
  apply asset_sub_Ok in Hna' as (Sn & _ & _).
  apply asset_sub_Ok in Hca' as (Sc & _ & _).
  apply asset_sub_exact in Hna as (Ena & Hnar & Sna); [| lia | lia].
  apply asset_sub_exact in Hca as (Eca & Hcar & Sca); [| lia | lia].
  apply asset_lt_zero in Hnneg as (_ & ->). apply asset_lt_zero in Hcneg as (_ & ->).
  rewrite Ena, Eca.
  split; [| split; [| split; [| split; [| split; assumption]]]].
  - destruct (Z.ltb_spec (amount (refund_request.net_amount r) - amount net) 0); simpl.
    + rewrite int64_id by (consts; lia). lia.
    + lia.
  - destruct (Z.ltb_spec (amount (refund_request.cpu_amount r) - amount cpu) 0); simpl.
    + rewrite int64_id by (consts; lia). lia.
    + lia.
  - destruct (_ <? 0); [exact Sna | reflexivity].
  - destruct (_ <? 0); [exact Sca | reflexivity].
Qed.

Lemma refund_create_balances ctx from net cpu r nb cb :
  refund_create ctx from net cpu = Ok (r, nb, cb) ->
  amount nb = Z.max 0 (amount net) /\ amount cb = Z.max 0 (amount cpu) /\
  symbol nb = CORE_SYMBOL /\ symbol cb = CORE_SYMBOL.
Proof.
  intros H. unfold refund_create in H.
  apply bind_Ok in H as (nneg & Hnneg & H).
  apply bind_Ok in H as (cneg & Hcneg & H).
  injection H as _ <- <-.
  apply asset_lt_zero in Hnneg as (Sn & ->). apply asset_lt_zero in Hcneg as (Sc & ->).
  split; [| split; [| split]].
  - destruct (Z.ltb_spec (amount net) 0); simpl; lia.
  - destruct (Z.ltb_spec (amount cpu) 0); simpl; lia.
  - destruct (_ <? 0); [reflexivity | exact Sn].
  - destruct (_ <? 0); [reflexivity | exact Sc].
Qed.

(** Every unit of the deltas is either taken out of the pending refund, put
    into it, or left in the balances that are transferred afterwards. *)
Lemma changebw_refund_row_balances ctx from receiver net cpu transfer st st1 nb cb need :
  - max_amount <= amount net <= max_amount ->
  - max_amount <= amount cpu <= max_amount ->
  - max_amount <= amount net + amount cpu <= max_amount ->
  (0 <= amount net /\ 0 <= amount cpu \/ amount net <= 0 /\ amount cpu <= 0) ->
  symbol net = CORE_SYMBOL -> symbol cpu = CORE_SYMBOL ->
  (forall r, refunds st !! (from, from) = Some r ->
     0 <= amount (refund_request.net_amount r) <= max_amount /\
     0 <= amount (refund_request.cpu_amount r) <= max_amount) ->
  changebw_refund_row ctx from receiver net cpu transfer st = Ok (st1, nb, cb, need) ->
  symbol nb = CORE_SYMBOL /\ symbol cb = CORE_SYMBOL /\
  0 <= amount nb <= max_amount /\
  0 <= amount cb <= max_amount /\
  refund_pending st from - refund_pending st1 from + (amount nb + amount cb)
  = amount net + amount cpu /\
  inline_actions st1 = inline_actions st.
Proof.
  intros Hn Hc Hs Hsign Sn Sc Hinv H. unfold changebw_refund_row in H.
  unfold refund_pending.
  rewrite (int64_id (amount net + amount cpu)) in H by (consts; lia).
  destruct (_ || _) eqn:Etouch.
  - destruct (refunds st !! (from, from)) as [r|] eqn:Er.
    + apply bind_Ok in H as ([[r' nb'] cb'] & Hupd & H).
      apply bind_Ok in H as (net_ok & _ & H).
      apply bind_Ok in H as (u1 & _ & H).
      apply bind_Ok in H as (cpu_ok & _ & H).
      apply bind_Ok in H as (u2 & _ & H).
      apply bind_Ok in H as (zero & Hzero & H).
      destruct (Hinv r eq_refl) as (Hrn & Hrc).
      pose proof (refund_update_Ok _ _ _ _ _ _ _ Hn Hc Hrn Hrc Hupd)
        as (_ & _ & En & Ec & B1 & B2).
      apply (refund_update_balances _ _ _ _ _ _ _ Hn Hc Hrn Hrc) in Hupd
        as (Enb & Ecb & Snb & Scb & Sn' & Sc').
      assert (zero = (amount (refund_request.net_amount r') =? 0)
                     && (amount (refund_request.cpu_amount r') =? 0)) as ->.
      { apply and_then_Ok in Hzero as [(Ha & ->) | (Ha & Hb)].
        - apply asset_cmp_Ok in Ha as (_ & Ha). simpl in Ha. rewrite <- Ha. reflexivity.
        - apply asset_cmp_Ok in Ha as (_ & Ha). apply asset_cmp_Ok in Hb as (_ & Hb).
          simpl in Ha, Hb. rewrite <- Ha, Hb. reflexivity. }
      assert (symbol nb' = CORE_SYMBOL /\ symbol cb' = CORE_SYMBOL) as (Snb' & Scb').
      { split.
        - rewrite Snb.
          destruct (amount (refund_request.net_amount r) - amount net <? 0);
            [rewrite <- Sn'; exact Sn | reflexivity].
        - rewrite Scb.
          destruct (amount (refund_request.cpu_amount r) - amount cpu <? 0);
            [rewrite <- Sc'; exact Sc | reflexivity]. }
      destruct ((amount (refund_request.net_amount r') =? 0)
                && (amount (refund_request.cpu_amount r') =? 0)) eqn:Ez.
      * injection H as <- <- <- _. simpl.
        rewrite lookup_delete_eq.
        apply andb_true_iff in Ez as (Z1%Z.eqb_eq & Z2%Z.eqb_eq).
        repeat split; try assumption; lia.
      * injection H as <- <- <- _. simpl.
        rewrite lookup_insert_eq.
        repeat split; try assumption; lia.
    + apply bind_Ok in H as (dec & Hdec & H).
      destruct dec.
      * apply bind_Ok in H as ([[r' nb'] cb'] & Hnew & H).
        apply bind_Ok in H as (t & Ht & H).
        injection H as <- <- <- _.
        pose proof (refund_create_Ok _ _ _ _ _ _ _ Hn Hc Hnew) as (Ho & _ & En & Ec).
        apply refund_create_balances in Hnew as (Enb & Ecb & Snb & Scb).
        apply emplace_Ok in Ht as (_ & ->). simpl.
        unfold refund_request.primary_key. rewrite Ho, lookup_insert_eq.
        repeat split; try assumption; lia.
      * injection H as <- <- <- _. rewrite Er.
        apply decreases_Ok in Hdec. symmetry in Hdec.
        apply orb_false_iff in Hdec as (D1%Z.ltb_ge & D2%Z.ltb_ge).
        repeat split; try assumption; lia.
  - injection H as <- <- <- _.
    apply orb_false_iff in Etouch as (_ & Eu%Z.ltb_ge).
    repeat split; try assumption; lia.
Qed.

Lemma changebw_checks_symbols ctx from receiver net cpu st swap :
  in_int64 (amount net) -> in_int64 (amount cpu) ->
  changebw_checks ctx from receiver net cpu st = Ok swap ->
  symbol net = CORE_SYMBOL /\ symbol cpu = CORE_SYMBOL.
Proof.
  intros Tn Tc H. apply changebw_checks_Ok in H as (Hsw & _ & Hg).
  apply (changebw_guards_Ok _ _ _ _ _ _ Tn Tc) in Hg as (Hs & _).
  unfold changebw_swap in Hsw.
  assert (symbol net = CORE_SYMBOL) as Sn.
  { apply and_then_Ok in Hsw as [(Ha & _) | (Ha & _)];
      apply asset_lt_zero in Ha as (Sn & _); exact Sn. }
  split; [exact Sn | congruence].
Qed.

(** X1. Every unit of the deltas of a successful [changebw] is accounted for:
    what does not go into or come out of the pending refund of the stake
    owner ([receiver] with [transfer], else [from]) is transferred from
    [from] to [snax.stake], in one transfer, and nothing else is
    transferred. *)
Theorem changebw_accounts_for_every_unit ctx from receiver net cpu transfer st st' :
  ledger_ok st ->
  in_int64 (amount net) -> in_int64 (amount cpu) ->
  from <> "snax.stake" ->
  changebw update_votes ctx from receiver net cpu transfer st = Ok st' ->
  let owner := if transfer then receiver else from in
  let moved := amount net + amount cpu
               - (refund_pending st owner - refund_pending st' owner) in
  0 <= moved /\
  inline_actions st' =
    inline_actions st ++
      (if 0 <? moved
       then [Transfer from from "snax.stake" (Asset moved CORE_SYMBOL) "stake bandwidth"]
       else []).
Proof.
  intros (Hd & Hr) Tn Tc Hstake H owner moved.
  apply changebw_Ok in H as (swap & st1 & st2 & st3 & Hchk & H1 & H2 & H3 & H4).
  fold owner in H1, H2, H3, H4.
  destruct (changebw_deltas_bounded _ _ _ _ _ _ _ _ _ Hd Tn Tc Hchk H1)
    as ((Bn & Bc & Bs & _ & Hsign) & _).
  destruct (changebw_checks_symbols _ _ _ _ _ _ _ Tn Tc Hchk) as (Sn & Sc).
  apply changebw_voting_frame in H4 as (_ & _ & _ & Er4 & _ & Ei4 & _).
  apply changebw_totals_Ok in H2 as (pk & tot & _ & _ & _ & _ & _ & E2).
  apply changebw_delband_Ok in H1 as (pk1 & dbo & _ & _ & _ & _ & _ & E1).
  assert (refunds st2 = refunds st /\ inline_actions st2 = inline_actions st) as (Er2 & Ei2)
    by (subst st2 st1; split; reflexivity).
  clear E1 E2.
  unfold changebw_refund in H3.
  rewrite bool_decide_eq_false_2 in H3 by exact Hstake.
  apply bind_Ok in H3 as ([[[st1' nb] cb] need] & Hrow & H3).
  apply bind_Ok in H3 as (amt & Hamt & H3).
  apply bind_Ok in H3 as (pos & Hpos & H3).
  apply changebw_refund_row_balances in Hrow
    as (Snb & Scb & Bnb & Bcb & Hcons & Ei1); try assumption.
  2:{ intros r Hk. rewrite Er2 in Hk. destruct (Hr _ _ Hk) as (? & ? & _).
      split; assumption. }
  pose proof Hamt as Hamt'.
  apply asset_add_exact in Hamt' as (Eamt & Bamt & Samt); [| lia | lia].
  apply asset_cmp_Ok in Hpos as (_ & ->). simpl in H3.
  injection H3 as H3. symmetry in H3.
  assert (refund_pending st' owner = refund_pending st1' owner) as Ep'.
  { unfold refund_pending. rewrite Er4. subst st3.
    destruct (0 <? amount amt), need; reflexivity. }
  assert (refund_pending st2 owner = refund_pending st owner) as Ep
    by (unfold refund_pending; rewrite Er2; reflexivity).
  assert (moved = amount amt) as Emoved by (unfold moved; lia).
  rewrite Emoved. split; [lia |].
  rewrite Ei4. subst st3.
  assert (amt = Asset (amount amt) CORE_SYMBOL) as Easset.
  { destruct amt as [a s]. simpl in *. congruence. }
  destruct (0 <? amount amt), need; simpl;
    rewrite Ei1, Ei2; try rewrite <- Easset; try rewrite app_nil_r; reflexivity.
Qed.

(** X2. For the stake pool itself refunds make no sense: a [changebw] whose
    staker is [snax.stake] leaves the refunds, the deferred payouts and the
    queued transfers as they are. *)
Theorem changebw_of_stake_pool ctx receiver net cpu transfer st st' :
  changebw update_votes ctx "snax.stake" receiver net cpu transfer st = Ok st' ->
  refunds st' = refunds st /\
  deferred st' = deferred st /\
  inline_actions st' = inline_actions st.
Proof.
  intros H.
  apply changebw_Ok in H as (swap & st1 & st2 & st3 & _ & H1 & H2 & H3 & H4).
  apply changebw_voting_frame in H4 as (_ & _ & _ & -> & -> & -> & _).
  unfold changebw_refund in H3.
  rewrite bool_decide_eq_true_2 in H3 by reflexivity. injection H3 as <-.
  apply changebw_totals_Ok in H2 as (pk & tot & _ & _ & _ & _ & _ & ->).
  apply changebw_delband_Ok in H1 as (pk1 & dbo & _ & _ & _ & _ & _ & ->).
  repeat split; reflexivity.
Qed.

(** ** Who has to sign *)

Lemma changebw_swap_value net cpu swap :
  changebw_swap net cpu = Ok swap ->
  swap = (amount net <? 0) && (amount cpu <? 0).
Proof.
  unfold changebw_swap. intros H.
  apply and_then_Ok in H as [(Ha & ->) | (Ha & Hb)].
  - apply asset_lt_zero in Ha as (_ & Ha). rewrite <- Ha. reflexivity.
  - apply asset_lt_zero in Ha as (_ & Ha). apply asset_lt_zero in Hb as (_ & Hb).
    rewrite <- Ha, Hb. reflexivity.
Qed.

Lemma changebw_Ok_signer ctx from receiver net cpu transfer st st' :
  changebw update_votes ctx from receiver net cpu transfer st = Ok st' ->
  has_auth ctx (if (amount net <? 0) && (amount cpu <? 0) then receiver else from)
  = true /\
  (global_state.resources_market_open (_gstate st) = true \/
   is_privileged ctx from = true).
Proof.
  intros H. apply changebw_Ok_checks in H as (swap & Hchk).
  apply changebw_checks_Ok in Hchk as (Hsw & Hauth & Hg).
  apply changebw_swap_value in Hsw. subst swap.
  split; [exact Hauth |].
  unfold changebw_guards in Hg.
  apply bind_Ok in Hg as (u & Hopen%snax_assert_Ok & _).
  apply orb_true_iff in Hopen. exact Hopen.
Qed.

(** X3. [changebw] goes through only with the bandwidth market open or a
    privileged [from], and with the signature of [from]; except that, when
    both deltas are negative, it is [receiver] who has to sign. *)
Theorem changebw_signer ctx from receiver net cpu transfer st st' :
  changebw update_votes ctx from receiver net cpu transfer st = Ok st' ->
  has_auth ctx (if (amount net <? 0) && (amount cpu <? 0) then receiver else from)
  = true /\
  (global_state.resources_market_open (_gstate st) = true \/
   is_privileged ctx from = true).
Proof. intros. eapply changebw_Ok_signer; eassumption. Qed.

Lemma delegatebw_Ok_checked ctx from receiver net cpu transfer st st' :
  in_int64 (amount net) -> in_int64 (amount cpu) ->
  delegatebw update_votes ctx from receiver net cpu transfer st = Ok st' ->
  symbol net = CORE_SYMBOL /\ symbol cpu = CORE_SYMBOL /\
  0 <= amount net /\ 0 <= amount cpu /\
  0 < amount net + amount cpu <= max_amount /\
  (transfer = true -> from <> receiver) /\
  has_auth ctx from = true.
Proof.
  intros Tn Tc H.
  pose proof (delegatebw_Ok _ _ _ _ _ _ _ _ H) as (Sn & Sc & Hn & Hc & Hch).
  pose proof (changebw_Ok_signer _ _ _ _ _ _ _ _ Hch) as (Hauth & _).
  assert ((amount net <? 0) && (amount cpu <? 0) = false) as Eswap.
  { apply andb_false_iff. left. apply Z.ltb_ge. exact Hn. }
  rewrite Eswap in Hauth.
  unfold delegatebw in H.
  apply bind_Ok in H as (cpu_ok & _ & H).
  apply bind_Ok in H as (u1 & _ & H).
  apply bind_Ok in H as (net_ok & _ & H).
  apply bind_Ok in H as (u2 & _ & H).
  apply bind_Ok in H as (sum & Hsum & H).
  apply bind_Ok in H as (sum_ok & Hpos & H).
  apply bind_Ok in H as (u3 & Hpos'%snax_assert_Ok & H). subst sum_ok.
  apply bind_Ok in H as (u4 & Hself%snax_assert_Ok & _).
  apply asset_cmp_Ok in Hpos as (_ & Hpos). symmetry in Hpos.
  apply Z.gtb_lt in Hpos. simpl in Hpos.
  apply asset_add_Ok in Hsum as (_ & Hr & ->). simpl in Hpos.
  destruct (int64_spec (amount net + amount cpu)) as (k & Hk & _).
  repeat (split; [assumption |]).
  split; [consts; lia |].
  split; [| exact Hauth].
  intros -> E. subst receiver.
  rewrite bool_decide_eq_true_2 in Hself by reflexivity. discriminate Hself.
Qed.

(** X4. [delegatebw] aborts unless both quantities are core amounts that are
    not negative, with a positive sum, and unless the transfer flag comes
    with a receiver other than [from]; it needs the signature of [from]. *)
Theorem delegatebw_requirements ctx from receiver net cpu transfer st st' :
  in_int64 (amount net) -> in_int64 (amount cpu) ->
  delegatebw update_votes ctx from receiver net cpu transfer st = Ok st' ->
  symbol net = CORE_SYMBOL /\ symbol cpu = CORE_SYMBOL /\
  0 <= amount net /\ 0 <= amount cpu /\
  0 < amount net + amount cpu <= max_amount /\
  (transfer = true -> from <> receiver) /\
  has_auth ctx from = true.
Proof. intros. eapply delegatebw_Ok_checked; eassumption. Qed.

Lemma undelegatebw_Ok_checked ctx from receiver net cpu st st' :
  in_int64 (amount net) -> in_int64 (amount cpu) ->
  undelegatebw update_votes min_activated_stake ctx from receiver net cpu st = Ok st' ->
  symbol net = CORE_SYMBOL /\ symbol cpu = CORE_SYMBOL /\
  0 <= amount net /\ 0 <= amount cpu /\
  0 < amount net + amount cpu <= max_amount /\
  min_activated_stake <= global_state.total_activated_stake (_gstate st) /\
  has_auth ctx (if (0 <? amount net) && (0 <? amount cpu) then receiver else from)
  = true.
Proof.
  intros Tn Tc H. unfold undelegatebw in H.
  apply bind_Ok in H as (cpu_ok & Hcpu & H).
  apply bind_Ok in H as (u1 & Hcpu'%snax_assert_Ok & H). subst cpu_ok.
  apply bind_Ok in H as (net_ok & Hnet & H).
  apply bind_Ok in H as (u2 & Hnet'%snax_assert_Ok & H). subst net_ok.
  apply bind_Ok in H as (sum & Hsum & H).
  apply bind_Ok in H as (sum_ok & Hpos & H).
  apply bind_Ok in H as (u3 & Hpos'%snax_assert_Ok & H). subst sum_ok.
  apply bind_Ok in H as (itr & _ & H).
  apply bind_Ok in H as (available & _ & H).
  apply bind_Ok in H as (scanned & _ & H).
  apply bind_Ok in H as (requested & _ & H).
  apply bind_Ok in H as (available_ok & _ & H).
  apply bind_Ok in H as (u4 & _ & H).
  apply bind_Ok in H as (u5 & Hact%snax_assert_Ok & H).
  apply Z.leb_le in Hact. simpl in Hact.
  apply asset_cmp_Ok in Hcpu as (Sc & Hcpu). symmetry in Hcpu. apply Z.leb_le in Hcpu.
  apply asset_cmp_Ok in Hnet as (Sn & Hnet). symmetry in Hnet. apply Z.leb_le in Hnet.
  apply asset_cmp_Ok in Hpos as (_ & Hpos). symmetry in Hpos. apply Z.ltb_lt in Hpos.
  apply asset_add_Ok in Hsum as (_ & Hr & ->). simpl in *.
  destruct (int64_spec (amount cpu + amount net)) as (k & Hk & _).
  assert (0 < amount net + amount cpu <= max_amount) as Hs by (consts; lia).
  apply changebw_Ok_signer in H as (Hauth & _).
  unfold asset_neg in Hauth. simpl in Hauth.
  rewrite !int64_id in Hauth by (consts; lia).
  assert (forall x, (- x <? 0) = (0 <? x)) as Eneg.
  { intros x. destruct (Z.ltb_spec (- x) 0), (Z.ltb_spec 0 x); lia || reflexivity. }
  rewrite !Eneg in Hauth.
  repeat split; try (symmetry; assumption); try assumption; lia.
Qed.

(** X5. [undelegatebw] aborts unless both quantities are core amounts that
    are not negative, with a positive sum, and unless the chain is activated
    ([total_activated_stake >= min_activated_stake]).  When both quantities
    are positive it needs the signature of [receiver]; when one of them is
    zero, that of [from]. *)
Theorem undelegatebw_requirements ctx from receiver net cpu st st' :
  in_int64 (amount net) -> in_int64 (amount cpu) ->
  undelegatebw update_votes min_activated_stake ctx from receiver net cpu st = Ok st' ->
  symbol net = CORE_SYMBOL /\ symbol cpu = CORE_SYMBOL /\
  0 <= amount net /\ 0 <= amount cpu /\
  0 < amount net + amount cpu <= max_amount /\
  min_activated_stake <= global_state.total_activated_stake (_gstate st) /\
  has_auth ctx (if (0 <? amount net) && (0 <? amount cpu) then receiver else from)
  = true.
Proof. intros. eapply undelegatebw_Ok_checked; eassumption. Qed.

(** ** What a stake transaction writes *)

Lemma checked_sum_exact (old delta : Z) :
  0 <= old <= int64_max -> in_int64 delta ->
  0 <= int64 (old + delta) ->
  int64 (old + delta) = old + delta.
Proof.
  intros Ho Td Hpos.
  destruct (int64_spec (old + delta)) as (k & Hk & Hr).
  consts. lia.
Qed.

(** X6. A successful [changebw] adds the deltas to the delegation row it
    reads, exactly; it never leaves a weight below zero, so no more can be
    taken back than was delegated; a row that reaches zero is erased and a
    missing row is created from the deltas. *)
Theorem changebw_delegation_row ctx from receiver net cpu transfer st st' :
  in_int64 (amount net) -> in_int64 (amount cpu) ->
  (forall k old, delband st !! k = Some old -> delband_row_bounded old) ->
  changebw update_votes ctx from receiver net cpu transfer st = Ok st' ->
  let staker := if transfer then receiver else from in
  let swap := (amount net <? 0) && (amount cpu <? 0) in
  let key := (if swap then receiver else staker, if swap then staker else receiver) in
  match delband st !! key with
  | Some old =>
      let n := amount (delegated_bandwidth.net_weight old) + amount net in
      let c := amount (delegated_bandwidth.cpu_weight old) + amount cpu in
      0 <= n /\ 0 <= c /\
      delband st' !! key =
        if (n =? 0) && (c =? 0) then None
        else Some (delegated_bandwidth.mk (delegated_bandwidth.from old)
                     (delegated_bandwidth.to old)
                     (Asset n CORE_SYMBOL) (Asset c CORE_SYMBOL))
  | None =>
      0 <= amount net /\ 0 <= amount cpu /\
      delband st' !! key = Some (delegated_bandwidth.mk staker receiver net cpu)
  end.
Proof.
  intros Tn Tc Hinv H staker swap key.
  apply changebw_Ok in H as (swap' & st1 & st2 & st3 & Hchk & H1 & H2 & H3 & H4).
  fold staker in H1, H2, H3, H4.
  pose proof Hchk as Hchk'.
  apply changebw_checks_Ok in Hchk' as (Hsw & _ & Hg).
  apply changebw_swap_value in Hsw. fold swap in Hsw. subst swap'.
  apply (changebw_guards_Ok _ _ _ _ _ _ Tn Tc) in Hg as (_ & Hnz & _).
  apply changebw_voting_frame in H4 as (-> & _).
  apply changebw_refund_frame in H3 as (-> & _).
  apply changebw_totals_Ok in H2 as (pk & tot & _ & _ & _ & _ & _ & ->).
  apply changebw_delband_Ok in H1 as (pk1 & dbo & Hrow & Sn & Sc & Hn & Hc & ->).
  simpl. fold key in Hrow.
  destruct (delband st !! key) as [old|] eqn:Eold.
  - destruct Hrow as (-> & n & c & Hadd1 & Hadd2 & ->). simpl in *.
    apply asset_add_Ok in Hadd1 as (_ & _ & ->).
    apply asset_add_Ok in Hadd2 as (_ & _ & ->). simpl in *.
    destruct (Hinv _ _ Eold) as (Bn & Bc).
    pose proof (checked_sum_exact _ _ Bn Tn Hn) as En.
    pose proof (checked_sum_exact _ _ Bc Tc Hc) as Ec.
    rewrite En, Ec in *.
    split; [exact Hn |]. split; [exact Hc |].
    destruct ((_ =? 0) && (_ =? 0)).
    + apply lookup_delete_eq.
    + rewrite lookup_insert_eq. rewrite Sn, Sc. reflexivity.
  - destruct Hrow as (-> & Hfree & ->). simpl in *.
    split; [exact Hn |]. split; [exact Hc |].
    assert (swap = false) as Esw.
    { unfold swap. apply andb_false_iff. left. apply Z.ltb_ge. exact Hn. }
    unfold key in *. rewrite Esw in *.
    destruct (Z.eqb_spec (amount net) 0) as [E1|E1];
      destruct (Z.eqb_spec (amount cpu) 0) as [E2|E2]; simpl;
      try apply lookup_insert_eq.
    exfalso. destruct Hnz as [Hnz|Hnz]; [exact (Hnz E1) | exact (Hnz E2)].
Qed.

(** X7. A successful [changebw] adds the deltas to the totals row it reads,
    exactly and without a weight below zero, keeps [ram_bytes], and sets the
    resource limits of [receiver] to the totals it has written.  The row it
    reads is that of [receiver], or that of the staker when both deltas are
    negative. *)
Theorem changebw_totals_and_limits ctx from receiver net cpu transfer st st' :
  in_int64 (amount net) -> in_int64 (amount cpu) ->
  (forall k old,
     userres st !! k = Some old ->
     0 <= amount (user_resources.net_weight old) <= int64_max /\
     0 <= amount (user_resources.cpu_weight old) <= int64_max) ->
  changebw update_votes ctx from receiver net cpu transfer st = Ok st' ->
  let staker := if transfer then receiver else from in
  let swap := (amount net <? 0) && (amount cpu <? 0) in
  let scope := if swap then staker else receiver in
  match userres st !! (scope, scope) with
  | Some old =>
      let n := amount (user_resources.net_weight old) + amount net in
      let c := amount (user_resources.cpu_weight old) + amount cpu in
      let ram := user_resources.ram_bytes old in
      0 <= n /\ 0 <= c /\
      resource_limits st' !! receiver = Some (ram, n, c) /\
      userres st' !! (scope, scope) =
        if (n =? 0) && ((c =? 0) && (ram =? 0)) then None
        else Some (user_resources.mk (user_resources.owner old)
                     (Asset n CORE_SYMBOL) (Asset c CORE_SYMBOL) ram)
  | None =>
      0 <= amount net /\ 0 <= amount cpu /\
      resource_limits st' !! receiver = Some (0, amount net, amount cpu) /\
      userres st' !! (receiver, receiver) = Some (user_resources.mk receiver net cpu 0)
  end.
Proof.
  intros Tn Tc Hinv H staker swap scope.
  apply changebw_Ok in H as (swap' & st1 & st2 & st3 & Hchk & H1 & H2 & H3 & H4).
  fold staker in H1, H2, H3, H4.
  pose proof Hchk as Hchk'.
  apply changebw_checks_Ok in Hchk' as (Hsw & _ & Hg).
  apply changebw_swap_value in Hsw. fold swap in Hsw. subst swap'.
  apply (changebw_guards_Ok _ _ _ _ _ _ Tn Tc) in Hg as (_ & Hnz & _).
  apply changebw_voting_frame in H4 as (_ & -> & _ & _ & _ & _ & -> & _).
  assert (userres st3 = userres st2 /\ resource_limits st3 = resource_limits st2)
    as (-> & ->).
  { unfold changebw_refund, changebw_refund_row in H3.
    repeat ok_step; simplify_eq;
      repeat match goal with |- context [if ?b then _ else _] => destruct b end;
      simpl; split; reflexivity. }
  apply changebw_totals_Ok in H2 as (pk & tot & Hrow & Sn & Sc & Hn & Hc & ->).
  apply changebw_delband_Ok in H1 as (pk1 & dbo & _ & _ & _ & _ & _ & ->).
  simpl in *. fold scope in Hrow.
  destruct (userres st !! (scope, scope)) as [old|] eqn:Eold.
  - destruct Hrow as (-> & n & c & Hadd1 & Hadd2 & ->). simpl in *.
    apply asset_add_Ok in Hadd1 as (_ & _ & ->).
    apply asset_add_Ok in Hadd2 as (_ & _ & ->). simpl in *.
    destruct (Hinv _ _ Eold) as (Bn & Bc).
    pose proof (checked_sum_exact _ _ Bn Tn Hn) as En.
    pose proof (checked_sum_exact _ _ Bc Tc Hc) as Ec.
    rewrite En, Ec in *.
    split; [exact Hn |]. split; [exact Hc |].
    split; [apply lookup_insert_eq |].
    destruct ((_ =? 0) && ((_ =? 0) && (_ =? 0))).
    + apply lookup_delete_eq.
    + rewrite lookup_insert_eq. rewrite Sn, Sc. reflexivity.
  - destruct Hrow as (-> & Hfree & ->). simpl in *.
    split; [exact Hn |]. split; [exact Hc |].
    split; [apply lookup_insert_eq |].
    assert (swap = false) as Esw.
    { unfold swap. apply andb_false_iff. left. apply Z.ltb_ge. exact Hn. }
    unfold scope in *. rewrite Esw in *.
    destruct (Z.eqb_spec (amount net) 0) as [E1|E1];
      destruct (Z.eqb_spec (amount cpu) 0) as [E2|E2]; simpl;
      try apply lookup_insert_eq.
    exfalso. destruct Hnz as [Hnz|Hnz]; [exact (Hnz E1) | exact (Hnz E2)].
Qed.

(** X8. [refund] pays a request once: after it has succeeded nothing is
    pending for [owner] and a second [refund] for [owner] aborts, whoever
    signs and whenever.  It touches no other refund request, no delegation,
    totals, voter or resource limit, and does not cancel the scheduled
    payout. *)
Theorem refund_pays_once ctx owner st st' :
  refund ctx owner st = Ok st' ->
  refund_pending st' owner = 0 /\
  (forall ctx', aborts (refund ctx' owner st')) /\
  (forall k, k <> (owner, owner) -> refunds st' !! k = refunds st !! k) /\
  delband st' = delband st /\ userres st' = userres st /\
  escrow st' = escrow st /\ _voters st' = _voters st /\
  _gstate st' = _gstate st /\
  resource_limits st' = resource_limits st /\
  deferred st' = deferred st.
Proof.
  intros H. unfold refund in H. ok_inv. subst st'. simpl.
  assert (delete (owner, owner) (refunds st) !! (owner, owner) = None) as Hnone
    by apply lookup_delete_eq.
  split.
  { unfold refund_pending. simpl. rewrite Hnone. reflexivity. }
  split.
  { intros ctx'. unfold refund. simpl. rewrite Hnone.
    destruct (require_auth ctx' owner) as [[]|msg] eqn:Ea; simpl.
    - eexists. reflexivity.
    - eexists. reflexivity. }
  split.
  { intros k Hk. apply lookup_delete_ne. congruence. }
  repeat split; reflexivity.
Qed.

Lemma changebw_deferred_others ctx from receiver net cpu transfer st st' :
  changebw update_votes ctx from receiver net cpu transfer st = Ok st' ->
  forall a, a <> (if transfer then receiver else from) ->
    deferred st' !! a = deferred st !! a.
Proof.
  intros H a Ha.
  apply changebw_Ok in H as (swap & st1 & st2 & st3 & _ & H1 & H2 & H3 & H4).
  apply changebw_voting_frame in H4 as (_ & _ & _ & _ & -> & _).
  assert (deferred st2 = deferred st) as <-.
  { apply changebw_totals_Ok in H2 as (pk & tot & _ & _ & _ & _ & _ & ->).
    apply changebw_delband_Ok in H1 as (pk1 & dbo & _ & _ & _ & _ & _ & ->).
    reflexivity. }
  apply changebw_refund_Ok in H3.
  destruct (bool_decide (from = "snax.stake")); [subst st3; reflexivity |].
  destruct H3 as (st0 & nb & cb & need & Hrow & _ & ->).
  assert (deferred st0 = deferred st2) as ->.
  { unfold changebw_refund_row in Hrow.
    repeat ok_step; simplify_eq; reflexivity. }
  destruct need.
  - rewrite lookup_insert_ne by congruence. apply lookup_delete_ne. congruence.
  - apply lookup_delete_ne. congruence.
Qed.

(** X9. Staking to another account, or with [transfer], touches no refund
    request, yet it cancels the payout scheduled for the staker's pending
    refund and schedules none: from then on the request is paid only by a
    [refund] action.  With [transfer] the staker is [receiver], so it is the
    receiver's payout that is cancelled.  Payouts scheduled for other
    accounts stay. *)
Theorem changebw_cancels_scheduled_payout ctx from receiver net cpu transfer st st' :
  ledger_ok st ->
  in_int64 (amount net) -> in_int64 (amount cpu) ->
  from <> "snax.stake" ->
  transfer = true \/ from <> receiver ->
  0 <= amount net + amount cpu ->
  changebw update_votes ctx from receiver net cpu transfer st = Ok st' ->
  let owner := if transfer then receiver else from in
  refunds st' = refunds st /\
  deferred st' !! owner = None /\
  (forall a, a <> owner -> deferred st' !! a = deferred st !! a).
Proof.
  intros Hok Tn Tc Hfrom Hother Hsum H owner.
  pose proof (changebw_deferred_others _ _ _ _ _ _ _ _ H) as Hdef.
  pose proof (changebw_refunds_effect _ _ _ _ _ _ _ _ Hok Tn Tc H) as Heff.
  cbv zeta in Heff, Hdef. destruct Heff as (_ & _ & Heff).
  subst owner.
  rewrite bool_decide_eq_false_2 in Heff by exact Hfrom.
  assert ((amount net + amount cpu <? 0) = false) as Elt
    by (apply Z.ltb_ge; exact Hsum).
  rewrite Elt in Heff.
  assert (from <> receiver \/ transfer = true) as Hother' by tauto.
  destruct transfer; simpl in Heff, Hdef |- *.
  2: { destruct Hother' as [Hne|Ht]; [| discriminate Ht].
       rewrite (bool_decide_eq_false_2 (from = receiver) Hne) in Heff.
       simpl in Heff.
       destruct (refunds st !! _); destruct Heff as (Hr & Hd);
         (split; [exact Hr | split; [exact Hd | exact Hdef]]). }
  destruct (refunds st !! _); destruct Heff as (Hr & Hd);
    (split; [exact Hr | split; [exact Hd | exact Hdef]]).
Qed.


Lemma escrow_rows_key (t : gmap (account_name * N) escrow_bandwidth.t) scope k r :
  (k, r) ∈ escrow_rows t scope -> (1 <= k)%N.
Proof.
  unfold escrow_rows. rewrite merge_sort_Permutation.
  intros ([[s k'] r'] & Hin & Hf)%list_elem_of_omap. simpl in Hf.
  destruct (bool_decide (s = scope)); simpl in Hf; [| discriminate Hf].
  destruct (N.leb_spec 1 k') as [Hle|]; [| discriminate Hf].
  injection Hf as <- <-. exact Hle.
Qed.

Lemma escrow_scan_frame ctx scope from net cpu rows :
  forall available t available' t',
    escrow_scan ctx scope from net cpu rows available t = Ok (available', t') ->
    forall key,
      t' !! key = t !! key \/
      exists k r remaining,
        key = (scope, k) /\ (k, r) ∈ rows /\ escrow_bandwidth.owner r = from /\
        t' !! key =
          Some (escrow_bandwidth.mk from (escrow_bandwidth.initial_amount r) remaining
                  (escrow_bandwidth.created r) (escrow_bandwidth.period_count r)).
Proof.
  induction rows as [|[k r] rows IH]; intros available t available' t' H key; simpl in H.
  - injection H as _ <-. left. reflexivity.
  - destruct (bool_decide (escrow_bandwidth.owner r = from)) eqn:Eo.
    + apply bool_decide_eq_true in Eo.
      apply bind_Ok in H as ([[available1 from_bucket] enough] & _ & H).
      apply bind_Ok in H as (remaining & _ & H).
      assert (key = (scope, k) ->
              exists k0 r0 remaining0,
                key = (scope, k0) /\ (k0, r0) ∈ (k, r) :: rows /\
                escrow_bandwidth.owner r0 = from /\
                <[(scope, k) :=
                    escrow_bandwidth.mk (escrow_bandwidth.owner r)
                      (escrow_bandwidth.initial_amount r) remaining
                      (escrow_bandwidth.created r)
                      (escrow_bandwidth.period_count r)]> t !! key =
                  Some (escrow_bandwidth.mk from (escrow_bandwidth.initial_amount r0)
                          remaining0 (escrow_bandwidth.created r0)
                          (escrow_bandwidth.period_count r0))) as Hhere.
      { intros ->. exists k, r, remaining.
        split; [reflexivity |]. split; [left |]. split; [exact Eo |].
        rewrite lookup_insert_eq, Eo. reflexivity. }
      destruct enough.
      * injection H as _ <-.
        destruct (decide (key = (scope, k))) as [Ek|Ek].
        -- right. exact (Hhere Ek).
        -- left. apply lookup_insert_ne. congruence.
      * destruct (IH _ _ _ _ H key) as [Hsame | (k0 & r0 & rem0 & -> & Hin & Ho & Hl)].
        -- destruct (decide (key = (scope, k))) as [Ek|Ek].
           ++ right. rewrite Hsame. exact (Hhere Ek).
           ++ left. rewrite Hsame. apply lookup_insert_ne. congruence.
        -- right. exists k0, r0, rem0.
           split; [reflexivity |]. split; [right; exact Hin |].
           split; [exact Ho | exact Hl].
    + destruct (IH _ _ _ _ H key) as [Hsame | (k0 & r0 & rem0 & -> & Hin & Ho & Hl)].
      * left. exact Hsame.
      * right. exists k0, r0, rem0.
        split; [reflexivity |]. split; [right; exact Hin |].
        split; [exact Ho | exact Hl].
Qed.

Lemma changebw_escrow ctx from receiver net cpu transfer st st' :
  changebw update_votes ctx from receiver net cpu transfer st = Ok st' ->
  escrow st' = escrow st.
Proof.
  intros H.
  apply changebw_Ok in H as (swap & st1 & st2 & st3 & _ & H1 & H2 & H3 & H4).
  apply changebw_voting_frame in H4 as (_ & _ & -> & _).
  apply changebw_refund_frame in H3 as (_ & _ & -> & _).
  apply changebw_totals_Ok in H2 as (pk & tot & _ & _ & _ & _ & _ & ->).
  apply changebw_delband_Ok in H1 as (pk1 & dbo & _ & _ & _ & _ & _ & ->).
  reflexivity.
Qed.

(** X11. [undelegatebw] neither creates nor removes an escrow bucket.  The
    only buckets it can change are those of [from] in the scope of
    [receiver] with a key of at least 1, and of these it changes only the
    remaining amount. *)
Theorem undelegatebw_escrow_frame ctx from receiver net cpu st st' :
  undelegatebw update_votes min_activated_stake ctx from receiver net cpu st = Ok st' ->
  forall scope k,
    escrow st' !! (scope, k) = escrow st !! (scope, k) \/
    exists r remaining,
      escrow st !! (scope, k) = Some r /\
      scope = receiver /\ (1 <= k)%N /\ escrow_bandwidth.owner r = from /\
      escrow st' !! (scope, k) =
        Some (escrow_bandwidth.mk from (escrow_bandwidth.initial_amount r) remaining
                (escrow_bandwidth.created r) (escrow_bandwidth.period_count r)).
Proof.
  intros H scope k. unfold undelegatebw in H.
  do 7 (apply bind_Ok in H as (? & _ & H)).
  apply bind_Ok in H as (dbo & _ & H).
  apply bind_Ok in H as (avail & _ & H).
  apply bind_Ok in H as ([avail' t'] & Hscan & H).
  do 4 (apply bind_Ok in H as (? & _ & H)).
  apply changebw_escrow in H. rewrite H. simpl.
  destruct (escrow_scan_frame _ _ _ _ _ _ _ _ _ _ Hscan (scope, k))
    as [Hsame | (k0 & r0 & rem0 & Ek & Hin & Ho & Hl)].
  - left. exact Hsame.
  - right. injection Ek as -> ->. exists r0, rem0.
    split; [exact (escrow_rows_lookup _ _ _ _ Hin) |].
    split; [reflexivity |].
    split; [exact (escrow_rows_key _ _ _ _ Hin) |].
    split; [exact Ho | exact Hl].
Qed.

Lemma escrow_scan_first_bucket ctx scope from net cpu rows1 :
  forall k r rows2 available t res,
    Forall (fun kr : N * escrow_bandwidth.t => escrow_bandwidth.owner kr.2 <> from) rows1 ->
    escrow_bandwidth.owner r = from ->
    escrow_scan ctx scope from net cpu (rows1 ++ (k, r) :: rows2) available t = Ok res ->
    escrow_bandwidth.period_count r <> 0.
Proof.
  induction rows1 as [|[k0 r0] rows1 IH]; intros k r rows2 available t res Hall Ho H;
    simpl in H.
  - rewrite bool_decide_eq_true_2 in H by exact Ho.
    apply bind_Ok in H as (step & Hstep & _).
    unfold escrow_step in Hstep.
    apply bind_Ok in Hstep as (unstaked & _ & Hstep).
    apply bind_Ok in Hstep as (per_period & Hdiv & _).
    unfold div64 in Hdiv.
    destruct (Z.eqb_spec (escrow_bandwidth.period_count r) 0) as [|Hne];
      [discriminate Hdiv | exact Hne].
  - apply Forall_cons in Hall as (Hne & Hall'). simpl in Hne.
    rewrite bool_decide_eq_false_2 in H by exact Hne.
    exact (IH _ _ _ _ _ _ Hall' Ho H).
Qed.

(** X12. A bucket with a period count of zero locks the stake: when the first
    bucket of [from] in the scope of [receiver], in key order from key 1,
    has [period_count = 0], every [undelegatebw] of [from] and [receiver]
    aborts, whatever the amounts and the time. *)
Theorem undelegatebw_zero_period_bucket ctx from receiver net cpu st rows1 k r rows2 :
  escrow_rows (escrow st) receiver = rows1 ++ (k, r) :: rows2 ->
  Forall (fun kr : N * escrow_bandwidth.t => escrow_bandwidth.owner kr.2 <> from) rows1 ->
  escrow_bandwidth.owner r = from ->
  escrow_bandwidth.period_count r = 0 ->
  aborts (undelegatebw update_votes min_activated_stake ctx from receiver net cpu st).
Proof.
  intros Hrows Hall Ho Hz.
  apply aborts_not_succeeds. intros (st' & H).
  unfold undelegatebw in H.
  do 7 (apply bind_Ok in H as (? & _ & H)).
  apply bind_Ok in H as (dbo & _ & H).
  apply bind_Ok in H as (avail & _ & H).
  apply bind_Ok in H as (scanned & Hscan & _).
  rewrite Hrows in Hscan.
  exact (escrow_scan_first_bucket _ _ _ _ _ _ _ _ _ _ _ _ Hall Ho Hscan Hz).
Qed.

(** X13. [escrowbw] succeeds exactly when [delegatebw] with the same
    arguments succeeds and the key of the new bucket is free in the scope
    of the staker.  It then adds to the outcome of [delegatebw] one bucket,
    owned by [receiver], that holds [net + cpu] both as initial and as
    remaining amount, the current time and the period count as given, which
    is not checked. *)
Theorem escrowbw_bucket ctx (from receiver : account_name) net cpu (transfer : bool)
    period_count st st' :
  in_int64 (amount net) -> in_int64 (amount cpu) ->
  let scope := if transfer then receiver else from in
  let total := Asset (amount net + amount cpu) CORE_SYMBOL in
  let record := escrow_bandwidth.mk receiver total total (now ctx) period_count in
  escrowbw update_votes escrow_primary_key ctx from receiver net cpu transfer
    period_count st = Ok st' <->
  exists st1,
    delegatebw update_votes ctx from receiver net cpu transfer st = Ok st1 /\
    escrow st !! (scope, escrow_primary_key record) = None /\
    st' = set_escrow (<[(scope, escrow_primary_key record) := record]> (escrow st)) st1.
Proof.
  intros Tn Tc scope total record.
  assert (forall st1,
            delegatebw update_votes ctx from receiver net cpu transfer st = Ok st1 ->
            asset_add net cpu = Ok total /\ escrow st1 = escrow st) as Hdel.
  { intros st1 Hd.
    destruct (delegatebw_Ok_checked _ _ _ _ _ _ _ _ Tn Tc Hd)
      as (Sn & Sc & Hn & Hc & Hsum & _).
    apply delegatebw_Ok in Hd as (_ & _ & _ & _ & Hd).
    apply changebw_escrow in Hd. split; [| exact Hd].
    apply asset_add_Ok. rewrite Sn, Sc.
    assert (int64 (amount net + amount cpu) = amount net + amount cpu) as ->
      by (apply int64_id; revert Hsum; consts; lia).
    split; [reflexivity |]. split; [revert Hsum; consts; lia | reflexivity]. }
  unfold escrowbw. fold scope. split.
  - intros H. apply bind_Ok in H as (st1 & Hd & H).
    destruct (Hdel _ Hd) as (Hadd & He).
    rewrite Hadd in H. simpl in H. fold total record in H.
    apply bind_Ok in H as (t & Hemp & H).
    apply emplace_Ok in Hemp as (Hfree & ->). injection H as <-.
    exists st1. rewrite He in *. split; [exact Hd |]. split; [exact Hfree | reflexivity].
  - intros (st1 & Hd & Hfree & ->).
    destruct (Hdel _ Hd) as (Hadd & He).
    rewrite Hd. simpl. rewrite Hadd. simpl. fold total record.
    unfold emplace. rewrite He, Hfree. reflexivity.
Qed.

(** ** The RAM quota *)

(** The row of [receiver] after a purchase of [bytes_out] bytes. *)
Lemma buyram_Ok ctx payer receiver quant st st' :
  buyram convert ctx payer receiver quant st = Ok st' ->
  has_auth ctx payer = true /\
  0 < amount quant /\
  global_state.resources_market_open (_gstate st) || is_privileged ctx payer = true /\
  exists market es row,
    _rammarket st = Some market /\
    convert market (buyram_quant_after_fee quant) RAM_SYMBOL = Ok es /\
    0 < amount es.2 /\
    row = match userres st !! (receiver, receiver) with
          | Some res =>
              user_resources.mk (user_resources.owner res)
                (user_resources.net_weight res) (user_resources.cpu_weight res)
                (int64 (user_resources.ram_bytes res + amount es.2))
          | None => user_resources.mk receiver asset0 asset0 (amount es.2)
          end /\
    _rammarket st' = Some es.1 /\
    userres st' = <[(receiver, receiver) := row]> (userres st) /\
    resource_limits st' =
      <[user_resources.owner row :=
          (user_resources.ram_bytes row, amount (user_resources.net_weight row),
           amount (user_resources.cpu_weight row))]> (resource_limits st) /\
    _gstate st' =
      global_state.mk (global_state.resources_market_open (_gstate st))
        (uint64 (global_state.total_ram_bytes_reserved (_gstate st) + uint64 (amount es.2)))
        (int64 (global_state.total_ram_stake (_gstate st)
                + amount (buyram_quant_after_fee quant)))
        (global_state.total_activated_stake (_gstate st)) /\
    inline_actions st' =
      inline_actions st ++
        Transfer payer payer "snax.ram" (buyram_quant_after_fee quant) "buy ram"
        :: (if 0 <? amount (buyram_fee quant)
            then [Transfer payer payer "snax.ramfee" (buyram_fee quant) "ram fee"]
            else []) /\
    delband st' = delband st /\ refunds st' = refunds st /\
    escrow st' = escrow st /\ _voters st' = _voters st /\
    _producers st' = _producers st /\ deferred st' = deferred st.
Proof.
  intros H. unfold buyram in H.
  apply bind_Ok in H as (u1 & Hauth & H). apply snax_assert_Ok in Hauth.
  apply bind_Ok in H as (u2 & Hpos & H). apply snax_assert_Ok, Z.ltb_lt in Hpos.
  apply bind_Ok in H as (u3 & Hopen & H). apply snax_assert_Ok in Hopen.
  split; [exact Hauth |]. split; [exact Hpos |]. split; [exact Hopen |].
  destruct (0 <? amount (buyram_fee quant)); simpl in H;
    (destruct (_rammarket st) as [market|] eqn:Emarket; simpl in H;
       [| discriminate H]);
    apply bind_Ok in H as (es & Hconv & H);
    apply bind_Ok in H as (u4 & Hbytes & H);
    apply snax_assert_Ok, Z.ltb_lt in Hbytes;
    apply bind_Ok in H as ([row t] & Hres & H);
    injection H as <-; simpl in Hres |- *;
    exists market, es, row;
    (assert (row = match userres st !! (receiver, receiver) with
                   | Some res =>
                       user_resources.mk (user_resources.owner res)
                         (user_resources.net_weight res) (user_resources.cpu_weight res)
                         (int64 (user_resources.ram_bytes res + amount es.2))
                   | None => user_resources.mk receiver asset0 asset0 (amount es.2)
                   end /\
             t = <[(receiver, receiver) := row]> (userres st)) as (Hrow & ->);
     [ destruct (userres st !! (receiver, receiver)) as [res|] eqn:Eres; simpl in Hres;
       [ injection Hres as <- <-; split; reflexivity
       | unfold emplace in Hres; simpl in Hres; rewrite Eres in Hres; simpl in Hres;
         injection Hres as <- <-; split; reflexivity ]
     | ]);
    rewrite <- ?app_assoc; repeat split; assumption || reflexivity.
Qed.


(** X15. [buyrambytes] asks the market for the price of [bytes] on a copy of
    the market row, which stays as it was, and buys RAM for that price: the
    payer is billed exactly the quote, split into the quote less the 0.5%
    fee for [snax.ram] and the fee for [snax.ramfee].  What the receiver's
    quota gains is what the untouched market gives for the quote less the
    fee, not [bytes] itself. *)
Theorem buyrambytes_bills_the_quote ctx payer receiver bytes st st' :
  convert_within_range convert ->
  buyrambytes convert ctx payer receiver bytes st = Ok st' ->
  exists market quote es row,
    _rammarket st = Some market /\
    convert market (Asset bytes RAM_SYMBOL) CORE_SYMBOL = Ok quote /\
    let q := amount quote.2 in
    let fee := (q + 199) / 200 in
    let paid := Asset (q - fee) (symbol quote.2) in
    0 < q /\ 0 < fee /\
    inline_actions st' =
      inline_actions st ++
        [Transfer payer payer "snax.ram" paid "buy ram";
         Transfer payer payer "snax.ramfee" (Asset fee (symbol quote.2)) "ram fee"] /\
    convert market paid RAM_SYMBOL = Ok es /\
    _rammarket st' = Some es.1 /\
    userres st' !! (receiver, receiver) = Some row /\
    user_resources.ram_bytes row =
      match userres st !! (receiver, receiver) with
      | Some res => int64 (user_resources.ram_bytes res + amount es.2)
      | None => amount es.2
      end.
Proof.
  intros Hrange H. unfold buyrambytes in H.
  destruct (_rammarket st) as [market|] eqn:Emarket; simpl in H; [| discriminate H].
  apply bind_Ok in H as (b & Hb & H).
  unfold mk_asset in Hb. apply bind_Ok in Hb as (u & _ & Hb). injection Hb as <-.
  apply bind_Ok in H as (quote & Hquote & H).
  apply buyram_Ok in H
    as (_ & Hpos & _ & market' & es & row & Em & Hconv & _ & Hrow & Hm' & Hu & _
        & _ & Hact & _).
  rewrite Emarket in Em. injection Em as <-.
  pose proof (Hrange _ _ _ _ Hquote) as Hin.
  unfold is_amount_within_range in Hin.
  apply andb_true_iff in Hin as (Hlo%Z.leb_le & Hhi%Z.leb_le).
  assert (amount quote.2 + 199 <= int64_max) as Hmax by (consts; lia).
  pose proof (ram_fee_exact (amount quote.2) ltac:(lia) Hmax) as Hfee.
  pose proof (ram_fee_ceiling (amount quote.2) ltac:(lia) Hmax) as Hceil.
  rewrite Hfee in Hceil.
  assert (buyram_fee quote.2
          = Asset ((amount quote.2 + 199) / 200) (symbol quote.2)) as Efee.
  { unfold buyram_fee. rewrite Hfee. reflexivity. }
  assert (buyram_quant_after_fee quote.2
          = Asset (amount quote.2 - (amount quote.2 + 199) / 200) (symbol quote.2))
    as Eqaf.
  { unfold buyram_quant_after_fee. rewrite Efee. simpl.
    rewrite int64_id; [reflexivity |]. consts. lia. }
  rewrite Efee, Eqaf in *. simpl in Hact.
  assert ((0 <? (amount quote.2 + 199) / 200) = true) as Hfpos
    by (apply Z.ltb_lt; lia).
  rewrite Hfpos in Hact.
  exists market, quote, es, row.
  split; [reflexivity |]. split; [exact Hquote |].
  split; [exact Hpos |]. split; [lia |].
  split; [exact Hact |]. split; [exact Hconv |]. split; [exact Hm' |].
  split; [rewrite Hu; apply lookup_insert_eq |].
  rewrite Hrow. destruct (userres st !! (receiver, receiver)); reflexivity.
Qed.

Lemma sellram_Ok ctx account bytes st st' :
  sellram convert ctx account bytes st = Ok st' ->
  has_auth ctx account = true /\ 0 < bytes /\
  exists res market es,
    userres st !! (account, account) = Some res /\
    bytes <= user_resources.ram_bytes res /\
    _rammarket st = Some market /\
    convert market (Asset bytes RAM_SYMBOL) CORE_SYMBOL = Ok es /\
    1 < amount es.2 /\
    0 <= int64 (global_state.total_ram_stake (_gstate st) - amount es.2) /\
    let row := user_resources.mk (user_resources.owner res)
                 (user_resources.net_weight res) (user_resources.cpu_weight res)
                 (int64 (user_resources.ram_bytes res - bytes)) in
    _rammarket st' = Some es.1 /\
    userres st' = <[(account, account) := row]> (userres st) /\
    resource_limits st' =
      <[user_resources.owner row :=
          (user_resources.ram_bytes row, amount (user_resources.net_weight row),
           amount (user_resources.cpu_weight row))]> (resource_limits st) /\
    _gstate st' =
      global_state.mk (global_state.resources_market_open (_gstate st))
        (uint64 (global_state.total_ram_bytes_reserved (_gstate st) - uint64 bytes))
        (int64 (global_state.total_ram_stake (_gstate st) - amount es.2))
        (global_state.total_activated_stake (_gstate st)) /\
    inline_actions st' =
      inline_actions st ++
        Transfer "snax.ram" "snax.ram" account es.2 "sell ram"
        :: (if 0 <? ram_fee (amount es.2)
            then [Transfer account account "snax.ramfee"
                    (Asset (ram_fee (amount es.2)) CORE_SYMBOL) "sell ram fee"]
            else []) /\
    delband st' = delband st /\ refunds st' = refunds st /\
    escrow st' = escrow st /\ _voters st' = _voters st /\
    _producers st' = _producers st /\ deferred st' = deferred st.
Proof.
  intros H. unfold sellram in H.
  apply bind_Ok in H as (u1 & Hauth & H). apply snax_assert_Ok in Hauth.
  apply bind_Ok in H as (u2 & Hpos & H). apply snax_assert_Ok, Z.ltb_lt in Hpos.
  destruct (userres st !! (account, account)) as [res|] eqn:Eres;
    simpl in H; [| discriminate H].
  apply bind_Ok in H as (u3 & Hquota & H). apply snax_assert_Ok, Z.leb_le in Hquota.
  destruct (_rammarket st) as [market|] eqn:Emarket; simpl in H; [| discriminate H].
  apply bind_Ok in H as (b & Hb & H).
  unfold mk_asset in Hb. apply bind_Ok in Hb as (u4 & _ & Hb). injection Hb as <-.
  apply bind_Ok in H as (es & Hconv & H).
  apply bind_Ok in H as (u5 & Hlow & H). apply snax_assert_Ok, Z.ltb_lt in Hlow.
  apply bind_Ok in H as (u6 & Hstake & H). apply snax_assert_Ok, Z.leb_le in Hstake.
  simpl in Hstake.
  split; [exact Hauth |]. split; [exact Hpos |].
  exists res, market, es.
  split; [reflexivity |]. split; [exact Hquota |]. split; [reflexivity |].
  split; [exact Hconv |]. split; [exact Hlow |]. split; [exact Hstake |].
  destruct (0 <? ram_fee (amount es.2)).
  - apply bind_Ok in H as (f & Hf & H).
    unfold mk_asset in Hf. apply bind_Ok in Hf as (u7 & _ & Hf). injection Hf as <-.
    injection H as <-. simpl. rewrite <- app_assoc.
    repeat split; reflexivity.
  - injection H as <-. simpl. repeat split; reflexivity.
Qed.

(** X16. [sellram] needs the authority of the seller and takes exactly
    [bytes] from the seller's quota, which never falls below zero; the row
    stays, with its owner and stake weights, even when the quota reaches
    zero.  No other totals row changes and the resource limits of the row's
    owner are set to the row.  The RAM stake never falls below zero, the
    fee is less than the proceeds, and no delegation, refund, bucket, voter
    or scheduled payout is touched. *)
Theorem sellram_debits_seller ctx account bytes st st' :
  convert_within_range convert ->
  (forall res,
     userres st !! (account, account) = Some res ->
     in_int64 (user_resources.ram_bytes res)) ->
  sellram convert ctx account bytes st = Ok st' ->
  has_auth ctx account = true /\
  (exists res tokens_out,
     userres st !! (account, account) = Some res /\
     0 <= user_resources.ram_bytes res - bytes < user_resources.ram_bytes res /\
     userres st' !! (account, account) =
       Some (user_resources.mk (user_resources.owner res)
               (user_resources.net_weight res) (user_resources.cpu_weight res)
               (user_resources.ram_bytes res - bytes)) /\
     resource_limits st' !! user_resources.owner res =
       Some (user_resources.ram_bytes res - bytes,
             amount (user_resources.net_weight res),
             amount (user_resources.cpu_weight res)) /\
     (let fee := (amount tokens_out + 199) / 200 in
      0 < fee < amount tokens_out /\
      inline_actions st' =
        inline_actions st ++
          [Transfer "snax.ram" "snax.ram" account tokens_out "sell ram";
           Transfer account account "snax.ramfee" (Asset fee CORE_SYMBOL)
             "sell ram fee"]) /\
     global_state.total_ram_stake (_gstate st') =
       int64 (global_state.total_ram_stake (_gstate st) - amount tokens_out) /\
     0 <= global_state.total_ram_stake (_gstate st')) /\
  (forall k, k <> (account, account) -> userres st' !! k = userres st !! k) /\
  global_state.total_activated_stake (_gstate st') =
    global_state.total_activated_stake (_gstate st) /\
  delband st' = delband st /\ refunds st' = refunds st /\
  escrow st' = escrow st /\ _voters st' = _voters st /\ deferred st' = deferred st.
Proof.
  intros Hrange Hram H.
  apply sellram_Ok in H
    as (Hauth & Hpos & res & market & es & Eres & Hquota & _ & Hconv & Hlow & Hstake
        & _ & Hu & Hl & Hg & Hact & Hd & Hr & He & Hv & _ & Hdef).
  simpl in Hu, Hl.
  pose proof (Hram _ Eres) as Tram.
  assert (int64 (user_resources.ram_bytes res - bytes)
          = user_resources.ram_bytes res - bytes) as Eint
    by (apply int64_id; revert Tram; consts; lia).
  rewrite Eint in Hu, Hl.
  pose proof (Hrange _ _ _ _ Hconv) as Hin.
  unfold is_amount_within_range in Hin.
  apply andb_true_iff in Hin as (Hlo%Z.leb_le & Hhi%Z.leb_le).
  split; [exact Hauth |].
  split.
  { exists res, es.2.
    split; [exact Eres |]. split; [lia |].
    split; [rewrite Hu; apply lookup_insert_eq |].
    split; [rewrite Hl; apply lookup_insert_eq |].
    split.
    { assert (0 < (amount es.2 + 199) / 200 < amount es.2) as Hfee.
      { split.
        - apply Z.div_str_pos. lia.
        - apply Z.div_lt_upper_bound; lia. }
      split; [exact Hfee |].
      rewrite ram_fee_exact in Hact by (consts; lia).
      assert ((0 <? (amount es.2 + 199) / 200) = true) as Hfpos
        by (apply Z.ltb_lt; lia).
      rewrite Hfpos in Hact. exact Hact. }
    rewrite Hg. simpl. split; [reflexivity | exact Hstake]. }
  split; [intros k Hk; rewrite Hu; apply lookup_insert_ne; congruence |].
  split; [rewrite Hg; reflexivity |].
  repeat split; assumption.
Qed.

(** ** From an undelegation to its refund *)

Lemma changebw_refund_row_undelegating ctx from receiver net cpu transfer st res :
  symbol net = CORE_SYMBOL -> symbol cpu = CORE_SYMBOL ->
  - max_amount <= amount net <= 0 -> - max_amount <= amount cpu <= 0 ->
  - max_amount <= amount net + amount cpu < 0 ->
  (forall r, refunds st !! (from, from) = Some r ->
     0 <= amount (refund_request.net_amount r) <= max_amount /\
     0 <= amount (refund_request.cpu_amount r) <= max_amount) ->
  changebw_refund_row ctx from receiver net cpu transfer st = Ok res ->
  exists r',
    res = (set_refunds (<[(from, from) := r']> (refunds st)) st, asset0, asset0, true) /\
    refund_request.owner r' =
      match refunds st !! (from, from) with
      | Some r => refund_request.owner r
      | None => from
      end /\
    refund_request.request_time r' = now ctx /\
    refund_request.net_amount r' =
      Asset (match refunds st !! (from, from) with
             | Some r => amount (refund_request.net_amount r)
             | None => 0
             end - amount net) CORE_SYMBOL /\
    refund_request.cpu_amount r' =
      Asset (match refunds st !! (from, from) with
             | Some r => amount (refund_request.cpu_amount r)
             | None => 0
             end - amount cpu) CORE_SYMBOL.
Proof.
  intros Sn Sc Bn Bc Bs Hinv H. unfold changebw_refund_row in H.
  rewrite (int64_id (amount net + amount cpu)) in H by (consts; lia).
  assert ((amount net + amount cpu <? 0) = true) as Elt by (apply Z.ltb_lt; lia).
  rewrite Elt, orb_true_r in H.
  assert ((amount net <? 0) || (amount cpu <? 0) = true) as Edec.
  { apply orb_true_iff. destruct (Z.ltb_spec (amount net) 0); [left; reflexivity |].
    right. apply Z.ltb_lt. lia. }
  destruct net as [an sn], cpu as [ac sc].
  cbn [amount symbol] in Sn, Sc, Bn, Bc, Bs, Elt, Edec, H. subst sn sc.
  destruct (refunds st !! (from, from)) as [r|] eqn:Er.
  - destruct (Hinv r eq_refl) as (Hrn & Hrc).
    destruct r as [ro rt [rn rns] [rc rcs]].
    cbn [amount symbol refund_request.net_amount refund_request.cpu_amount] in Hrn, Hrc.
    apply bind_Ok in H as ([[r' nb'] cb'] & Hupd & H).
    unfold refund_update in Hupd.
    apply bind_Ok in Hupd as (dec & Hdec & Hupd).
    apply decreases_Ok in Hdec. cbn [amount] in Hdec. rewrite Edec in Hdec. subst dec.
    apply bind_Ok in Hupd as (na & Hna & Hupd).
    apply asset_sub_Ok in Hna as (Sna & _ & ->).
    cbn [amount symbol refund_request.net_amount] in Sna, Hupd. subst rns.
    rewrite (int64_id (rn - an)) in Hupd by (consts; lia).
    apply bind_Ok in Hupd as (nneg & Hnneg & Hupd).
    apply asset_lt_zero in Hnneg as (_ & ->). cbn [amount] in Hupd.
    assert ((rn - an <? 0) = false) as E1 by (apply Z.ltb_ge; lia).
    rewrite E1 in Hupd.
    apply bind_Ok in Hupd as (ca & Hca & Hupd).
    apply asset_sub_Ok in Hca as (Sca & _ & ->).
    cbn [amount symbol refund_request.cpu_amount] in Sca, Hupd. subst rcs.
    rewrite (int64_id (rc - ac)) in Hupd by (consts; lia).
    apply bind_Ok in Hupd as (cneg & Hcneg & Hupd).
    apply asset_lt_zero in Hcneg as (_ & ->). cbn [amount] in Hupd.
    assert ((rc - ac <? 0) = false) as E2 by (apply Z.ltb_ge; lia).
    rewrite E2 in Hupd.
    injection Hupd as <- <- <-.
    apply bind_Ok in H as (net_ok & _ & H).
    apply bind_Ok in H as (u1 & _ & H).
    apply bind_Ok in H as (cpu_ok & _ & H).
    apply bind_Ok in H as (u2 & _ & H).
    apply bind_Ok in H as (zero & Hzero & H).
    assert (zero = false) as ->.
    { apply and_then_Ok in Hzero as [(Ha & ->) | (Ha & Hb)]; [reflexivity |].
      apply asset_cmp_Ok in Ha as (_ & Ha). apply asset_cmp_Ok in Hb as (_ & Hb).
      cbn [amount symbol refund_request.net_amount refund_request.cpu_amount asset0]
        in Ha, Hb.
      symmetry in Ha. apply Z.eqb_eq in Ha. subst zero.
      apply Z.eqb_neq. lia. }
    injection H as <-. eexists. split; [reflexivity |]. simpl.
    repeat split; reflexivity.
  - apply bind_Ok in H as (dec & Hdec & H).
    apply decreases_Ok in Hdec. simpl in Hdec. rewrite Edec in Hdec. subst dec.
    apply bind_Ok in H as ([[r' nb'] cb'] & Hnew & H).
    apply bind_Ok in H as (t & Ht & H).
    injection H as <-.
    unfold refund_create in Hnew. simpl in Hnew.
    injection Hnew as <- <- <-.
    apply emplace_Ok in Ht as (_ & ->). simpl.
    assert (forall a, - max_amount <= a <= 0 ->
              (if a <? 0 then asset_neg (Asset a CORE_SYMBOL) else asset0)
              = Asset (0 - a) CORE_SYMBOL /\
              (if a <? 0 then asset0 else Asset a CORE_SYMBOL) = asset0) as Hcase.
    { intros a Ha. destruct (Z.ltb_spec a 0).
      - unfold asset_neg. cbn [amount symbol].
        rewrite int64_id by (consts; lia).
        split; [f_equal; lia | reflexivity].
      - assert (a = 0) as -> by lia. split; reflexivity. }
    destruct (Hcase an Bn) as (-> & ->). destruct (Hcase ac Bc) as (-> & ->).
    eexists. split; [reflexivity |]. simpl. repeat split; reflexivity.
Qed.

(** X17. What is undelegated is what the refund pays.  A successful
    [undelegatebw] of [net] and [cpu] by a staker other than [snax.stake]
    adds [net + cpu] to the staker's pending refund, sends no tokens, and
    schedules the payout with a delay of [refund_delay].  The whole pending
    amount is due afresh from the time of this undelegation: [refund] aborts
    before [now + refund_delay], and from then on, signed by the staker, it
    succeeds and transfers exactly the pending amount from [snax.stake] to
    the staker. *)
Theorem undelegatebw_then_refund ctx (from receiver : account_name) net cpu st st' :
  ledger_ok st ->
  in_int64 (amount net) -> in_int64 (amount cpu) ->
  from <> "snax.stake" ->
  (forall r, refunds st !! (from, from) = Some r -> refund_request.owner r = from) ->
  refund_pending st from + (amount net + amount cpu) <= max_amount ->
  undelegatebw update_votes min_activated_stake ctx from receiver net cpu st = Ok st' ->
  let due := refund_pending st from + (amount net + amount cpu) in
  refund_pending st' from = due /\
  inline_actions st' = inline_actions st /\
  deferred st' !! from = Some (Deferred from from refund_delay from) /\
  (forall ctx',
     now ctx' < uint32 (now ctx + refund_delay) -> aborts (refund ctx' from st')) /\
  (forall ctx',
     has_auth ctx' from = true ->
     uint32 (now ctx + refund_delay) <= now ctx' ->
     exists st'',
       refund ctx' from st' = Ok st'' /\
       inline_actions st'' =
         inline_actions st ++
           [Transfer "snax.stake" "snax.stake" from (Asset due CORE_SYMBOL) "unstake"]).
Proof.
  intros (_ & Hrok) Tn Tc Hfrom Hkey Hcap H due.
  destruct (undelegatebw_Ok_checked _ _ _ _ _ _ _ Tn Tc H)
    as (Sn & Sc & Hn & Hc & Hsum & _).
  apply undelegatebw_Ok in H as (t & H).
  apply changebw_Ok in H as (swap & st1 & st2 & st3 & _ & H1 & H2 & H3 & H4).
  apply changebw_voting_frame in H4 as (_ & _ & _ & Er4 & Ed4 & Ei4 & _).
  assert (refunds st2 = refunds st /\ inline_actions st2 = inline_actions st /\
          deferred st2 = deferred st) as (Er2 & Ei2 & Ed2).
  { apply changebw_totals_Ok in H2 as (pk & tot & _ & _ & _ & _ & _ & ->).
    apply changebw_delband_Ok in H1 as (pk1 & dbo & _ & _ & _ & _ & _ & ->).
    repeat split; reflexivity. }
  assert (amount (asset_neg net) = - amount net /\
          amount (asset_neg cpu) = - amount cpu) as (En & Ec).
  { unfold asset_neg. cbn [amount].
    rewrite !int64_id by (revert Hsum; consts; lia). split; reflexivity. }
  unfold changebw_refund in H3.
  rewrite bool_decide_eq_false_2 in H3 by exact Hfrom.
  apply bind_Ok in H3 as (row & Hrow & H3).
  apply changebw_refund_row_undelegating in Hrow
    as (r' & -> & Ho & Ht & Enet & Ecpu).
  2, 3: reflexivity || assumption.
  2, 3, 4: rewrite ?En, ?Ec; revert Hsum; consts; lia.
  2: { intros r Hr. rewrite Er2 in Hr.
       destruct (Hrok _ _ Hr) as (B1 & B2 & _). split; assumption. }
  simpl in H3. injection H3 as <-.
  rewrite Er2, En, Ec in *.
  assert (refunds st' !! (from, from) = Some r') as Hr'.
  { rewrite Er4. simpl. apply lookup_insert_eq. }
  assert (refund_request.owner r' = from) as Ho'.
  { rewrite Ho. destruct (refunds st !! _) as [r|] eqn:Er;
      [first [exact (Hkey r Er) | exact (Hkey r eq_refl)] | reflexivity]. }
  assert (amount (refund_request.net_amount r') + amount (refund_request.cpu_amount r')
          = due /\
          symbol (refund_request.net_amount r') = CORE_SYMBOL /\
          symbol (refund_request.cpu_amount r') = CORE_SYMBOL /\
          0 <= due) as (Edue & Sn' & Sc' & Hdue).
  { rewrite Enet, Ecpu. cbn [amount symbol]. unfold due, refund_pending.
    destruct (refunds st !! _) as [r|] eqn:Er.
    - destruct (Hrok _ _ Er) as (B1 & B2 & _).
      repeat split; try reflexivity; lia.
    - repeat split; try reflexivity; lia. }
  split.
  { unfold refund_pending at 1. rewrite Hr'. exact Edue. }
  split; [rewrite Ei4; simpl; exact Ei2 |].
  split; [rewrite Ed4; simpl; apply lookup_insert_eq |].
  split.
  - intros ctx' Hearly. unfold refund. rewrite Hr'.
    destruct (require_auth ctx' from) as [[]|msg]; simpl; [| apply aborts_Abort].
    rewrite Ht.
    assert ((uint32 (now ctx + refund_delay) <=? now ctx') = false) as ->
      by (apply Z.leb_gt; exact Hearly).
    simpl. apply aborts_Abort.
  - intros ctx' Hauth Hlate. unfold refund, require_auth.
    rewrite Hauth, Hr'. simpl. rewrite Ht.
    assert ((uint32 (now ctx + refund_delay) <=? now ctx') = true) as ->
      by (apply Z.leb_le; exact Hlate).
    simpl.
    assert (asset_add (refund_request.net_amount r') (refund_request.cpu_amount r')
            = Ok (Asset due CORE_SYMBOL)) as ->.
    { apply asset_add_Ok. rewrite Sn', Sc', Edue.
      rewrite int64_id by (unfold due; revert Hcap Hdue; consts; lia).
      split; [reflexivity |].
      split; [unfold due; revert Hcap Hdue; consts; lia | reflexivity]. }
    simpl. eexists. split; [reflexivity |].
    simpl. rewrite Ho', Ei4. simpl. rewrite Ei2. reflexivity.
Qed.

End Properties.

(** * The properties on the small instance *)

Lemma sample_convert_within_range : convert_within_range Sample.convert.
Proof.
  intros m a s es H. unfold Sample.convert, mk_asset in H.
  apply bind_Ok in H as (r & Hr & H).
  apply bind_Ok in Hr as (u & Hrange & Hr).
  apply snax_assert_Ok in Hrange.
  injection Hr as <-. injection H as <-. exact Hrange.
Defined.

Lemma in_int64_sample (a : Z) :
  (int64_min <=? a) && (a <=? int64_max) = true -> in_int64 a.
Proof.
  intros (H1 & H2)%andb_true_iff. apply Z.leb_le in H1, H2. split; assumption.
Defined.

Lemma buyram_fee_bounds_witness :
  1 <= amount (buyram_fee (Sample.core 1000)) <= 1000.
Proof.
  apply (buyram_fee_bounds (Sample.core 1000)); simpl.
  - lia.
  - unfold int64_max. lia.
Defined.

Lemma buyram_fee_and_conversion_witness :
  exists st',
    buyram Sample.convert (Sample.at_time 1600000000) "alice" "bob" (Sample.core 1000)
      Sample.genesis = Ok st' /\
    inline_actions st' =
      [Transfer "alice" "alice" "snax.ram" (Sample.core 995) "buy ram";
       Transfer "alice" "alice" "snax.ramfee" (Sample.core 5) "ram fee"].
Proof.
  eexists. split; [vm_compute; reflexivity |].
  eapply (buyram_fee_and_conversion Sample.convert (Sample.at_time 1600000000)
            "alice" "bob" (Sample.core 1000) Sample.genesis).
  - unfold int64_max. simpl. lia.
  - vm_compute. reflexivity.
Defined.

Lemma sellram_requirements_witness :
  exists st',
    sellram Sample.convert (Sample.at_time 1600000000) "bob" 995 Sample.with_ram = Ok st' /\
    0 < 995.
Proof.
  eexists. split; [vm_compute; reflexivity |].
  eapply (sellram_requirements Sample.convert (Sample.at_time 1600000000) "bob" 995
            Sample.with_ram).
  - exact sample_convert_within_range.
  - vm_compute. reflexivity.
Defined.

(** C6 as the claim states it fails: without the authorisation of the
    owner, [refund] aborts although the refund row exists and its delay has
    passed. *)
Lemma refund_aborts_without_authority :
  aborts (refund (Sample.unsigned_at 1600000000) "alice" Sample.with_refund) /\
  ~ (refunds Sample.with_refund !! ("alice", "alice") = None \/
     exists req,
       refunds Sample.with_refund !! ("alice", "alice") = Some req /\
       refund_request.request_time req + refund_delay
       > now (Sample.unsigned_at 1600000000)).
Proof.
  split.
  - exists "missing required authority"%string. vm_compute. reflexivity.
  - intros [H | (req & Hreq & Hlate)].
    + vm_compute in H. discriminate H.
    + vm_compute in Hreq. injection Hreq as <-. vm_compute in Hlate. discriminate Hlate.
Defined.

Lemma refund_outcome_witness :
  exists st',
    refund (Sample.at_time 1600000000) "alice" Sample.with_refund = Ok st' /\
    refunds st' !! ("alice", "alice") = None.
Proof.
  eexists. split; [vm_compute; reflexivity |].
  destruct (proj2 (refund_outcome (Sample.at_time 1600000000) "alice" Sample.with_refund)
              _ ltac:(vm_compute; reflexivity))
    as (req & _ & _ & _ & _ & Hgone).
  exact Hgone.
Defined.

Lemma changebw_rejects_mixed_deltas_witness :
  aborts (changebw Sample.update_votes (Sample.at_time 1600000000) "alice" "bob"
            (Sample.core (-5)) (Sample.core 3) false Sample.genesis).
Proof.
  apply (changebw_rejects_mixed_deltas Sample.update_votes (Sample.at_time 1600000000)
           "alice" "bob" (Sample.core (-5)) (Sample.core 3) false Sample.genesis).
  - apply in_int64_sample. reflexivity.
  - apply in_int64_sample. reflexivity.
  - left. simpl. lia.
Defined.

Lemma reachable_alice_staked :
  reachable Sample.convert Sample.update_votes Sample.min_activated_stake
    Sample.escrow_primary_key Sample.alice_staked.
Proof.
  eapply (reachable_changebw _ _ _ _ Sample.genesis _ (Sample.at_time 1600000000)
            "alice" "alice" (Sample.core 100) (Sample.core 100) false).
  - apply reachable_empty; reflexivity.
  - apply in_int64_sample. reflexivity.
  - apply in_int64_sample. reflexivity.
  - vm_compute. reflexivity.
Defined.

Lemma reachable_alice_unstaking :
  reachable Sample.convert Sample.update_votes Sample.min_activated_stake
    Sample.escrow_primary_key Sample.alice_unstaking.
Proof.
  eapply (reachable_changebw _ _ _ _ Sample.alice_staked _ (Sample.at_time 1600000100)
            "alice" "alice" (Sample.core (-30)) (Sample.core (-20)) false).
  - exact reachable_alice_staked.
  - apply in_int64_sample. reflexivity.
  - apply in_int64_sample. reflexivity.
  - vm_compute. reflexivity.
Defined.

(** C3 as the claim states it fails: [alice], whose refund of 30 + 20 is
    pending with its payout scheduled, stakes 10 + 10 on [bob]; the refund
    stays as it is, with both amounts above zero, and yet the payout is
    cancelled. *)
Lemma changebw_cancels_payout_of_kept_refund :
  reachable Sample.convert Sample.update_votes Sample.min_activated_stake
    Sample.escrow_primary_key Sample.alice_unstaking /\
  refunds Sample.alice_unstaking !! ("alice", "alice") =
    Some (refund_request.mk "alice" 1600000100 (Sample.core 30) (Sample.core 20)) /\
  deferred Sample.alice_unstaking !! "alice" =
    Some (Deferred "alice" "alice" refund_delay "alice") /\
  exists st',
    changebw Sample.update_votes (Sample.at_time 1600000200) "alice" "bob"
      (Sample.core 10) (Sample.core 10) false Sample.alice_unstaking = Ok st' /\
    refunds st' !! ("alice", "alice") =
      Some (refund_request.mk "alice" 1600000100 (Sample.core 30) (Sample.core 20)) /\
    deferred st' !! "alice" = None /\
    ~ (deferred st' !! "alice" = None <-> refunds st' !! ("alice", "alice") = None).
Proof.
  split; [exact reachable_alice_unstaking |].
  split; [vm_compute; reflexivity |].
  split; [vm_compute; reflexivity |].
  eexists. split; [vm_compute; reflexivity |].
  split; [vm_compute; reflexivity |].
  split; [vm_compute; reflexivity |].
  intros (Hto & _). specialize (Hto ltac:(vm_compute; reflexivity)).
  vm_compute in Hto. discriminate Hto.
Defined.

(** [alice], whose refund of 30 + 20 is pending, stakes 30 + 20 on herself
    again: this uses the refund up, so the row is erased and no payout is
    left. *)
Lemma changebw_refund_invariant_witness :
  refunds Sample.alice_unstaking !! ("alice", "alice") =
    Some (refund_request.mk "alice" 1600000100 (Sample.core 30) (Sample.core 20)) /\
  exists st',
    changebw Sample.update_votes (Sample.at_time 1600000200) "alice" "alice"
      (Sample.core 30) (Sample.core 20) false Sample.alice_unstaking = Ok st' /\
    refunds st' !! ("alice", "alice") = None /\
    deferred st' !! "alice" = None.
Proof.
  assert (refunds Sample.alice_unstaking !! ("alice", "alice") =
            Some (refund_request.mk "alice" 1600000100 (Sample.core 30) (Sample.core 20)))
    as Hold by (vm_compute; reflexivity).
  split; [exact Hold |].
  eexists. split; [vm_compute; reflexivity |].
  destruct (changebw_refund_invariant Sample.convert Sample.update_votes
              Sample.min_activated_stake Sample.escrow_primary_key
              (Sample.at_time 1600000200) "alice" "alice"
              (Sample.core 30) (Sample.core 20) false Sample.alice_unstaking _
              reachable_alice_unstaking
              (in_int64_sample 30 eq_refl) (in_int64_sample 20 eq_refl)
              ltac:(vm_compute; reflexivity))
    as (_ & _ & _ & Hupd & Hpay & _).
  destruct (Hupd _ Hold) as (Herase & _).
  assert (refunds
            (Sample.after
               (changebw Sample.update_votes (Sample.at_time 1600000200) "alice" "alice"
                  (Sample.core 30) (Sample.core 20) false Sample.alice_unstaking)
               Sample.alice_unstaking) !! ("alice", "alice") = None) as Hnone.
  { apply Herase. split.
    - split; [discriminate | left; split; reflexivity].
    - simpl. lia. }
  split; [exact Hnone |].
  pose proof (Hpay ltac:(discriminate)) as Hp. revert Hp.
  destruct (decide (_ /\ is_Some _)) as [Hyes|Hno]; intros Hp; [| exact Hp].
  destruct Hyes as (_ & x & Hx).
  pose proof (eq_trans (eq_sym Hx) Hnone) as Habs. discriminate Habs.
Defined.

(** [alice] stakes 100 + 100 on [bob], who gives everything back. *)
Lemma changebw_leaves_no_zero_rows_witness :
  exists st1 st2,
    delegatebw Sample.update_votes (Sample.at_time 1600000000) "alice" "bob"
      (Sample.core 100) (Sample.core 100) false Sample.genesis = Ok st1 /\
    changebw Sample.update_votes (Sample.at_time 1600000100) "bob" "alice"
      (Sample.core (-100)) (Sample.core (-100)) false st1 = Ok st2 /\
    forall k r,
      delband st2 !! k = Some r ->
      0 <= amount (delegated_bandwidth.net_weight r) /\
      0 <= amount (delegated_bandwidth.cpu_weight r) /\
      ~ (amount (delegated_bandwidth.net_weight r) = 0 /\
         amount (delegated_bandwidth.cpu_weight r) = 0).
Proof.
  eexists. eexists.
  split; [vm_compute; reflexivity |].
  split; [vm_compute; reflexivity |].
  eapply (changebw_leaves_no_zero_rows Sample.update_votes Sample.min_activated_stake
            Sample.escrow_primary_key (Sample.at_time 1600000100) "bob" "alice"
            (Sample.core (-100)) (Sample.core (-100)) false).
  - eapply (reach_delegatebw _ _ _ Sample.genesis _ (Sample.at_time 1600000000)
              "alice" "bob" (Sample.core 100) (Sample.core 100) false).
    + apply reach_empty; reflexivity.
    + vm_compute. reflexivity.
  - vm_compute. reflexivity.
Defined.

(** C8, where the code misses it.  [b1] has staked 500 000 000 000 twice on
    [alice].  Taking 500 000 000 000 + 400 000 000 000 of it back with
    [undelegatebw( alice, b1 )], so by a [changebw] with two negative deltas,
    succeeds and leaves [b1] a staked balance of 100 000 000 000, below the
    770 461 627 493 that are not vested yet: the voter row is that of
    [receiver], but the vesting is checked only when [from] is [b1]. *)
Lemma changebw_b1_vesting_missed_on_swap :
  voter_info.staked <$> _voters Sample.b1_delegated !! "b1" = Some 1000000000000 /\
  exists st',
    changebw Sample.update_votes (Sample.at_time 1600000100) "alice" "b1"
      (Sample.core (-500000000000)) (Sample.core (-400000000000)) false
      Sample.b1_delegated = Ok st' /\
    undelegatebw Sample.update_votes Sample.min_activated_stake
      (Sample.at_time 1600000100) "alice" "b1"
      (Sample.core 500000000000) (Sample.core 400000000000)
      Sample.b1_delegated = Ok st' /\
    voter_info.staked <$> _voters st' !! "b1" = Some 100000000000 /\
    b1_claimable (Sample.at_time 1600000100) = Ok 229538372507 /\
    100000000000 < int64 (max_claimable - 229538372507) /\
    aborts (validate_b1_vesting (Sample.at_time 1600000100) 100000000000).
Proof.
  split; [vm_compute; reflexivity |].
  eexists. split; [vm_compute; reflexivity |].
  split; [vm_compute; reflexivity |].
  split; [vm_compute; reflexivity |].
  split; [vm_compute; reflexivity |].
  split; [vm_compute; reflexivity |].
  eexists. vm_compute. reflexivity.
Qed.

Lemma changebw_b1_vesting_witness :
  exists st',
    changebw Sample.update_votes (Sample.at_time 1600000000) "b1" "b1"
      (Sample.core 1000000000000) (Sample.core 0) false Sample.genesis = Ok st' /\
    exists swap claimable,
      changebw_swap (Sample.core 1000000000000) (Sample.core 0) = Ok swap /\
      b1_claimable (Sample.at_time 1600000000) = Ok claimable.
Proof.
  eexists. split; [vm_compute; reflexivity |].
  destruct (changebw_b1_vesting Sample.update_votes (Sample.at_time 1600000000) "b1" "b1"
              (Sample.core 1000000000000) (Sample.core 0) false Sample.genesis _
              ltac:(vm_compute; reflexivity) eq_refl)
    as (swap & claimable & Hsw & Hcl & _).
  exists swap, claimable. split; assumption.
Defined.

Lemma undelegatebw_reads_reverse_row_witness :
  aborts (undelegatebw Sample.update_votes Sample.min_activated_stake
            (Sample.at_time 1600000000) "alice" "bob" (Sample.core 50) (Sample.core 50)
            Sample.with_escrow).
Proof.
  apply (undelegatebw_reads_reverse_row Sample.update_votes Sample.min_activated_stake
           (Sample.at_time 1600000000) "alice" "bob" (Sample.core 50) (Sample.core 50)
           Sample.with_escrow).
  vm_compute. reflexivity.
Defined.




(** * Further properties on the small instance *)

Lemma ledger_ok_genesis : ledger_ok Sample.genesis.
Proof. split; intros k r Hk; simpl in Hk; rewrite lookup_empty in Hk; discriminate Hk. Defined.

Lemma ledger_ok_with_refund : ledger_ok Sample.with_refund.
Proof.
  split; intros k r Hk; simpl in Hk.
  - rewrite lookup_empty in Hk. discriminate Hk.
  - apply lookup_singleton_Some in Hk as (_ & <-).
    unfold refund_row_ok, max_amount. simpl. lia.
Defined.

Lemma ledger_ok_with_escrow : ledger_ok Sample.with_escrow.
Proof.
  split; intros k r Hk; simpl in Hk.
  - apply lookup_singleton_Some in Hk as (_ & <-).
    unfold delband_row_bounded, int64_max. simpl. lia.
  - rewrite lookup_empty in Hk. discriminate Hk.
Defined.

(** [alice] stakes 100 + 100 on herself: 200 move to [snax.stake]. *)
Lemma changebw_accounts_for_every_unit_witness :
  exists st',
    changebw Sample.update_votes (Sample.at_time 1600000000) "alice" "alice"
      (Sample.core 100) (Sample.core 100) false Sample.genesis = Ok st' /\
    inline_actions st' =
      [Transfer "alice" "alice" "snax.stake" (Sample.core 200) "stake bandwidth"].
Proof.
  eexists. split; [vm_compute; reflexivity |].
  exact (proj2 (changebw_accounts_for_every_unit Sample.update_votes
                  (Sample.at_time 1600000000) "alice" "alice"
                  (Sample.core 100) (Sample.core 100) false Sample.genesis _
                  ledger_ok_genesis
                  (in_int64_sample 100 eq_refl) (in_int64_sample 100 eq_refl)
                  ltac:(discriminate) ltac:(vm_compute; reflexivity))).
Defined.

Lemma changebw_of_stake_pool_witness :
  exists st',
    changebw Sample.update_votes (Sample.at_time 1600000000) "snax.stake" "bob"
      (Sample.core 100) (Sample.core 100) false Sample.genesis = Ok st' /\
    inline_actions st' = [].
Proof.
  eexists. split; [vm_compute; reflexivity |].
  exact (proj2 (proj2 (changebw_of_stake_pool Sample.update_votes
                         (Sample.at_time 1600000000) "bob"
                         (Sample.core 100) (Sample.core 100) false Sample.genesis _
                         ltac:(vm_compute; reflexivity)))).
Defined.

Lemma changebw_signer_witness :
  has_auth (Sample.at_time 1600000000) "alice" = true.
Proof.
  exact (proj1 (changebw_signer Sample.update_votes
                  (Sample.at_time 1600000000) "alice" "bob"
                  (Sample.core 100) (Sample.core 100) false Sample.genesis _
                  ltac:(vm_compute; reflexivity))).
Defined.

Lemma delegatebw_requirements_witness :
  exists st',
    delegatebw Sample.update_votes (Sample.at_time 1600000000) "alice" "bob"
      (Sample.core 100) (Sample.core 100) false Sample.genesis = Ok st' /\
    0 < 100 + 100 <= max_amount.
Proof.
  eexists. split; [vm_compute; reflexivity |].
  destruct (delegatebw_requirements Sample.update_votes
              (Sample.at_time 1600000000) "alice" "bob"
              (Sample.core 100) (Sample.core 100) false Sample.genesis _
              (in_int64_sample 100 eq_refl) (in_int64_sample 100 eq_refl)
              ltac:(vm_compute; reflexivity))
    as (_ & _ & _ & _ & Hsum & _).
  exact Hsum.
Defined.

Lemma undelegatebw_requirements_witness :
  exists st',
    undelegatebw Sample.update_votes Sample.min_activated_stake
      (Sample.at_time 1600000002) "alice" "alice" (Sample.core 20) (Sample.core 0)
      Sample.with_escrow = Ok st' /\
    Sample.min_activated_stake
    <= global_state.total_activated_stake (_gstate Sample.with_escrow).
Proof.
  eexists. split; [vm_compute; reflexivity |].
  destruct (undelegatebw_requirements Sample.update_votes Sample.min_activated_stake
              (Sample.at_time 1600000002) "alice" "alice"
              (Sample.core 20) (Sample.core 0) Sample.with_escrow _
              (in_int64_sample 20 eq_refl) (in_int64_sample 0 eq_refl)
              ltac:(vm_compute; reflexivity))
    as (_ & _ & _ & _ & _ & Hact & _).
  exact Hact.
Defined.

Lemma changebw_delegation_row_witness :
  exists st',
    changebw Sample.update_votes (Sample.at_time 1600000000) "alice" "bob"
      (Sample.core 100) (Sample.core 100) false Sample.genesis = Ok st' /\
    delband st' !! ("alice", "bob") =
      Some (delegated_bandwidth.mk "alice" "bob" (Sample.core 100) (Sample.core 100)).
Proof.
  eexists. split; [vm_compute; reflexivity |].
  pose proof (changebw_delegation_row Sample.update_votes
                (Sample.at_time 1600000000) "alice" "bob"
                (Sample.core 100) (Sample.core 100) false Sample.genesis _
                (in_int64_sample 100 eq_refl) (in_int64_sample 100 eq_refl)
                (proj1 ledger_ok_genesis)
                ltac:(vm_compute; reflexivity)) as H.
  exact (proj2 (proj2 H)).
Defined.

Lemma changebw_totals_and_limits_witness :
  exists st',
    changebw Sample.update_votes (Sample.at_time 1600000000) "alice" "bob"
      (Sample.core 100) (Sample.core 100) false Sample.genesis = Ok st' /\
    resource_limits st' !! "bob" = Some (0, 100, 100).
Proof.
  eexists. split; [vm_compute; reflexivity |].
  pose proof (changebw_totals_and_limits Sample.update_votes
                (Sample.at_time 1600000000) "alice" "bob"
                (Sample.core 100) (Sample.core 100) false Sample.genesis _
                (in_int64_sample 100 eq_refl) (in_int64_sample 100 eq_refl)
                ltac:(intros k old Hk; simpl in Hk; rewrite lookup_empty in Hk;
                      discriminate Hk)
                ltac:(vm_compute; reflexivity)) as H.
  exact (proj1 (proj2 (proj2 H))).
Defined.

Lemma refund_pays_once_witness :
  exists st',
    refund (Sample.at_time 1600000000) "alice" Sample.with_refund = Ok st' /\
    aborts (refund (Sample.at_time 1600000001) "alice" st').
Proof.
  eexists. split; [vm_compute; reflexivity |].
  destruct (refund_pays_once (Sample.at_time 1600000000) "alice" Sample.with_refund _
              ltac:(vm_compute; reflexivity))
    as (_ & Htwice & _).
  exact (Htwice (Sample.at_time 1600000001)).
Defined.

(** [alice], who has a refund pending, stakes 10 + 10 on [bob]. *)
Lemma changebw_cancels_scheduled_payout_witness :
  exists st',
    changebw Sample.update_votes (Sample.at_time 1600000000) "alice" "bob"
      (Sample.core 10) (Sample.core 10) false Sample.with_refund = Ok st' /\
    refunds st' = refunds Sample.with_refund /\
    deferred st' !! "alice" = None.
Proof.
  eexists. split; [vm_compute; reflexivity |].
  destruct (changebw_cancels_scheduled_payout Sample.update_votes
              (Sample.at_time 1600000000) "alice" "bob"
              (Sample.core 10) (Sample.core 10) false Sample.with_refund _
              ledger_ok_with_refund
              (in_int64_sample 10 eq_refl) (in_int64_sample 10 eq_refl)
              ltac:(discriminate) ltac:(right; discriminate) ltac:(simpl; lia)
              ltac:(vm_compute; reflexivity))
    as (Hr & Hd & _).
  split; [exact Hr | exact Hd].
Defined.


Lemma undelegatebw_escrow_frame_witness :
  exists st',
    undelegatebw Sample.update_votes Sample.min_activated_stake
      (Sample.at_time 1600000002) "alice" "alice" (Sample.core 20) (Sample.core 0)
      Sample.with_escrow = Ok st' /\
    (escrow st' !! ("bob", 1%N) = escrow Sample.with_escrow !! ("bob", 1%N) \/
     exists r remaining,
       escrow Sample.with_escrow !! ("bob", 1%N) = Some r /\
       "bob" = "alice" /\ (1 <= 1)%N /\ escrow_bandwidth.owner r = "alice" /\
       escrow st' !! ("bob", 1%N) =
         Some (escrow_bandwidth.mk "alice" (escrow_bandwidth.initial_amount r) remaining
                 (escrow_bandwidth.created r) (escrow_bandwidth.period_count r))).
Proof.
  eexists. split; [vm_compute; reflexivity |].
  exact (undelegatebw_escrow_frame Sample.update_votes Sample.min_activated_stake
           (Sample.at_time 1600000002) "alice" "alice"
           (Sample.core 20) (Sample.core 0) Sample.with_escrow _
           ltac:(vm_compute; reflexivity) "bob" 1%N).
Defined.

Lemma undelegatebw_zero_period_bucket_witness :
  aborts (undelegatebw Sample.update_votes Sample.min_activated_stake
            (Sample.at_time 1700000000) "alice" "alice" (Sample.core 20) (Sample.core 0)
            Sample.with_zero_period_escrow).
Proof.
  apply (undelegatebw_zero_period_bucket Sample.update_votes Sample.min_activated_stake
           (Sample.at_time 1700000000) "alice" "alice" (Sample.core 20) (Sample.core 0)
           Sample.with_zero_period_escrow []
           1600000000%N
           (escrow_bandwidth.mk "alice" (Sample.core 100) (Sample.core 100) 1600000000 0)
           []).
  - vm_compute. reflexivity.
  - apply Forall_nil_2.
  - reflexivity.
  - reflexivity.
Defined.

(** [alice] stakes 100 on herself under an escrow of zero periods. *)
Lemma escrowbw_bucket_witness :
  exists st',
    escrowbw Sample.update_votes Sample.escrow_primary_key (Sample.at_time 1600000000)
      "alice" "alice" (Sample.core 100) (Sample.core 0) false 0 Sample.genesis = Ok st' /\
    exists st1,
      delegatebw Sample.update_votes (Sample.at_time 1600000000) "alice" "alice"
        (Sample.core 100) (Sample.core 0) false Sample.genesis = Ok st1 /\
      escrow Sample.genesis !! ("alice", 1600000000%N) = None.
Proof.
  eexists. split; [vm_compute; reflexivity |].
  destruct (proj1 (escrowbw_bucket Sample.update_votes Sample.escrow_primary_key
                     (Sample.at_time 1600000000) "alice" "alice"
                     (Sample.core 100) (Sample.core 0) false 0 Sample.genesis _
                     (in_int64_sample 100 eq_refl) (in_int64_sample 0 eq_refl))
              ltac:(vm_compute; reflexivity))
    as (st1 & Hd & Hfree & _).
  exists st1. split; [exact Hd | exact Hfree].
Defined.


Lemma buyrambytes_bills_the_quote_witness :
  exists st',
    buyrambytes Sample.convert (Sample.at_time 1600000000) "alice" "bob" 1000
      Sample.genesis = Ok st' /\
    exists market quote,
      _rammarket Sample.genesis = Some market /\
      Sample.convert market (Asset 1000 RAM_SYMBOL) CORE_SYMBOL = Ok quote.
Proof.
  eexists. split; [vm_compute; reflexivity |].
  destruct (buyrambytes_bills_the_quote Sample.convert (Sample.at_time 1600000000)
              "alice" "bob" 1000 Sample.genesis _
              sample_convert_within_range ltac:(vm_compute; reflexivity))
    as (market & quote & es & row & Hm & Hq & _).
  exists market, quote. split; [exact Hm | exact Hq].
Defined.

Lemma sellram_debits_seller_witness :
  exists st',
    sellram Sample.convert (Sample.at_time 1600000000) "bob" 995 Sample.with_ram = Ok st' /\
    has_auth (Sample.at_time 1600000000) "bob" = true.
Proof.
  eexists. split; [vm_compute; reflexivity |].
  exact (proj1 (sellram_debits_seller Sample.convert (Sample.at_time 1600000000)
                  "bob" 995 Sample.with_ram _
                  sample_convert_within_range
                  ltac:(intros res Hk; simpl in Hk;
                        apply lookup_singleton_Some in Hk as (_ & <-);
                        apply in_int64_sample; reflexivity)
                  ltac:(vm_compute; reflexivity))).
Defined.

(** [alice] takes 20 of her stake back and is refunded 20 three days later. *)
Lemma undelegatebw_then_refund_witness :
  exists st',
    undelegatebw Sample.update_votes Sample.min_activated_stake
      (Sample.at_time 1600000002) "alice" "alice" (Sample.core 20) (Sample.core 0)
      Sample.with_escrow = Ok st' /\
    refund_pending st' "alice" = 20 /\
    deferred st' !! "alice" = Some (Deferred "alice" "alice" refund_delay "alice").
Proof.
  eexists. split; [vm_compute; reflexivity |].
  destruct (undelegatebw_then_refund Sample.update_votes Sample.min_activated_stake
              (Sample.at_time 1600000002) "alice" "alice"
              (Sample.core 20) (Sample.core 0) Sample.with_escrow _
              ledger_ok_with_escrow
              (in_int64_sample 20 eq_refl) (in_int64_sample 0 eq_refl)
              ltac:(discriminate)
              ltac:(intros r Hk; simpl in Hk; rewrite lookup_empty in Hk;
                    discriminate Hk)
              ltac:(vm_compute; discriminate)
              ltac:(vm_compute; reflexivity))
    as (Hp & _ & Hd & _).
  split; [exact Hp | exact Hd].
Defined.
